(** * infogram-go: request signing, dispatch and resource codecs

    A shallow embedding of the Go client for the Infogram REST API
    (package [infogram]: client.go, types.go and the revisions of them that
    the repository carries), and the properties of its signing routine,
    its dispatcher [Do], its resource operations and its JSON codecs.

    The Go standard library pieces the client calls (crypto/sha1,
    crypto/hmac, encoding/base64, fmt's %x, net/url's escaping and
    url.Values) are written out as executable functions so that the golden
    values of the repository's tests can be recomputed here. *)

From Stdlib Require Import ZArith Lia List Ascii String.
From stdpp Require Import base list strings gmap sorting pretty.

Local Open Scope Z_scope.

(** ** Bytes

    A Go [[]byte] is a list of integers in [0, 256); a Go [string] is a
    [string] of 8-bit characters. *)

Module Bytes.

Definition byte_of_ascii (a : ascii) : Z := Z.of_N (N_of_ascii a).
Definition ascii_of_byte (b : Z) : ascii := ascii_of_N (Z.to_N (b mod 256)).

Definition of_string (s : string) : list Z :=
  map byte_of_ascii (list_ascii_of_string s).

End Bytes.

(** ** crypto/sha1 *)

Module SHA1.

Definition w32 (x : Z) : Z := Z.land x 0xFFFFFFFF.
Definition add32 (a b : Z) : Z := w32 (a + b).
Definition not32 (x : Z) : Z := Z.lxor x 0xFFFFFFFF.
(* bits.RotateLeft32 *)
Definition RotateLeft32 (x n : Z) : Z :=
  w32 (Z.lor (Z.shiftl x n) (Z.shiftr x (32 - n))).

Definition init0 : Z := 0x67452301.
Definition init1 : Z := 0xEFCDAB89.
Definition init2 : Z := 0x98BADCFE.
Definition init3 : Z := 0x10325476.
Definition init4 : Z := 0xC3D2E1F0.

Definition _K0 : Z := 0x5A827999.
Definition _K1 : Z := 0x6ED9EBA1.
Definition _K2 : Z := 0x8F1BBCDC.
Definition _K3 : Z := 0xCA62C1D6.

Definition chunk : nat := 64%nat.

(* binary.BigEndian.PutUint64 *)
Definition PutUint64 (v : Z) : list Z :=
  map (fun i => Z.land (Z.shiftr v (8 * i)) 0xFF) [7; 6; 5; 4; 3; 2; 1; 0].

(* the padding checkSum writes: a 1 bit, 0 bits up to 56 bytes mod 64,
   then the length in bits *)
Definition padding (len : Z) : list Z :=
  let t := if len mod 64 <? 56 then 56 - len mod 64
           else 64 + 56 - len mod 64 in
  0x80 :: repeat 0 (Z.to_nat (t - 1)) ++ PutUint64 (Z.shiftl len 3).

Fixpoint be_words (p : list Z) : list Z :=
  match p with
  | b0 :: b1 :: b2 :: b3 :: rest =>
      Z.lor (Z.lor (Z.lor (Z.shiftl b0 24) (Z.shiftl b1 16)) (Z.shiftl b2 8)) b3
        :: be_words rest
  | _ => []
  end.

(* The message schedule, newest word first: given w[i-1], w[i-2], ...
   the next word is rotl1 (w[i-3] ^ w[i-8] ^ w[i-14] ^ w[i-16]). *)
Definition next_word (rev_w : list Z) : Z :=
  RotateLeft32
    (Z.lxor (Z.lxor (Z.lxor (nth 2 rev_w 0) (nth 7 rev_w 0)) (nth 13 rev_w 0))
       (nth 15 rev_w 0)) 1.

Fixpoint schedule (n : nat) (rev_w : list Z) : list Z :=
  match n with
  | O => rev_w
  | S n' => schedule n' (next_word rev_w :: rev_w)
  end.

Definition round_f (i : nat) (b c d : Z) : Z :=
  if (i <? 20)%nat then Z.lor (Z.land b c) (Z.land (not32 b) d)
  else if (i <? 40)%nat then Z.lxor (Z.lxor b c) d
  else if (i <? 60)%nat then Z.lor (Z.land (Z.lor b c) d) (Z.land b c)
  else Z.lxor (Z.lxor b c) d.

Definition round_k (i : nat) : Z :=
  if (i <? 20)%nat then _K0
  else if (i <? 40)%nat then _K1
  else if (i <? 60)%nat then _K2
  else _K3.

Record digest := Digest { h0 : Z; h1 : Z; h2 : Z; h3 : Z; h4 : Z }.

Definition round (st : digest) (iw : nat * Z) : digest :=
  let '(i, w) := iw in
  let '(Digest a b c d e) := st in
  let t := add32 (add32 (add32 (add32 (RotateLeft32 a 5) (round_f i b c d)) e) w)
             (round_k i) in
  Digest t a (RotateLeft32 b 30) c d.

Definition block (dig : digest) (p : list Z) : digest :=
  let w := rev (schedule 64 (rev (be_words p))) in
  let '(Digest a b c d e) := fold_left round (combine (seq 0 80) w) dig in
  Digest (add32 (h0 dig) a) (add32 (h1 dig) b) (add32 (h2 dig) c)
         (add32 (h3 dig) d) (add32 (h4 dig) e).

Fixpoint blocks (n : nat) (dig : digest) (p : list Z) : digest :=
  match n with
  | O => dig
  | S n' => blocks n' (block dig (firstn chunk p)) (skipn chunk p)
  end.

Definition PutUint32 (v : Z) : list Z :=
  map (fun i => Z.land (Z.shiftr v (8 * i)) 0xFF) [3; 2; 1; 0].

(* sha1.Sum *)
Definition Sum (data : list Z) : list Z :=
  let p := data ++ padding (Z.of_nat (length data)) in
  let d := blocks (Nat.div (length p) chunk)
             (Digest init0 init1 init2 init3 init4) p in
  PutUint32 (h0 d) ++ PutUint32 (h1 d) ++ PutUint32 (h2 d)
    ++ PutUint32 (h3 d) ++ PutUint32 (h4 d).

Definition Size : nat := 20%nat.
Definition BlockSize : nat := 64%nat.

End SHA1.

(** ** crypto/hmac over sha1.New

    [hmac.New] returns a [hash.Hash]: [Write] feeds the message, [Sum b]
    appends the MAC of what was written so far to [b]. *)

Module HMAC.

Record hash := Hash { key : list Z; written : list Z }.

Definition New (k : list Z) : hash := Hash k [].
Definition Write (h : hash) (p : list Z) : hash :=
  Hash (key h) (written h ++ p).

Definition block_key (k : list Z) : list Z :=
  let k' := if (SHA1.BlockSize <? length k)%nat then SHA1.Sum k else k in
  k' ++ repeat 0 (SHA1.BlockSize - length k')%nat.

(* the MAC of a whole message under a key *)
Definition mac (k msg : list Z) : list Z :=
  let k0 := block_key k in
  let ipad := map (fun b => Z.lxor b 0x36) k0 in
  let opad := map (fun b => Z.lxor b 0x5c) k0 in
  SHA1.Sum (opad ++ SHA1.Sum (ipad ++ msg)).

Definition Sum (h : hash) (b : list Z) : list Z :=
  b ++ mac (key h) (written h).

End HMAC.

(** ** fmt.Sprintf("%x", bytes) and base64.StdEncoding *)

Module Enc.

Definition hexdigit (tbl : string) (n : Z) : ascii :=
  match String.get (Z.to_nat n) tbl with
  | Some c => c
  | None => "0"%char
  end.

Definition lowerhex : string := "0123456789abcdef".
Definition upperhex : string := "0123456789ABCDEF".

Fixpoint hex (bs : list Z) : string :=
  match bs with
  | [] => EmptyString
  | b :: rest =>
      String (hexdigit lowerhex (Z.shiftr b 4))
        (String (hexdigit lowerhex (Z.land b 15)) (hex rest))
  end.

Definition encodeStd : string :=
  "ABCDEFGHIJKLMNOPQRSTUVWXYZabcdefghijklmnopqrstuvwxyz0123456789+/".

Definition b64char (n : Z) : ascii :=
  match String.get (Z.to_nat n) encodeStd with
  | Some c => c
  | None => "="%char
  end.

Fixpoint EncodeToString (src : list Z) : string :=
  match src with
  | [] => EmptyString
  | [a] =>
      String (b64char (Z.shiftr a 2))
        (String (b64char (Z.shiftl (Z.land a 3) 4)) "==")
  | [a; b] =>
      String (b64char (Z.shiftr a 2))
        (String (b64char (Z.lor (Z.shiftl (Z.land a 3) 4) (Z.shiftr b 4)))
           (String (b64char (Z.shiftl (Z.land b 15) 2)) "="))
  | a :: b :: c :: rest =>
      String (b64char (Z.shiftr a 2))
        (String (b64char (Z.lor (Z.shiftl (Z.land a 3) 4) (Z.shiftr b 4)))
           (String (b64char (Z.lor (Z.shiftl (Z.land b 15) 2) (Z.shiftr c 6)))
              (String (b64char (Z.land c 63)) (EncodeToString rest))))
  end.

End Enc.

(** ** strings *)

Module Strings.
Local Open Scope string_scope.

(* the segments of [s] between occurrences of [sep]; never empty *)
Fixpoint Split (sep : ascii) (s : string) : list string :=
  match s with
  | EmptyString => [EmptyString]
  | String c rest =>
      if Ascii.eqb c sep then EmptyString :: Split sep rest
      else match Split sep rest with
           | seg :: segs => String c seg :: segs
           | [] => [String c EmptyString]
           end
  end.

(* strings.Cut: before, after, found *)
Fixpoint Cut (sep : ascii) (s : string) : string * string * bool :=
  match s with
  | EmptyString => (EmptyString, EmptyString, false)
  | String c rest =>
      if Ascii.eqb c sep then (EmptyString, rest, true)
      else let '(before, after, found) := Cut sep rest in
           (String c before, after, found)
  end.

Fixpoint Contains (c : ascii) (s : string) : bool :=
  match s with
  | EmptyString => false
  | String c' rest => Ascii.eqb c' c || Contains c rest
  end.

Definition Join (elems : list string) (sep : string) : string :=
  String.concat sep elems.

End Strings.

(** ** Sorting string slices

    [sort.Slice(keys, func(i, j) { return keys[i] < keys[j] })] on the keys
    of a map: Go compares strings byte-wise, and the keys of a map are
    pairwise distinct, so the outcome is the one sorted arrangement
    whatever algorithm the library runs (lemma [sorted_keys_unique]). *)

Module Sort.

(* keys[i] < keys[j] *)
Definition less (a b : string) : bool := String.ltb a b.

Definition string_le (a b : string) : Prop := String.leb a b = true.

Global Instance string_le_dec : RelDecision string_le :=
  fun a b => bool_eq_dec (String.leb a b) true.

Definition Slice (keys : list string) : list string :=
  merge_sort string_le keys.

End Sort.

(** ** net/url *)

Module Url.
Local Open Scope string_scope.

Definition is_alnum (c : ascii) : bool :=
  let n := Bytes.byte_of_ascii c in
  ((97 <=? n) && (n <=? 122) || (65 <=? n) && (n <=? 90)
   || (48 <=? n) && (n <=? 57))%Z.

(* shouldEscape(c, encodeQueryComponent) *)
Definition shouldEscape (c : ascii) : bool :=
  if is_alnum c then false
  else if Ascii.eqb c "-" || Ascii.eqb c "_" || Ascii.eqb c "."
          || Ascii.eqb c "~" then false
  else true.

Fixpoint QueryEscape (s : string) : string :=
  match s with
  | EmptyString => EmptyString
  | String c rest =>
      if shouldEscape c then
        if Ascii.eqb c " " then String "+" (QueryEscape rest)
        else
          let n := Bytes.byte_of_ascii c in
          String "%"
            (String (Enc.hexdigit Enc.upperhex (Z.shiftr n 4))
               (String (Enc.hexdigit Enc.upperhex (Z.land n 15))
                  (QueryEscape rest)))
      else String c (QueryEscape rest)
  end.

Definition unhex (c : ascii) : option Z :=
  let n := Bytes.byte_of_ascii c in
  (if (48 <=? n) && (n <=? 57) then Some (n - 48)
   else if (97 <=? n) && (n <=? 102) then Some (n - 97 + 10)
   else if (65 <=? n) && (n <=? 70) then Some (n - 65 + 10)
   else None)%Z.

(* unescape(s, encodeQueryComponent); None is an EscapeError *)
Fixpoint QueryUnescape (s : string) : option string :=
  match s with
  | EmptyString => Some EmptyString
  | String "%" (String a (String b rest)) =>
      match unhex a, unhex b, QueryUnescape rest with
      | Some x, Some y, Some r =>
          Some (String (Bytes.ascii_of_byte (Z.lor (Z.shiftl x 4) y)) r)
      | _, _, _ => None
      end
  | String "%" _ => None
  | String "+" rest => String " " <$> QueryUnescape rest
  | String c rest => String c <$> QueryUnescape rest
  end.

(** *** url.Values: map[string][]string *)

Definition Get (v : gmap string (list string)) (key : string) : string :=
  match v !! key with
  | Some (x :: _) => x
  | _ => ""
  end.

Definition Set_ (v : gmap string (list string)) (key value : string)
  : gmap string (list string) :=
  <[key := [value]]> v.

Definition Add (v : gmap string (list string)) (key value : string)
  : gmap string (list string) :=
  <[key := (default [] (v !! key) ++ [value])%list]> v.

(* the keys a [for key := range v] loop visits, in some order *)
Definition range_keys (v : gmap string (list string)) : list string :=
  elements (dom v).

Definition Encode (v : gmap string (list string)) : string :=
  Strings.Join
    (flat_map
       (fun k => map (fun x => QueryEscape k ++ "=" ++ QueryEscape x)
                     (default [] (v !! k)))
       (Sort.Slice (range_keys v)))
    "&".

(* one [key=value] segment of parseQuery's loop *)
Definition parse_segment (m : gmap string (list string)) (seg : string)
  : gmap string (list string) :=
  if Strings.Contains ";" seg then m
  else if String.eqb seg "" then m
  else
    let '(key, value, _) := Strings.Cut "=" seg in
    match QueryUnescape key with
    | None => m
    | Some key1 =>
        match QueryUnescape value with
        | None => m
        | Some value1 => Add m key1 value1
        end
    end.

(* url.ParseQuery, the error dropped: every caller here ignores it *)
Definition ParseQuery (query : string) : gmap string (list string) :=
  fold_left parse_segment (Strings.Split "&" query) ∅.

(* copyValues of net/http *)
Definition copyValues (dst src : gmap string (list string))
  : gmap string (list string) :=
  fold_left
    (fun d k => <[k := (default [] (d !! k) ++ default [] (src !! k))%list]> d)
    (Sort.Slice (range_keys src)) dst.

(** *** url.URL

    The parts of a parsed URL that the client reads. The path is kept in
    the escaped form that [EscapedPath] returns; user info, opaque part
    and fragment are absent from the URLs the client builds. *)

Record URL := mkURL {
  Scheme : string;
  Host : string;
  Path : string;
  RawQuery : string;
}.

Definition EscapedPath (u : URL) : string := Path u.

Definition Query (u : URL) : gmap string (list string) :=
  ParseQuery (RawQuery u).

Definition URL_String (u : URL) : string :=
  (if String.eqb (Scheme u) "" then "" else Scheme u ++ ":")
  ++ (if String.eqb (Scheme u) "" && String.eqb (Host u) "" then ""
      else (if String.eqb (Host u) "" && String.eqb (Path u) "" then ""
            else "//") ++ Host u)
  ++ (match Path u with
      | String c _ =>
          if negb (Ascii.eqb c "/") && negb (String.eqb (Host u) "")
          then "/" else ""
      | EmptyString => ""
      end)
  ++ Path u
  ++ (if String.eqb (RawQuery u) "" then "" else "?" ++ RawQuery u).

Definition with_RawQuery (u : URL) (q : string) : URL :=
  mkURL (Scheme u) (Host u) (Path u) q.

End Url.

(** ** Errors, requests, responses *)

Inductive error :=
  | EOF                                     (* io.EOF *)
  | Canceled                                (* context.Canceled *)
  | DeadlineExceeded                        (* context.DeadlineExceeded *)
  | errorString (s : string)                (* errors.New, fmt.Errorf *)
  | wrapError (msg : string) (err : error). (* fmt.Errorf with %w *)

Fixpoint Error (e : error) : string :=
  match e with
  | EOF => "EOF"
  | Canceled => "context canceled"
  | DeadlineExceeded => "context deadline exceeded"
  | errorString s => s
  | wrapError msg err => msg ++ Error err
  end.

Global Instance error_eq_dec : EqDecision error.
Proof. solve_decision. Defined.

(** A call either returns or panics (a nil dereference at run time). *)
Inductive outcome (A : Type) :=
  | Returns (a : A)
  | Panics (msg : string).
Arguments Returns {A} a.
Arguments Panics {A} msg.

Definition nil_dereference : string :=
  "runtime error: invalid memory address or nil pointer dereference".

(** An [*http.Request], as far as signing and form parsing read and write
    it. [ContentType] is the media type of the Content-Type header, a
    [Body] of [None] is a nil body and [Some s] holds the bytes not yet
    read; a nil [PostForm] or [Form] is [None]. *)
Record Request := mkRequest {
  Method : string;
  URL : Url.URL;
  ContentType : string;
  Body : option string;
  PostForm : option (gmap string (list string));
  Form : option (gmap string (list string));
  RequestURI : string;
}.

Definition MethodGet : string := "GET".
Definition MethodDelete : string := "DELETE".
Definition MethodPost : string := "POST".
Definition MethodPut : string := "PUT".
Definition MethodPatch : string := "PATCH".

(** [res.Body]: the bytes a read delivers and the error, if any, that the
    read ends with. *)
Record ReadCloser := mkBody {
  unread : string;
  read_error : option error;
}.

Record Response := mkResponse {
  StatusCode : Z;
  ResBody : ReadCloser;
}.

(* io.ReadAll *)
Definition ReadAll (b : ReadCloser) : string * option error :=
  (unread b, read_error b).

Module Http.
Local Open Scope string_scope.

(* 10 << 20, the largest form body parsePostForm accepts *)
Definition maxFormSize : Z := 10 * 2 ^ 20.

(* parsePostForm: the values read from a form body, and what is left of
   the body; None where the Go code leaves [vs] nil. The body is read
   through a reader limited to maxFormSize+1 bytes. *)
Definition parsePostForm (r : Request)
  : option (gmap string (list string)) * option string :=
  match Body r with
  | None => (None, None)
  | Some b =>
      if String.eqb (ContentType r) "application/x-www-form-urlencoded" then
        if (maxFormSize <? Z.of_nat (String.length b))%Z
        then (None,
              Some (String.substring (Z.to_nat (maxFormSize + 1))
                      (String.length b - Z.to_nat (maxFormSize + 1)) b))
        else (Some (Url.ParseQuery b), Some "")
      else (None, Some b)
  end.

Definition is_post_put_patch (m : string) : bool :=
  String.eqb m MethodPost || String.eqb m MethodPut || String.eqb m MethodPatch.

(* Request.ParseForm, its error dropped: SignRequest ignores it *)
Definition ParseForm (r : Request) : Request :=
  let read :=
    match PostForm r with
    | Some pf => (pf, Body r)
    | None =>
        let '(vs, body) :=
          if is_post_put_patch (Method r) then parsePostForm r
          else (None, Body r) in
        (default ∅ vs, body)
    end in
  let postForm := fst read in
  let body := snd read in
  let form :=
    match Form r with
    | Some f => f
    | None =>
        let newValues := Url.ParseQuery (Url.RawQuery (URL r)) in
        if (0 <? size postForm)%nat
        then Url.copyValues (Url.copyValues ∅ postForm) newValues
        else newValues
    end in
  mkRequest (Method r) (URL r) (ContentType r) body (Some postForm)
    (Some form) (RequestURI r).

Definition with_URL (r : Request) (u : Url.URL) : Request :=
  mkRequest (Method r) u (ContentType r) (Body r) (PostForm r) (Form r)
    (RequestURI r).

Definition with_Form (r : Request) (f : gmap string (list string)) : Request :=
  mkRequest (Method r) (URL r) (ContentType r) (Body r) (PostForm r) (Some f)
    (RequestURI r).

Definition with_RequestURI (r : Request) (s : string) : Request :=
  mkRequest (Method r) (URL r) (ContentType r) (Body r) (PostForm r) (Form r) s.

End Http.

Definition DefaultEndpoint : string := "https://infogr.am/service/v1".

(** The client's strings. Its HTTP client is the [RoundTrip] function the
    dispatching code below takes. *)
Record Client := mkClient {
  Endpoint : string;
  APIKey : string;
  APISecret : string;
}.

(** The values a run of [SignRequest] computes on its way: the parameter
    set as read, the set the signature is computed over, the sorted keys,
    the serialized parameters, the signing input, the bytes that get
    encoded, and the set written back. *)
Record signing := mkSigning {
  data_read : gmap string (list string);
  data_signed : gmap string (list string);
  dataKeys : list string;
  params : string;
  sig : string;
  signature : list Z;
  data_written : gmap string (list string);
}.

(** [for idx, key := range keys]: the keys with their indices *)
Definition range_idx (keys : list string) : list (Z * string) :=
  combine (map Z.of_nat (seq 0 (length keys))) keys.

(** What [Do] does to the response body, in order. *)
Inductive event :=
  | EvReadAll      (* io.ReadAll(res.Body) *)
  | EvCopy         (* io.Copy(w, res.Body) *)
  | EvDecode       (* json.NewDecoder(res.Body).Decode(v) *)
  | EvClose.       (* the deferred res.Body.Close() *)

Global Instance event_eq_dec : EqDecision event.
Proof. solve_decision. Defined.

(** The [v] argument of [Do]: nil, an [io.Writer] (its buffer), or a
    pointer to a value to decode into. *)
Inductive target (T : Type) :=
  | NilTarget
  | WriterTarget (w : string)
  | ValueTarget (x : T).
Arguments NilTarget {T}.
Arguments WriterTarget {T} w.
Arguments ValueTarget {T} x.

(** What a call of [Do] leaves behind: the returned pair, the target as
    updated, and the body events. *)
Record done (T : Type) := mkDone {
  returned : outcome (option Response * option error);
  target_after : target T;
  events : list event;
}.
Arguments mkDone {T} returned target_after events.
Arguments returned {T} d.
Arguments target_after {T} d.
Arguments events {T} d.

(** ** client.go:1-139 — functional options, hex signature over the path *)

Module RevA.
Local Open Scope string_scope.

(* lines 69-77 *)
Definition write_params (query : gmap string (list string))
    (queryKeys : list string) : string :=
  fold_left
    (fun buf '(idx, key) =>
       buf ++ Url.QueryEscape key ++ "=" ++ Url.QueryEscape (Url.Get query key)
           ++ (if (idx <? Z.of_nat (length queryKeys))%Z then "&" else ""))
    (range_idx queryKeys) "".

(* [visit] is the order in which [for key := range query] meets the keys *)
Definition SignRequest_run (visit : gmap string (list string) -> list string)
    (c : Client) (req : Request) : signing :=
  let query := Url.Query (URL req) in
  let sig0 := Method req ++ "&" ++ Url.EscapedPath (URL req) ++ "&" in
  let queryKeys := Sort.Slice (visit query) in
  let params := write_params query queryKeys in
  let sig := sig0 ++ Url.QueryEscape params in
  let h := HMAC.New (Bytes.of_string (APISecret c)) in
  let signature := HMAC.Sum h (Bytes.of_string sig) in
  mkSigning query query queryKeys params sig signature
    (Url.Set_ query "api_sig" (Enc.hex signature)).

Definition SignRequest_visiting (visit : gmap string (list string) -> list string)
    (c : Client) (req : Request) : Request * option error :=
  let s := SignRequest_run visit c req in
  (Http.with_URL req (Url.with_RawQuery (URL req) (Url.Encode (data_written s))),
   None).

Definition SignRequest : Client -> Request -> Request * option error :=
  SignRequest_visiting Url.range_keys.

Section Operations.
Context {I : Type}.
Variable http_NewRequest : string -> string -> Request + error.
Variable RoundTrip : Request -> option Response * option error.
Variable DecodeList : ReadCloser -> list I -> list I * option error.
Variable DecodeOne : ReadCloser -> I -> I * option error.
Variable zero : I.

Definition signAndDo (c : Client) (req : Request)
  : outcome (option Response * option error) :=
  match SignRequest c req with
  | (_, Some err) => Returns (None, Some err)
  | (req1, None) =>
      match RoundTrip req1 with
      | (_, Some err) => Returns (None, Some err)
      | (res, None) => Returns (res, None)
      end
  end.

(* lines 103-120; a slice is a list, the nil slice the empty list *)
Definition Infographics (c : Client) : outcome (list I * option error) :=
  match http_NewRequest MethodGet
          (Endpoint c ++ "/" ++ "infographics" ++ "?api_key=" ++ APIKey c) with
  | inr err => Returns ([], Some (wrapError "new infographics request: " err))
  | inl req =>
      match signAndDo c req with
      | Panics msg => Panics msg
      | Returns (_, Some err) => Returns ([], None)
      | Returns (None, None) => Panics nil_dereference
      | Returns (Some res, None) =>
          match DecodeList (ResBody res) [] with
          | (_, Some err) => Returns ([], Some err)
          | (infographics, None) => Returns (infographics, None)
          end
      end
  end.

(* lines 122-139 *)
Definition Infographic (c : Client) (id : Z) : outcome (option I * option error) :=
  match http_NewRequest MethodGet
          (Endpoint c ++ "/" ++ "infographics" ++ "/" ++ pretty id
             ++ "?api_key=" ++ APIKey c) with
  | inr err => Returns (None, Some (wrapError "new infographic request: " err))
  | inl req =>
      match signAndDo c req with
      | Panics msg => Panics msg
      | Returns (_, Some err) => Returns (None, None)
      | Returns (None, None) => Panics nil_dereference
      | Returns (Some res, None) =>
          match DecodeOne (ResBody res) zero with
          | (_, Some err) => Returns (None, Some err)
          | (infographic, None) => Returns (Some infographic, None)
          end
      end
  end.

End Operations.
End RevA.

(** ** client.go:140-358 — Do, base64 signature over the full URL *)

Module RevB.
Local Open Scope string_scope.

(* lines 173-220. [RoundTrip] is c.HTTPClient.Do once the setup has put
   the default client in place; [ctx_err] is ctx.Err() when ctx.Done() is
   ready and None when it is not. *)
Definition Do {T} (RoundTrip : Request -> option Response * option error)
    (Decode : ReadCloser -> T -> T * option error)
    (ctx_err : option error) (req : Request) (v : target T) : done T :=
  let req := Http.with_RequestURI req "" in
  let '(res, err) := RoundTrip req in
  match err, ctx_err with
  | Some _, Some cerr => mkDone (Returns (None, Some cerr)) v []
  | _, _ =>
      match res with
      | None => mkDone (Panics nil_dereference) v []
      | Some res =>
          if (StatusCode res >? 299)%Z then
            match ReadAll (ResBody res) with
            | (_, Some err) => mkDone (Returns (None, Some err)) v [EvReadAll; EvClose]
            | (_, None) =>
                mkDone
                  (Returns (None,
                     Some (errorString
                             ("code: " ++ pretty (StatusCode res) ++ ", message: "))))
                  v [EvReadAll; EvClose]
            end
          else
            match v with
            | NilTarget => mkDone (Returns (Some res, None)) v [EvClose]
            | WriterTarget w =>
                mkDone (Returns (Some res, None))
                  (WriterTarget (w ++ unread (ResBody res))) [EvCopy; EvClose]
            | ValueTarget x =>
                let '(x1, decErr) := Decode (ResBody res) x in
                let decErr :=
                  match decErr with Some EOF => None | _ => decErr end in
                match decErr with
                | Some err =>
                    mkDone (Returns (None, Some err)) (ValueTarget x1)
                      [EvDecode; EvClose]
                | None =>
                    mkDone (Returns (Some res, None)) (ValueTarget x1)
                      [EvDecode; EvClose]
                end
            end
      end
  end.

Definition reads_query (method : string) : bool :=
  String.eqb method MethodGet || String.eqb method MethodDelete.

(* lines 248-256 *)
Definition write_params (data : gmap string (list string))
    (dataKeys : list string) : string :=
  fold_left
    (fun buf '(idx, key) =>
       buf ++ key ++ "=" ++ Url.Get data key
           ++ (if (idx <? Z.of_nat (length dataKeys) - 1)%Z then "&" else ""))
    (range_idx dataKeys) "".

(* lines 226-232: the request after the first switch, and [data] *)
Definition read_data (req : Request) : Request * gmap string (list string) :=
  if reads_query (Method req) then (req, Url.Query (URL req))
  else let req1 := Http.ParseForm req in (req1, default ∅ (Form req1)).

Definition SignRequest_run (visit : gmap string (list string) -> list string)
    (c : Client) (req : Request) : signing :=
  let data0 := snd (read_data req) in
  let data := Url.Set_ data0 "api_key" (APIKey c) in
  let sig0 :=
    Method req ++ "&" ++ Url.QueryEscape (Url.URL_String (URL req)) ++ "&" in
  let dataKeys := Sort.Slice (visit data) in
  let params := write_params data dataKeys in
  let sig := sig0 ++ Url.QueryEscape params in
  let h := HMAC.Write (HMAC.New (Bytes.of_string (APISecret c)))
             (Bytes.of_string sig) in
  let signature := HMAC.Sum h [] in
  mkSigning data0 data dataKeys params sig signature
    (Url.Add data "api_sig" (Enc.EncodeToString signature)).

(* [data] aliases [req.Form] on the form branch: the map the request
   holds is the one that Set and Add have updated *)
Definition SignRequest_visiting (visit : gmap string (list string) -> list string)
    (c : Client) (req : Request) : Request * option error :=
  let s := SignRequest_run visit c req in
  let req1 := fst (read_data req) in
  (if reads_query (Method req)
   then Http.with_URL req1
          (Url.with_RawQuery (URL req1) (Url.Encode (data_written s)))
   else Http.with_Form req1 (data_written s),
   None).

Definition SignRequest : Client -> Request -> Request * option error :=
  SignRequest_visiting Url.range_keys.

Section Operations.
Context {I Th : Type}.
Variable http_NewRequest : string -> string -> Request + error.
Variable RoundTrip : Request -> option Response * option error.
Variable DecodeInfographics : ReadCloser -> list I -> list I * option error.
Variable DecodeInfographic : ReadCloser -> I -> I * option error.
Variable DecodeThemes : ReadCloser -> list Th -> list Th * option error.
Variable zero : I.

Definition value_of {T} (d : T) (v : target T) : T :=
  match v with ValueTarget x => x | _ => d end.

(* lines 277-295; context.Background() is never done *)
Definition Infographics (c : Client) : outcome (list I * option error) :=
  match http_NewRequest MethodGet (Endpoint c ++ "/" ++ "infographics") with
  | inr err => Returns ([], Some (wrapError "new infographics request: " err))
  | inl req =>
      match SignRequest c req with
      | (_, Some err) => Returns ([], Some err)
      | (req, None) =>
          let d := Do RoundTrip DecodeInfographics None req (ValueTarget []) in
          match returned d with
          | Panics msg => Panics msg
          | Returns (_, Some err) => Returns ([], Some err)
          | Returns (_, None) => Returns (value_of [] (target_after d), None)
          end
      end
  end.

(* lines 298-316 *)
Definition Infographic (c : Client) (id : string)
  : outcome (option I * option error) :=
  match http_NewRequest MethodGet
          (Endpoint c ++ "/" ++ "infographics" ++ "/" ++ id) with
  | inr err => Returns (None, Some (wrapError "new infographic request: " err))
  | inl req =>
      match SignRequest c req with
      | (_, Some err) => Returns (None, Some err)
      | (req, None) =>
          let d := Do RoundTrip DecodeInfographic None req (ValueTarget zero) in
          match returned d with
          | Panics msg => Panics msg
          | Returns (_, Some err) => Returns (None, None)
          | Returns (_, None) =>
              Returns (Some (value_of zero (target_after d)), None)
          end
      end
  end.

(* lines 319-337 *)
Definition UserInfographics (c : Client) (id : string)
  : outcome (list I * option error) :=
  match http_NewRequest MethodGet
          (Endpoint c ++ "/" ++ "users" ++ "/" ++ id ++ "/" ++ "infographics") with
  | inr err =>
      Returns ([], Some (wrapError "new user infographics request: " err))
  | inl req =>
      match SignRequest c req with
      | (_, Some err) => Returns ([], Some err)
      | (req, None) =>
          let d := Do RoundTrip DecodeInfographics None req (ValueTarget []) in
          match returned d with
          | Panics msg => Panics msg
          | Returns (_, Some err) => Returns ([], None)
          | Returns (_, None) => Returns (value_of [] (target_after d), None)
          end
      end
  end.

(* lines 340-358 *)
Definition Themes (c : Client) : outcome (list Th * option error) :=
  match http_NewRequest MethodGet (Endpoint c ++ "/" ++ "themes") with
  | inr err => Returns ([], Some (wrapError "new themes request: " err))
  | inl req =>
      match SignRequest c req with
      | (_, Some err) => Returns ([], Some err)
      | (req, None) =>
          let d := Do RoundTrip DecodeThemes None req (ValueTarget []) in
          match returned d with
          | Panics msg => Panics msg
          | Returns (_, Some err) => Returns ([], Some err)
          | Returns (_, None) => Returns (value_of [] (target_after d), None)
          end
      end
  end.

End Operations.
End RevB.

(** ** client_test.go:243-457 — Do surfacing the body, hex signature over
    the path with the API key set first *)

Module RevC.
Local Open Scope string_scope.

(* lines 305-350 *)
Definition Do {T} (RoundTrip : Request -> option Response * option error)
    (Decode : ReadCloser -> T -> T * option error)
    (ctx_err : option error) (req : Request) (v : target T) : done T :=
  let '(res, err) := RoundTrip req in
  match err, ctx_err with
  | Some _, Some cerr => mkDone (Returns (None, Some cerr)) v []
  | _, _ =>
      match res with
      | None => mkDone (Panics nil_dereference) v []
      | Some res =>
          if (StatusCode res >? 299)%Z then
            match ReadAll (ResBody res) with
            | (_, Some err) => mkDone (Returns (None, Some err)) v [EvReadAll; EvClose]
            | (errBody, None) =>
                mkDone (Returns (None, Some (errorString errBody)))
                  v [EvReadAll; EvClose]
            end
          else
            match v with
            | NilTarget => mkDone (Returns (Some res, None)) v [EvClose]
            | WriterTarget w =>
                mkDone (Returns (Some res, None))
                  (WriterTarget (w ++ unread (ResBody res))) [EvCopy; EvClose]
            | ValueTarget x =>
                let '(x1, decErr) := Decode (ResBody res) x in
                let decErr :=
                  match decErr with Some EOF => None | _ => decErr end in
                match decErr with
                | Some err =>
                    mkDone (Returns (None, Some err)) (ValueTarget x1)
                      [EvDecode; EvClose]
                | None =>
                    mkDone (Returns (Some res, None)) (ValueTarget x1)
                      [EvDecode; EvClose]
                end
            end
      end
  end.

(* lines 353-388; the loop at 369-377 is the text of RevA.write_params *)
Definition SignRequest_run (visit : gmap string (list string) -> list string)
    (c : Client) (req : Request) : signing :=
  let query0 := Url.Query (URL req) in
  let query := Url.Set_ query0 "api_key" (APIKey c) in
  let sig0 := Method req ++ "&" ++ Url.EscapedPath (URL req) ++ "&" in
  let queryKeys := Sort.Slice (visit query) in
  let params := RevA.write_params query queryKeys in
  let sig := sig0 ++ Url.QueryEscape params in
  let h := HMAC.New (Bytes.of_string (APISecret c)) in
  let signature := HMAC.Sum h (Bytes.of_string sig) in
  mkSigning query0 query queryKeys params sig signature
    (Url.Set_ query "api_sig" (Enc.hex signature)).

Definition SignRequest_visiting (visit : gmap string (list string) -> list string)
    (c : Client) (req : Request) : Request * option error :=
  let s := SignRequest_run visit c req in
  (Http.with_URL req (Url.with_RawQuery (URL req) (Url.Encode (data_written s))),
   None).

Definition SignRequest : Client -> Request -> Request * option error :=
  SignRequest_visiting Url.range_keys.

Section Operations.
Context {I : Type}.
Variable http_NewRequest : string -> string -> Request + error.
Variable RoundTrip : Request -> option Response * option error.
Variable DecodeInfographic : ReadCloser -> I -> I * option error.
Variable zero : I.

(* lines 412-425 *)
Definition Infographic (c : Client) (id : Z) : outcome (option I * option error) :=
  match http_NewRequest MethodGet
          (Endpoint c ++ "/" ++ "infographics" ++ "/" ++ pretty id
             ++ "?api_key=" ++ APIKey c) with
  | inr err => Returns (None, Some (wrapError "new infographic request: " err))
  | inl req =>
      let d := Do RoundTrip DecodeInfographic None req (ValueTarget zero) in
      match returned d with
      | Panics msg => Panics msg
      | Returns (_, Some err) => Returns (None, None)
      | Returns (_, None) =>
          Returns (Some (RevB.value_of zero (target_after d)), None)
      end
  end.

End Operations.
End RevC.

(** ** client_test.go:458-645 — RevA with doc comments; its SignRequest
    (lines 518-552) is the text of client.go:54-88 *)

Module RevD.

Definition SignRequest_run := RevA.SignRequest_run.
Definition SignRequest_visiting := RevA.SignRequest_visiting.
Definition SignRequest : Client -> Request -> Request * option error :=
  SignRequest_visiting Url.range_keys.

End RevD.

(** ** UTF-8, as far as encoding/json rewrites Go strings *)

Module Utf8.

Definition byte (c : ascii) : Z := Bytes.byte_of_ascii c.

Definition between (lo hi : Z) (c : ascii) : bool :=
  (lo <=? byte c) && (byte c <=? hi).

(* a continuation byte *)
Definition cont (c : ascii) : bool := between 0x80 0xBF c.

(* the second byte a three-byte and a four-byte lead accept
   (utf8.acceptRanges) *)
Definition second_of_three (lead c : ascii) : bool :=
  if byte lead =? 0xE0 then between 0xA0 0xBF c
  else if byte lead =? 0xED then between 0x80 0x9F c
  else cont c.

Definition second_of_four (lead c : ascii) : bool :=
  if byte lead =? 0xF0 then between 0x90 0xBF c
  else if byte lead =? 0xF4 then between 0x80 0x8F c
  else cont c.

(* U+FFFD in UTF-8 *)
Definition RuneError : string :=
  String (Bytes.ascii_of_byte 0xEF)
    (String (Bytes.ascii_of_byte 0xBF)
       (String (Bytes.ascii_of_byte 0xBD) EmptyString)).

(** What encoding/json writes for a Go string, read as a string again:
    the encoder walks the string with utf8.DecodeRuneInString, keeps every
    well-formed sequence and puts U+FFFD in the place of every byte at
    which decoding gives (RuneError, 1). *)
Fixpoint coerce (s : string) : string :=
  match s with
  | EmptyString => EmptyString
  | String c0 r0 =>
      if byte c0 <? 0x80 then String c0 (coerce r0)
      else
        let bad := (RuneError ++ coerce r0)%string in
        match r0 with
        | EmptyString => bad
        | String c1 r1 =>
            if between 0xC2 0xDF c0 then
              if cont c1 then String c0 (String c1 (coerce r1)) else bad
            else
              match r1 with
              | EmptyString => bad
              | String c2 r2 =>
                  if between 0xE0 0xEF c0 then
                    if second_of_three c0 c1 && cont c2
                    then String c0 (String c1 (String c2 (coerce r2)))
                    else bad
                  else
                    match r2 with
                    | EmptyString => bad
                    | String c3 r3 =>
                        if between 0xF0 0xF4 c0
                           && second_of_four c0 c1 && cont c2 && cont c3
                        then String c0 (String c1 (String c2 (String c3 (coerce r3))))
                        else bad
                    end
              end
        end
  end.

(* utf8.ValidString *)
Definition valid (s : string) : bool := String.eqb (coerce s) s.

End Utf8.

(** ** encoding/json, as far as the codecs of types.go use it

    A [document] stands for a JSON text; printing and scanning the text are
    not modelled. [any] is a Go [interface{}] holding what the codecs put
    in or find there; a [float64] is named by the number it was read from.
    Strings are coerced to valid UTF-8 on the way out and on the way in,
    as encoding/json does. *)

Module Json.

Local Unset Elimination Schemes.

Inductive document :=
  | Null
  | Bool (b : bool)
  | Number (n : Z)
  | Str (s : string)
  | Array (elems : list document)
  | Object (members : list (string * document)).

Inductive any :=
  | AInt (n : Z)                        (* int *)
  | AFloat64 (n : Z)                    (* float64 *)
  | AString (s : string)                (* string *)
  | ABool (b : bool)                    (* bool *)
  | ANil                                (* nil *)
  | ASlice (elems : list any)           (* []interface{} *)
  | AMap (members : list (string * any)). (* map[string]interface{} *)

Local Set Elimination Schemes.

(* what json.Marshal writes for the values the codecs store; strings
   come out as valid UTF-8 *)
Fixpoint encode (x : any) : document :=
  match x with
  | AInt n => Number n
  | AFloat64 n => Number n
  | AString s => Str (Utf8.coerce s)
  | ABool b => Bool b
  | ANil => Null
  | ASlice elems => Array (map encode elems)
  | AMap members =>
      Object (map (fun kv => (Utf8.coerce (fst kv), encode (snd kv))) members)
  end.

(* what json.Unmarshal stores in an interface value: float64 for numbers,
   strings coerced to valid UTF-8 *)
Fixpoint decode (d : document) : any :=
  match d with
  | Null => ANil
  | Bool b => ABool b
  | Number n => AFloat64 n
  | Str s => AString (Utf8.coerce s)
  | Array elems => ASlice (map decode elems)
  | Object members =>
      AMap (map (fun kv => (Utf8.coerce (fst kv), decode (snd kv))) members)
  end.

(* json.Marshal of a map[string]interface{}: the keys in sorted order *)
Definition Marshal (data : gmap string any) : document * option error :=
  (Object (map (fun k => (Utf8.coerce k, encode (default ANil (data !! k))))
             (Sort.Slice (elements (dom data)))),
   None).

(* json.Unmarshal into a non-nil map[string]interface{} *)
Definition Unmarshal (bytes : document) (data : gmap string any)
  : gmap string any * option error :=
  match bytes with
  | Object members =>
      (fold_left (fun m kv => <[Utf8.coerce (fst kv) := decode (snd kv)]> m)
         members data,
       None)
  | Null => (data, None)
  | _ =>
      (data,
       Some (errorString
               "json: cannot unmarshal into Go value of type map[string]interface {}"))
  end.

End Json.

(** ** types.go:1-157 — the resource records and their codecs *)

Module Types.
Local Open Scope string_scope.

Section Codecs.
Context {Time : Type}.
Variable time_Parse : string -> option Time.   (* time.Parse(time.RFC3339, _) *)
Variable url_Parse : string -> option Url.URL. (* url.Parse *)

Record Infoghaphic := mkInfoghaphic {
  Id : Z;
  Title : string;
  Thumbnail : option Url.URL;
  ThemeId : Z;
  Published : bool;
  Modified : Time;
  URL : option Url.URL;
}.

(* URL.String on a *url.URL, which dereferences its receiver *)
Definition String_ (u : option Url.URL) : outcome string :=
  match u with
  | Some u => Returns (Url.URL_String u)
  | None => Panics nil_dereference
  end.

(* lines 21-37 *)
Definition MarshalJSON (i : Infoghaphic) : outcome (Json.document * option error) :=
  let data := (∅ : gmap string Json.any) in
  let data := <["id" := Json.AInt (Id i)]> data in
  let data := <["title" := Json.AString (Title i)]> data in
  match String_ (Thumbnail i) with
  | Panics msg => Panics msg
  | Returns thumbnail =>
      let data := <["thumbnail_url" := Json.AString thumbnail]> data in
      let data := <["theme_id" := Json.AInt (ThemeId i)]> data in
      let data := <["published" := Json.ABool (Published i)]> data in
      match String_ (URL i) with
      | Panics msg => Panics msg
      | Returns url =>
          let data := <["url" := Json.AString url]> data in
          match Json.Marshal data with
          | (_, Some err) =>
              Returns (Json.Null, Some (wrapError "marshalling infographic: " err))
          | (bytes, None) => Returns (bytes, None)
          end
      end
  end.

Definition set_Id (i : Infoghaphic) (v : Z) : Infoghaphic :=
  mkInfoghaphic v (Title i) (Thumbnail i) (ThemeId i) (Published i) (Modified i) (URL i).
Definition set_Title (i : Infoghaphic) (v : string) : Infoghaphic :=
  mkInfoghaphic (Id i) v (Thumbnail i) (ThemeId i) (Published i) (Modified i) (URL i).
Definition set_Thumbnail (i : Infoghaphic) (v : option Url.URL) : Infoghaphic :=
  mkInfoghaphic (Id i) (Title i) v (ThemeId i) (Published i) (Modified i) (URL i).
Definition set_ThemeId (i : Infoghaphic) (v : Z) : Infoghaphic :=
  mkInfoghaphic (Id i) (Title i) (Thumbnail i) v (Published i) (Modified i) (URL i).
Definition set_Published (i : Infoghaphic) (v : bool) : Infoghaphic :=
  mkInfoghaphic (Id i) (Title i) (Thumbnail i) (ThemeId i) v (Modified i) (URL i).
Definition set_Modified (i : Infoghaphic) (v : Time) : Infoghaphic :=
  mkInfoghaphic (Id i) (Title i) (Thumbnail i) (ThemeId i) (Published i) v (URL i).
Definition set_URL (i : Infoghaphic) (v : option Url.URL) : Infoghaphic :=
  mkInfoghaphic (Id i) (Title i) (Thumbnail i) (ThemeId i) (Published i) (Modified i) v.

(** One [if val, found := data[key]; found { ... }] block: [step] asserts
    the type, reports an error or stores the field. *)
Definition field {R} (data : gmap string Json.any) (key : string)
    (step : Json.any -> R -> R + error)
    (k : R -> R * option error) (r : R) : R * option error :=
  match data !! key with
  | None => k r
  | Some val =>
      match step val r with
      | inr err => (r, Some err)
      | inl r1 => k r1
      end
  end.

(* lines 39-109 *)
Definition UnmarshalJSON (i : Infoghaphic) (bytes : Json.document)
  : Infoghaphic * option error :=
  match Json.Unmarshal bytes ∅ with
  | (_, Some err) => (i, Some (wrapError "unmarshalling infographic: " err))
  | (data, None) =>
      field data "id"
        (fun val i => match val with
                      | Json.AInt v => inl (set_Id i v)
                      | _ => inr (errorString "id needs to be an int")
                      end)
      (field data "title"
        (fun val i => match val with
                      | Json.AString v => inl (set_Title i v)
                      | _ => inr (errorString "title needs to be an string")
                      end)
      (field data "thumbnail_url"
        (fun val i => match val with
                      | Json.AString v =>
                          match url_Parse v with
                          | Some u => inl (set_Thumbnail i (Some u))
                          | None => inr (errorString
                                           "thumbnail_url needs to be a parsable URL")
                          end
                      | _ => inr (errorString "thumbnail_url needs to be an string")
                      end)
      (field data "theme_id"
        (fun val i => match val with
                      | Json.AInt v => inl (set_ThemeId i v)
                      | _ => inr (errorString "theme_id needs to be an int")
                      end)
      (field data "published"
        (fun val i => match val with
                      | Json.ABool v => inl (set_Published i v)
                      | _ => inr (errorString "published needs to be an boolean")
                      end)
      (field data "date_modified"
        (fun val i => match val with
                      | Json.AString v =>
                          match time_Parse v with
                          | Some t => inl (set_Modified i t)
                          | None => inr (errorString
                                "date_modified needs to be a parsable RFC 3339 time")
                          end
                      | _ => inr (errorString "date_modified needs to be an string")
                      end)
      (field data "url"
        (fun val i => match val with
                      | Json.AString v =>
                          match url_Parse v with
                          | Some u => inl (set_URL i (Some u))
                          | None => inr (errorString "url needs to be a parsable URL")
                          end
                      | _ => inr (errorString "url needs to be an string")
                      end)
      (fun i => (i, None)))))))) i
  end.

Record Theme := mkTheme {
  ThId : Z;
  ThTitle : string;
  ThThumbnail : option Url.URL;
}.

(* lines 117-125 *)
Definition Theme_MarshalJSON (t : Theme) : outcome (Json.document * option error) :=
  let data := (∅ : gmap string Json.any) in
  let data := <["id" := Json.AInt (ThId t)]> data in
  let data := <["title" := Json.AString (ThTitle t)]> data in
  match String_ (ThThumbnail t) with
  | Panics msg => Panics msg
  | Returns thumbnail =>
      let data := <["thumbnail_url" := Json.AString thumbnail]> data in
      Returns (Json.Marshal data)
  end.

(* lines 127-157: [data] is made and never filled from [bytes] *)
Definition Theme_UnmarshalJSON (t : Theme) (bytes : Json.document)
  : Theme * option error :=
  let data := (∅ : gmap string Json.any) in
  field data "id"
    (fun val t => match val with
                  | Json.AInt v => inl (mkTheme v (ThTitle t) (ThThumbnail t))
                  | _ => inr (errorString "id needs to be an int")
                  end)
  (field data "title"
    (fun val t => match val with
                  | Json.AString v => inl (mkTheme (ThId t) v (ThThumbnail t))
                  | _ => inr (errorString "title needs to be an string")
                  end)
  (field data "thumbnail_url"
    (fun val t => match val with
                  | Json.AString v =>
                      match url_Parse v with
                      | Some u => inl (mkTheme (ThId t) (ThTitle t) (Some u))
                      | None => inr (errorString
                                       "thumbnail_url needs to be a parsable URL")
                      end
                  | _ => inr (errorString "thumbnail_url needs to be an string")
                  end)
  (fun t => (t, None)))) t.

End Codecs.

Arguments Infoghaphic Time : clear implicits.
Arguments mkInfoghaphic {Time} Id Title Thumbnail ThemeId Published Modified URL.

End Types.

(** ** The specification's vocabulary *)

Module Spec.
Local Open Scope string_scope.

(** One [key=value] pair with both sides percent-encoded, and one written
    as stored. *)
Definition escaped_pair (data : gmap string (list string)) (key : string) : string :=
  Url.QueryEscape key ++ "=" ++ Url.QueryEscape (Url.Get data key).

Definition plain_pair (data : gmap string (list string)) (key : string) : string :=
  key ++ "=" ++ Url.Get data key.

(** Steps 3 and 4 of the signer as the specification words them: the keys
    sorted byte-wise, [key=value] pairs joined by "&", each key and value
    percent-encoded. *)
Definition params_string (data : gmap string (list string)) : string :=
  Strings.Join (map (escaped_pair data) (Sort.Slice (Url.range_keys data))) "&".

(** A parameter set built by inserting pairs one after the other. *)
Definition values_of_pairs (l : list (string * string))
  : gmap string (list string) :=
  fold_left (fun m kv => Url.Add m (fst kv) (snd kv)) l ∅.

(** The entry that a pair inserted into an empty slot leaves. *)
Definition single (kv : string * string) : string * list string :=
  (fst kv, [snd kv]).

(** Steps 1 and 8 as the specification words them: the parameters are read
    from the query string for GET and DELETE and from the URL-encoded body
    otherwise, and the updated set, with api_key and api_sig in it, goes
    back to the place it was read from. *)
Definition read_place (req : Request) : gmap string (list string) :=
  if RevB.reads_query (Method req) then Url.Query (URL req)
  else Url.ParseQuery (default "" (Body req)).

Definition written_place (req after : Request) : string :=
  if RevB.reads_query (Method req) then Url.RawQuery (URL after)
  else default "" (Body after).

Definition reads_and_writes_in_place
    (run : Client -> Request -> signing)
    (sign : Client -> Request -> Request * option error)
    (c : Client) (req : Request) : Prop :=
  data_read (run c req) = read_place req /\
  written_place req (fst (sign c req)) = Url.Encode (data_written (run c req)) /\
  "api_key" ∈ dom (data_written (run c req)) /\
  "api_sig" ∈ dom (data_written (run c req)).

(** The failure path of [Do] as the specification words it: a status
    outside [200,299] gives a failure whose text is the body, a status
    inside does not take the failure path (the one that reads the body
    whole). *)
Definition status_decides {T} (res : Response) (d : done T) : Prop :=
  (if (200 <=? StatusCode res)%Z && (StatusCode res <=? 299)%Z
   then EvReadAll ∉ events d
   else exists err, returned d = Returns (None, Some err)
                    /\ Error err = unread (ResBody res)).

End Spec.

(** ** Concrete requests, responses and test doubles *)

Module Inputs.
Local Open Scope string_scope.

Definition test_client : Client := mkClient DefaultEndpoint "test-key" "shh".

(* the request of client_test.go:70-89 *)
Definition golden_get_request : Request :=
  mkRequest MethodGet
    (Url.mkURL "https" "infogr.am" "/service/v1/infographics"
       (Url.Encode (Url.Add (Url.Add ∅ "id" "1") "label" "new label")))
    "" None None None "".

(* the same request with the key already in the query, as the operations
   of client.go:103-139 build it *)
Definition keyed_get_request : Request :=
  mkRequest MethodGet
    (Url.mkURL "https" "infogr.am" "/service/v1/infographics"
       "api_key=test-key&id=1&label=new+label")
    "" None None None "".

Definition docs_client : Client := mkClient DefaultEndpoint "nMECGhmHe9" "da5xoLrCCx".

(* the request of types.go:214-233 *)
Definition golden_post_request : Request :=
  mkRequest MethodPost
    (Url.mkURL "https" "infogr.am" "/service/v1/infographics" "")
    "application/x-www-form-urlencoded"
    (Some (Url.Encode
       (Url.Add (Url.Add (Url.Add (Url.Add ∅
          "content" "%5B%7B%22type%22%3A%22h1%22%2C%22text%22%3A%22Hello%20infogr.am%22%7D%5D")
          "publish" "false") "theme_id" "45") "title" "Hello")))
    None None "".

(* GET /service/v1/infographics?a+b=c%26d: one parameter, key "a b",
   value "c&d" *)
Definition spaced_get_request : Request :=
  mkRequest MethodGet
    (Url.mkURL "https" "infogr.am" "/service/v1/infographics" "a+b=c%26d")
    "" None None None "".

(* GET /service/v1/infographics?api_sig=OLD&id=1: a request that comes
   in with an api_sig parameter *)
Definition carrying_api_sig : Request :=
  mkRequest MethodGet
    (Url.mkURL "https" "infogr.am" "/service/v1/infographics" "api_sig=OLD&id=1")
    "" None None None "".

(* POST /service/v1/infographics?q=1 with the form body a=1 *)
Definition post_with_query : Request :=
  mkRequest MethodPost
    (Url.mkURL "https" "infogr.am" "/service/v1/infographics" "q=1")
    "application/x-www-form-urlencoded" (Some "a=1") None None "".

Definition post_ab : Request :=
  mkRequest MethodPost
    (Url.mkURL "https" "infogr.am" "/service/v1/infographics" "")
    "application/x-www-form-urlencoded" (Some "a=1&b=2") None None "".

Definition post_ba : Request :=
  mkRequest MethodPost
    (Url.mkURL "https" "infogr.am" "/service/v1/infographics" "")
    "application/x-www-form-urlencoded" (Some "b=2&a=1") None None "".

(* a visiting order other than range_keys *)
Definition backwards (m : gmap string (list string)) : list string :=
  reverse (Url.range_keys m).

(* the line feed that http.NotFound ends its body with *)
Definition lf : string := String (ascii_of_nat 10) "".

(* what http.NotFoundHandler answers (types.go:237-248) *)
Definition not_found_page : Response :=
  mkResponse 404 (mkBody ("404 page not found" ++ lf) None).

(* the response of the specification's example *)
Definition not_found : Response := mkResponse 404 (mkBody "not found" None).

(* 101 Switching Protocols, which http.Client hands to its caller *)
Definition switching : Response := mkResponse 101 (mkBody "upgrade" None).

(* a server that answers every request with [res] *)
Definition serve (res : Response) (req : Request)
  : option Response * option error :=
  (Some res, None).

(* a transport whose connection is refused *)
Definition refused : error :=
  errorString "dial tcp 127.0.0.1:1: connect: connection refused".

Definition refuse (req : Request) : option Response * option error :=
  (None, Some refused).

(* a stand-in for http.NewRequest on plain absolute URLs
   scheme://host/path?query *)
Definition new_request (method url : string) : Request + error :=
  let '(scheme, rest, _) := Strings.Cut ":" url in
  let rest := match rest with
              | String "/" (String "/" r) => r
              | _ => rest
              end in
  let '(location, query, _) := Strings.Cut "?" rest in
  let '(host, path, slash) := Strings.Cut "/" location in
  inl (mkRequest method
         (Url.mkURL scheme host (if slash then "/" ++ path else "") query)
         "" None None None "").

Definition local_client : Client := mkClient "http://127.0.0.1:8080" "key" "secret".

(* a decoder that is never reached on the failure path *)
Definition decode_nothing {T} (body : ReadCloser) (x : T) : T * option error :=
  (x, None).

(* the record of types_test.go:13-42 *)
Definition example_com (path : string) : Url.URL :=
  Url.mkURL "https" "example.com" path "".

Definition one_hundred {Time} (modified : Time) : Types.Infoghaphic Time :=
  Types.mkInfoghaphic 100 "One Hundred" (Some (example_com "/thumbnail.png"))
    200 false modified (Some (example_com "/100")).

(* the record of types_test.go:44-67 *)
Definition theme_one_hundred : Types.Theme :=
  Types.mkTheme 100 "One Hundred" (Some (example_com "/thumbnail.png")).

Definition zero_Theme : Types.Theme := Types.mkTheme 0 "" None.

End Inputs.


(** ** Parameter sets as the library builds them *)

Module Values.

(** No key is bound to an empty list: what url.ParseQuery, Set and Add
    produce, and what Encode writes in full. *)
Definition no_empty_values (v : gmap string (list string)) : Prop :=
  forall k vs, v !! k = Some vs -> vs <> [].

(** The key/value pairs in the order Encode writes them. *)
Definition pairs (v : gmap string (list string)) : list (string * string) :=
  flat_map (fun k => map (fun x => (k, x)) (default [] (v !! k)))
    (Sort.Slice (Url.range_keys v)).

(** What QueryEscape writes for one byte. *)
Definition escape_byte (c : ascii) : string :=
  Url.QueryEscape (String c EmptyString).

(** The segment Encode writes for one pair. *)
Definition segment (kv : string * string) : string :=
  (Url.QueryEscape (fst kv) ++ "=" ++ Url.QueryEscape (snd kv))%string.

End Values.

(** ** client.go:18-52 — the client and its functional options (the same
    text again at client_test.go:477-515) *)

Module Options.

Section WithHTTPClient.
Context {H : Type}.            (* *http.Client *)
Variable DefaultClient : H.    (* http.DefaultClient *)

Record Client := mkClient {
  httpClient : H;
  endpoint : string;
  apiKey : string;
  apiSecret : string;
}.

(* type ClientOpts func(c *Client): what a call leaves in the client *)
Definition ClientOpts : Type := Client -> Client.

(* lines 27-40 *)
Definition NewClient (apiKey apiSecret : string) (options : list ClientOpts)
  : Client :=
  let c := mkClient DefaultClient DefaultEndpoint apiKey apiSecret in
  fold_left (fun c opts => opts c) options c.

(* lines 42-46 *)
Definition ClientOptHTTPClient (httpClient : H) : ClientOpts :=
  fun client =>
    mkClient httpClient (endpoint client) (apiKey client) (apiSecret client).

(* lines 48-52 *)
Definition ClientOptEndpoint (endpoint : string) : ClientOpts :=
  fun client =>
    mkClient (httpClient client) endpoint (apiKey client) (apiSecret client).

(** An option list written with the two constructors: [inl h] stands for
    ClientOptHTTPClient h and [inr e] for ClientOptEndpoint e. *)
Definition option_of (o : H + string) : ClientOpts :=
  match o with
  | inl h => ClientOptHTTPClient h
  | inr e => ClientOptEndpoint e
  end.

Definition clients_given (os : list (H + string)) : list H :=
  omap (fun o => match o with inl h => Some h | inr _ => None end) os.

Definition endpoints_given (os : list (H + string)) : list string :=
  omap (fun o => match o with inl _ => None | inr e => Some e end) os.

End WithHTTPClient.

Arguments Client H : clear implicits.
Arguments mkClient {H} httpClient endpoint apiKey apiSecret.

End Options.

(** ** client_test.go:243-457 — NewRequest and the operations next to
    RevC.Infographic *)

Module RevCOps.
Local Open Scope string_scope.

Definition with_ContentType (r : Request) (ct : string) : Request :=
  mkRequest (Method r) (URL r) ct (Body r) (PostForm r) (Form r) (RequestURI r).

Section Operations.
Context {B I Th : Type}.
(* http.NewRequest(method, url, body); None is the nil reader *)
Variable http_NewRequest : string -> string -> option string -> Request + error.
(* json.NewEncoder(buf).Encode(body) with HTML escaping off: what it
   leaves in buf *)
Variable json_Encode : B -> string + error.
Variable RoundTrip : Request -> option Response * option error.
Variable DecodeInfographics : ReadCloser -> list I -> list I * option error.
Variable DecodeThemes : ReadCloser -> list Th -> list Th * option error.

(* lines 276-302; a nil url.Values is the empty map, a nil body None *)
Definition NewRequest (c : Client) (method path : string)
    (params : gmap string (list string)) (body : option B) : Request + error :=
  let path := Endpoint c ++ path in
  let buf :=
    match body with
    | None => inl None
    | Some b =>
        match json_Encode b with
        | inr err => inr err
        | inl s => inl (Some s)
        end
    end in
  match buf with
  | inr err => inr err
  | inl buf =>
      match http_NewRequest method path buf with
      | inr err => inr err
      | inl req =>
          let req :=
            Http.with_URL req (Url.with_RawQuery (URL req) (Url.Encode params)) in
          inl (match body with
               | Some _ => with_ContentType req "application/json"
               | None => req
               end)
      end
  end.

(* lines 391-409 *)
Definition Infographics (c : Client) : outcome (list I * option error) :=
  match NewRequest c MethodGet "/infographics" ∅ None with
  | inr err => Returns ([], Some (wrapError "new infographics request: " err))
  | inl req =>
      match RevC.SignRequest c req with
      | (_, Some err) => Returns ([], Some err)
      | (req, None) =>
          let d := RevC.Do RoundTrip DecodeInfographics None req (ValueTarget []) in
          match returned d with
          | Panics msg => Panics msg
          | Returns (_, Some err) => Returns ([], Some err)
          | Returns (_, None) =>
              Returns (RevB.value_of [] (target_after d), None)
          end
      end
  end.

(* lines 428-441 *)
Definition UserInfographics (c : Client) (id : string)
  : outcome (list I * option error) :=
  match http_NewRequest MethodGet
          (Endpoint c ++ "/" ++ "users" ++ "/" ++ id ++ "/" ++ "infographics"
             ++ "?api_key=" ++ APIKey c) None with
  | inr err => Returns ([], Some (wrapError "new infographics request: " err))
  | inl req =>
      let d := RevC.Do RoundTrip DecodeInfographics None req (ValueTarget []) in
      match returned d with
      | Panics msg => Panics msg
      | Returns (_, Some err) => Returns ([], None)
      | Returns (_, None) => Returns (RevB.value_of [] (target_after d), None)
      end
  end.

(* lines 444-457 *)
Definition Themes (c : Client) : outcome (list Th * option error) :=
  match http_NewRequest MethodGet
          (Endpoint c ++ "/" ++ "themes" ++ "?api_key=" ++ APIKey c) None with
  | inr err => Returns ([], Some (wrapError "new themes request: " err))
  | inl req =>
      let d := RevC.Do RoundTrip DecodeThemes None req (ValueTarget []) in
      match returned d with
      | Panics msg => Panics msg
      | Returns (_, Some err) => Returns ([], None)
      | Returns (_, None) => Returns (RevB.value_of [] (target_after d), None)
      end
  end.

End Operations.
End RevCOps.

(** ** client_test.go:554-645 — signAndDo and the operations built on it *)

Module RevDOps.
Local Open Scope string_scope.

Section Operations.
Context {I Th : Type}.
Variable http_NewRequest : string -> string -> Request + error.
Variable RoundTrip : Request -> option Response * option error.
Variable DecodeList : ReadCloser -> list I -> list I * option error.
Variable DecodeOne : ReadCloser -> I -> I * option error.
Variable DecodeThemes : ReadCloser -> list Th -> list Th * option error.
Variable zero : I.

(* lines 554-565 *)
Definition signAndDo (c : Client) (req : Request)
  : outcome (option Response * option error) :=
  match RevD.SignRequest c req with
  | (_, Some err) => Returns (None, Some err)
  | (req1, None) =>
      match RoundTrip req1 with
      | (_, Some err) => Returns (None, Some err)
      | (res, None) => Returns (res, None)
      end
  end.

(* lines 568-585 *)
Definition Infographics (c : Client) : outcome (list I * option error) :=
  match http_NewRequest MethodGet
          (Endpoint c ++ "/" ++ "infographics" ++ "?api_key=" ++ APIKey c) with
  | inr err => Returns ([], Some (wrapError "new infographics request: " err))
  | inl req =>
      match signAndDo c req with
      | Panics msg => Panics msg
      | Returns (_, Some err) => Returns ([], Some err)
      | Returns (None, None) => Panics nil_dereference
      | Returns (Some res, None) =>
          match DecodeList (ResBody res) [] with
          | (_, Some err) => Returns ([], Some err)
          | (decoded, None) => Returns (decoded, None)
          end
      end
  end.

(* lines 588-605 *)
Definition Infographic (c : Client) (id : Z) : outcome (option I * option error) :=
  match http_NewRequest MethodGet
          (Endpoint c ++ "/" ++ "infographics" ++ "/" ++ pretty id
             ++ "?api_key=" ++ APIKey c) with
  | inr err => Returns (None, Some (wrapError "new infographic request: " err))
  | inl req =>
      match signAndDo c req with
      | Panics msg => Panics msg
      | Returns (_, Some err) => Returns (None, None)
      | Returns (None, None) => Panics nil_dereference
      | Returns (Some res, None) =>
          match DecodeOne (ResBody res) zero with
          | (_, Some err) => Returns (None, Some err)
          | (infographic, None) => Returns (Some infographic, None)
          end
      end
  end.

(* lines 608-625 *)
Definition UserInfographics (c : Client) (id : string)
  : outcome (list I * option error) :=
  match http_NewRequest MethodGet
          (Endpoint c ++ "/" ++ "users" ++ "/" ++ id ++ "/" ++ "infographics"
             ++ "?api_key=" ++ APIKey c) with
  | inr err => Returns ([], Some (wrapError "new infographics request: " err))
  | inl req =>
      match signAndDo c req with
      | Panics msg => Panics msg
      | Returns (_, Some err) => Returns ([], Some err)
      | Returns (None, None) => Panics nil_dereference
      | Returns (Some res, None) =>
          match DecodeList (ResBody res) [] with
          | (_, Some err) => Returns ([], Some err)
          | (decoded, None) => Returns (decoded, None)
          end
      end
  end.

(* lines 628-645 *)
Definition Themes (c : Client) : outcome (list Th * option error) :=
  match http_NewRequest MethodGet
          (Endpoint c ++ "/" ++ "themes" ++ "?api_key=" ++ APIKey c) with
  | inr err => Returns ([], Some (wrapError "new themes request: " err))
  | inl req =>
      match signAndDo c req with
      | Panics msg => Panics msg
      | Returns (_, Some err) => Returns ([], Some err)
      | Returns (None, None) => Panics nil_dereference
      | Returns (Some res, None) =>
          match DecodeThemes (ResBody res) [] with
          | (_, Some err) => Returns ([], Some err)
          | (decoded, None) => Returns (decoded, None)
          end
      end
  end.

End Operations.
End RevDOps.

(** ** float64, as far as the codecs convert integers through it *)

Module Float64.

(** The float64 that strconv.ParseFloat gives for the decimal text of an
    integer: the integer itself up to 53 bits, beyond that the nearest
    multiple of the power of two that leaves 53 bits, ties to even. *)
Definition nearest (n : Z) : Z :=
  let a := Z.abs n in
  if a <? 2 ^ 53 then n
  else
    let e := Z.log2 a - 52 in
    let q := Z.shiftr a e in
    let r := a - Z.shiftl q e in
    let half := Z.shiftl 1 (e - 1) in
    let q1 := if (half <? r) || ((r =? half) && Z.odd q) then q + 1 else q in
    Z.sgn n * Z.shiftl q1 e.

(** ParseFloat reports a range error when the rounded value is no finite
    float64. *)
Definition representable (n : Z) : bool := Z.abs (nearest n) <? 2 ^ 1024.

(** [int(v)] for an integral float64 [v]: the value when an int holds it,
    and otherwise whatever the platform gives ([overflow]). *)
Definition to_int (overflow : Z -> Z) (v : Z) : Z :=
  if (- 2 ^ 63 <=? v) && (v <? 2 ^ 63) then v else overflow v.

End Float64.

(** ** json.Unmarshal with its number range check and its error texts *)

Module Json64.
Local Open Scope string_scope.

Fixpoint decode (d : Json.document) : Json.any :=
  match d with
  | Json.Null => Json.ANil
  | Json.Bool b => Json.ABool b
  | Json.Number n => if Float64.representable n then Json.AFloat64 n else Json.ANil
  | Json.Str s => Json.AString (Utf8.coerce s)
  | Json.Array elems => Json.ASlice (map decode elems)
  | Json.Object members =>
      Json.AMap (map (fun kv => (Utf8.coerce (fst kv), decode (snd kv))) members)
  end.

(* the first number of the document, in reading order, that ParseFloat
   rejects *)
Fixpoint first_out_of_range (d : Json.document) : option Z :=
  match d with
  | Json.Number n => if Float64.representable n then None else Some n
  | Json.Array elems =>
      (fix go (l : list Json.document) : option Z :=
         match l with
         | [] => None
         | x :: rest =>
             match first_out_of_range x with
             | Some n => Some n
             | None => go rest
             end
         end) elems
  | Json.Object members =>
      (fix go (l : list (string * Json.document)) : option Z :=
         match l with
         | [] => None
         | (_, x) :: rest =>
             match first_out_of_range x with
             | Some n => Some n
             | None => go rest
             end
         end) members
  | _ => None
  end.

(* json.Unmarshal into a non-nil map[string]interface{} *)
Definition Unmarshal (bytes : Json.document) (data : gmap string Json.any)
  : gmap string Json.any * option error :=
  let mismatch kind :=
    (data,
     Some (errorString
             ("json: cannot unmarshal " ++ kind
                ++ " into Go value of type map[string]interface {}"))) in
  match bytes with
  | Json.Object members =>
      (fold_left (fun m kv => <[Utf8.coerce (fst kv) := decode (snd kv)]> m)
         members data,
       match first_out_of_range bytes with
       | Some n =>
           Some (errorString
                   ("json: cannot unmarshal number " ++ pretty n
                      ++ " into Go value of type float64"))
       | None => None
       end)
  | Json.Null => (∅, None)
  | Json.Bool _ => mismatch "bool"
  | Json.Number _ => mismatch "number"
  | Json.Str _ => mismatch "string"
  | Json.Array _ => mismatch "array"
  end.

End Json64.

(** ** The later types.go (README.md:58-251): float64 assertions, nil
    guards, readers *)

Module TypesLater.
Local Open Scope string_scope.

Section Codecs.
Context {Time : Type}.
Variable zero_Time : Time.                     (* time.Time{} *)
Variable time_Parse : string -> option Time.   (* time.Parse(time.RFC3339, _) *)
Variable url_Parse : string -> option Url.URL. (* url.Parse *)
Variable int_overflow : Z -> Z.                (* int(v) out of range *)

Record Infographic := mkInfographic {
  Id : Z;
  Title : string;
  Thumbnail : option Url.URL;
  ThemeId : Z;
  Published : bool;
  Modified : Time;
  URL : option Url.URL;
}.

Section Readers.
Variable http_NewRequest : string -> string -> Request + error.
Variable RoundTrip : Request -> option Response * option error.

(* lines 68-85, against the client of client_test.go:243-457, whose
   Infographic(id int) this revision's Id matches. The second component
   is what Do did to the response body on the way. *)
Definition reader (i : Infographic) (client : Client) (format : string)
  : outcome (option ReadCloser * option error) * list event :=
  match http_NewRequest MethodGet
          (Endpoint client ++ "/" ++ "infographics" ++ "/" ++ pretty (Id i)
             ++ "?api_key=" ++ APIKey client ++ "&format=" ++ format) with
  | inr err =>
      (Returns (None, Some (wrapError "new infographic PDF reader request: " err)),
       [])
  | inl req =>
      match RevC.SignRequest client req with
      | (_, Some err) => (Returns (None, Some err), [])
      | (req, None) =>
          let d := RevC.Do RoundTrip (fun _ (x : unit) => (x, None)) None req
                     NilTarget in
          match returned d with
          | Panics msg => (Panics msg, events d)
          | Returns (_, Some err) => (Returns (None, Some err), events d)
          | Returns (None, None) => (Panics nil_dereference, events d)
          | Returns (Some res, None) =>
              (Returns (Some (ResBody res), None), events d)
          end
      end
  end.

(* lines 88-100 *)
Definition PDFReader (i : Infographic) (client : Client) := reader i client "pdf".
Definition PNGReader (i : Infographic) (client : Client) := reader i client "png".
Definition HTMLReader (i : Infographic) (client : Client) := reader i client "html".

End Readers.

(* lines 103-123 *)
Definition MarshalJSON (i : Infographic) : Json.document * option error :=
  let data := (∅ : gmap string Json.any) in
  let data := <["id" := Json.AInt (Id i)]> data in
  let data := <["title" := Json.AString (Title i)]> data in
  let data :=
    match Thumbnail i with
    | Some u => <["thumbnail_url" := Json.AString (Url.URL_String u)]> data
    | None => data
    end in
  let data := <["theme_id" := Json.AInt (ThemeId i)]> data in
  let data := <["published" := Json.ABool (Published i)]> data in
  let data :=
    match URL i with
    | Some u => <["url" := Json.AString (Url.URL_String u)]> data
    | None => data
    end in
  match Json.Marshal data with
  | (_, Some err) => (Json.Null, Some (wrapError "marshalling infographic: " err))
  | (bytes, None) => (bytes, None)
  end.

Definition set_Id (i : Infographic) (v : Z) : Infographic :=
  mkInfographic v (Title i) (Thumbnail i) (ThemeId i) (Published i) (Modified i) (URL i).
Definition set_Title (i : Infographic) (v : string) : Infographic :=
  mkInfographic (Id i) v (Thumbnail i) (ThemeId i) (Published i) (Modified i) (URL i).
Definition set_Thumbnail (i : Infographic) (v : option Url.URL) : Infographic :=
  mkInfographic (Id i) (Title i) v (ThemeId i) (Published i) (Modified i) (URL i).
Definition set_ThemeId (i : Infographic) (v : Z) : Infographic :=
  mkInfographic (Id i) (Title i) (Thumbnail i) v (Published i) (Modified i) (URL i).
Definition set_Published (i : Infographic) (v : bool) : Infographic :=
  mkInfographic (Id i) (Title i) (Thumbnail i) (ThemeId i) v (Modified i) (URL i).
Definition set_Modified (i : Infographic) (v : Time) : Infographic :=
  mkInfographic (Id i) (Title i) (Thumbnail i) (ThemeId i) (Published i) v (URL i).
Definition set_URL (i : Infographic) (v : option Url.URL) : Infographic :=
  mkInfographic (Id i) (Title i) (Thumbnail i) (ThemeId i) (Published i) (Modified i) v.

(** One [if val, found := data[key]; found { ... }] block: [step] gives
    the record as the block leaves it and the error it returns, if any.
    (A failed url.Parse or time.Parse has already stored its nil or zero
    result.) *)
Definition field {R} (data : gmap string Json.any) (key : string)
    (step : Json.any -> R -> R * option error)
    (k : R -> R * option error) (r : R) : R * option error :=
  match data !! key with
  | None => k r
  | Some val =>
      match step val r with
      | (r1, Some err) => (r1, Some err)
      | (r1, None) => k r1
      end
  end.

(* lines 126-196 *)
Definition UnmarshalJSON (i : Infographic) (bytes : Json.document)
  : Infographic * option error :=
  match Json64.Unmarshal bytes ∅ with
  | (_, Some err) => (i, Some (wrapError "unmarshalling infographic: " err))
  | (data, None) =>
      field data "id"
        (fun val i =>
           match val with
           | Json.AFloat64 v =>
               (set_Id i (Float64.to_int int_overflow (Float64.nearest v)), None)
           | _ => (i, Some (errorString "id needs to be an int"))
           end)
      (field data "title"
        (fun val i =>
           match val with
           | Json.AString v => (set_Title i v, None)
           | _ => (i, Some (errorString "title needs to be an string"))
           end)
      (field data "thumbnail_url"
        (fun val i =>
           match val with
           | Json.AString v =>
               match url_Parse v with
               | Some u => (set_Thumbnail i (Some u), None)
               | None =>
                   (set_Thumbnail i None,
                    Some (errorString "thumbnail_url needs to be a parsable URL"))
               end
           | _ => (i, Some (errorString "thumbnail_url needs to be an string"))
           end)
      (field data "theme_id"
        (fun val i =>
           match val with
           | Json.AFloat64 v =>
               (set_ThemeId i (Float64.to_int int_overflow (Float64.nearest v)),
                None)
           | _ => (i, Some (errorString "theme_id needs to be an int"))
           end)
      (field data "published"
        (fun val i =>
           match val with
           | Json.ABool v => (set_Published i v, None)
           | _ => (i, Some (errorString "published needs to be an boolean"))
           end)
      (field data "date_modified"
        (fun val i =>
           match val with
           | Json.AString v =>
               match time_Parse v with
               | Some t => (set_Modified i t, None)
               | None =>
                   (set_Modified i zero_Time,
                    Some (errorString
                            "date_modified needs to be a parsable RFC 3339 time"))
               end
           | _ => (i, Some (errorString "date_modified needs to be an string"))
           end)
      (field data "url"
        (fun val i =>
           match val with
           | Json.AString v =>
               match url_Parse v with
               | Some u => (set_URL i (Some u), None)
               | None =>
                   (set_URL i None,
                    Some (errorString "url needs to be a parsable URL"))
               end
           | _ => (i, Some (errorString "url needs to be an string"))
           end)
      (fun i => (i, None)))))))) i
  end.

Record Theme := mkTheme {
  ThId : Z;
  ThTitle : string;
  ThThumbnail : option Url.URL;
}.

(* lines 206-214 *)
Definition Theme_MarshalJSON (t : Theme) : outcome (Json.document * option error) :=
  let data := (∅ : gmap string Json.any) in
  let data := <["id" := Json.AInt (ThId t)]> data in
  let data := <["title" := Json.AString (ThTitle t)]> data in
  match ThThumbnail t with
  | None => Panics nil_dereference
  | Some u =>
      let data := <["thumbnail_url" := Json.AString (Url.URL_String u)]> data in
      Returns (Json.Marshal data)
  end.

(* lines 217-251 *)
Definition Theme_UnmarshalJSON (t : Theme) (bytes : Json.document)
  : Theme * option error :=
  match Json64.Unmarshal bytes ∅ with
  | (_, Some err) => (t, Some (wrapError "unmarshalling theme: " err))
  | (data, None) =>
      field data "id"
        (fun val t =>
           match val with
           | Json.AFloat64 v =>
               (mkTheme (Float64.to_int int_overflow (Float64.nearest v))
                  (ThTitle t) (ThThumbnail t), None)
           | _ => (t, Some (errorString "id needs to be an int"))
           end)
      (field data "title"
        (fun val t =>
           match val with
           | Json.AString v => (mkTheme (ThId t) v (ThThumbnail t), None)
           | _ => (t, Some (errorString "title needs to be an string"))
           end)
      (field data "thumbnail_url"
        (fun val t =>
           match val with
           | Json.AString v =>
               match url_Parse v with
               | Some u => (mkTheme (ThId t) (ThTitle t) (Some u), None)
               | None =>
                   (mkTheme (ThId t) (ThTitle t) None,
                    Some (errorString "thumbnail_url needs to be a parsable URL"))
               end
           | _ => (t, Some (errorString "thumbnail_url needs to be an string"))
           end)
      (fun t => (t, None)))) t
  end.

End Codecs.

Arguments Infographic Time : clear implicits.
Arguments mkInfographic {Time} Id Title Thumbnail ThemeId Published Modified URL.

End TypesLater.

(** ** Vocabulary and inputs of the further properties *)

Module More.
Local Open Scope string_scope.

(** The parameter set a request of client.go:140-358 carries: the parsed
    URL query for GET and DELETE, the parsed form otherwise. *)
Definition carried (r : Request) : gmap string (list string) :=
  if RevB.reads_query (Method r) then Url.Query (URL r)
  else default ∅ (Form r).

(** Do returns a response or an error, never both and never neither. *)
Definition exactly_one (r : option Response * option error) : Prop :=
  match r with
  | (Some _, None) | (None, Some _) => True
  | _ => False
  end.

(** The deferred Close of Do: either nothing touched the body, because
    the transport gave no response or Do returned the context's error, or
    Close is the last event and there is no other Close before it. *)
Definition closes_once_and_last {T} (d : done T)
    (rt : option Response * option error) (ctx_err : option error) : Prop :=
  (events d = [] /\ (fst rt = None \/ (snd rt <> None /\ ctx_err <> None))) \/
  (exists pre, events d = (pre ++ [EvClose])%list /\ (EvClose ∉ pre)
               /\ fst rt <> None).

(** Two transports that answer every request with the same error and the
    same body, whatever the status codes. *)
Definition same_bodies (RT1 RT2 : Request -> option Response * option error)
  : Prop :=
  forall r, snd (RT1 r) = snd (RT2 r)
            /\ ResBody <$> fst (RT1 r) = ResBody <$> fst (RT2 r).

(* a stand-in for http.NewRequest with a body, on plain absolute URLs *)
Definition new_request_with_body (method url : string) (body : option string)
  : Request + error :=
  match Inputs.new_request method url with
  | inl r =>
      inl (mkRequest (Method r) (URL r) (ContentType r) body (PostForm r)
             (Form r) (RequestURI r))
  | inr err => inr err
  end.

(* an encoder for bodies that are already JSON text *)
Definition encode_text (body : string) : string + error := inl body.

(* the parameters of client_test.go:53-67 *)
Definition id_and_label : gmap string (list string) :=
  Url.Add (Url.Add ∅ "id" "1") "label" "new label".

(* GET /service/v1/infographics?a=1&a=2 and ...?a=1&a=3 *)
Definition get_a12 : Request :=
  mkRequest MethodGet
    (Url.mkURL "https" "infogr.am" "/service/v1/infographics" "a=1&a=2")
    "" None None None "".

Definition get_a13 : Request :=
  mkRequest MethodGet
    (Url.mkURL "https" "infogr.am" "/service/v1/infographics" "a=1&a=3")
    "" None None None "".

Definition post_a12 : Request :=
  mkRequest MethodPost
    (Url.mkURL "https" "infogr.am" "/service/v1/infographics" "")
    "application/x-www-form-urlencoded" (Some "a=1&a=2") None None "".

Definition post_a13 : Request :=
  mkRequest MethodPost
    (Url.mkURL "https" "infogr.am" "/service/v1/infographics" "")
    "application/x-www-form-urlencoded" (Some "a=1&a=3") None None "".

(** A string of 7-bit characters. *)
Definition ascii_only (s : string) : bool :=
  forallb (fun c => (Utf8.byte c <? 0x80)%Z) (list_ascii_of_string s).

(* a title that is not valid UTF-8: the one byte 0xFF *)
Definition bad_title : string :=
  String (Bytes.ascii_of_byte 0xFF%Z) EmptyString.

(** A JSON text that is an object with a member of the given name. *)
Definition mentions (bytes : Json.document) (key : string) : Prop :=
  match bytes with
  | Json.Object members => key ∈ map fst members
  | _ => False
  end.

(* a stand-in for url.Parse on plain absolute URLs *)
Definition parse_url (s : string) : option Url.URL :=
  match Inputs.new_request MethodGet s with
  | inl r => Some (URL r)
  | inr _ => None
  end.

(* the records of types_test.go in the later types.go *)
Definition later_one_hundred : TypesLater.Infographic unit :=
  TypesLater.mkInfographic 100 "One Hundred"
    (Some (Inputs.example_com "/thumbnail.png")) 200 false tt
    (Some (Inputs.example_com "/100")).

Definition later_zero : TypesLater.Infographic unit :=
  TypesLater.mkInfographic 0 "" None 0 false tt None.

Definition later_bad_title : TypesLater.Infographic unit :=
  TypesLater.mkInfographic 1 bad_title None 1 true tt None.

Definition later_theme : TypesLater.Theme :=
  TypesLater.mkTheme 100 "One Hundred" (Some (Inputs.example_com "/thumbnail.png")).

(* a response with an empty JSON body and one with text *)
Definition ok_empty : Response := mkResponse 200 (mkBody "" None).
Definition ok_text : Response := mkResponse 200 (mkBody "non-json string" None).
Definition server_error : Response :=
  mkResponse 500 (mkBody "[]" None).

(* a decoder that finds nothing to read, and one that reads a number of
   bytes *)
Definition decode_eof {T} (body : ReadCloser) (x : T) : T * option error :=
  (x, Some EOF).

Definition decode_length (body : ReadCloser) (x : list nat)
  : list nat * option error :=
  ([String.length (unread body)], None).

End More.
(** * Properties *)

(** ** The primitives against published test vectors *)

Example sha1_abc :
  Enc.hex (SHA1.Sum (Bytes.of_string "abc"))
  = "a9993e364706816aba3e25717850c26c9cd0d89d"%string.
Proof. vm_compute. reflexivity. Qed.

Example sha1_empty :
  Enc.hex (SHA1.Sum []) = "da39a3ee5e6b4b0d3255bfef95601890afd80709"%string.
Proof. vm_compute. reflexivity. Qed.

Example hmac_fox :
  Enc.hex (HMAC.mac (Bytes.of_string "key")
             (Bytes.of_string "The quick brown fox jumps over the lazy dog"))
  = "de7c9b85b8b78aa6bc8a7a36f70a90701c9db4d9"%string.
Proof. vm_compute. reflexivity. Qed.

Example base64_fooba :
  Enc.EncodeToString (Bytes.of_string "fooba") = "Zm9vYmE="%string.
Proof. vm_compute. reflexivity. Qed.

Example QueryEscape_ex :
  Url.QueryEscape "a b&c=d/%~" = "a+b%26c%3Dd%2F%25~"%string.
Proof. vm_compute. reflexivity. Qed.

Example ParseQuery_ex :
  Url.ParseQuery "id=1&label=new+label&x=%41&&bad=%zz"
  = <["x" := ["A"]]> (<["label" := ["new label"]]> (<["id" := ["1"]]> ∅)).
Proof. vm_compute. reflexivity. Qed.

Example Encode_ex :
  Url.Encode (Url.Add (Url.Add (Url.Add ∅ "b" "2") "a" "1 1") "b" "3")
  = "a=1+1&b=2&b=3"%string.
Proof. vm_compute. reflexivity. Qed.

Lemma SHA1_Sum_length data : length (SHA1.Sum data) = SHA1.Size.
Proof. unfold SHA1.Sum. rewrite !length_app. reflexivity. Qed.

Lemma mac_length k msg : length (HMAC.mac k msg) = 20%nat.
Proof. apply SHA1_Sum_length. Qed.

Lemma of_string_length s : length (Bytes.of_string s) = String.length s.
Proof.
  unfold Bytes.of_string. rewrite length_map.
  induction s as [|a s IH]; simpl; [reflexivity | now rewrite IH].
Qed.

(** ** Byte-wise order on strings, and the sorted key slice *)

Section SortFacts.

Lemma leb_trans a b c :
  String.leb a b = true -> String.leb b c = true -> String.leb a c = true.
Proof.
  unfold String.leb. revert b c.
  induction a as [|x a IH]; intros [|y b] [|z c]; simpl; try done.
  unfold Ascii.compare.
  destruct (N.compare_spec (N_of_ascii x) (N_of_ascii y)) as [Hxy|Hxy|Hxy];
    destruct (N.compare_spec (N_of_ascii y) (N_of_ascii z)) as [Hyz|Hyz|Hyz];
    destruct (N.compare_spec (N_of_ascii x) (N_of_ascii z)) as [Hxz|Hxz|Hxz];
    try done; try lia.
  apply IH.
Qed.

Global Instance string_le_total : Total Sort.string_le.
Proof. intros a b. apply String.leb_total. Qed.

Global Instance string_le_trans : Transitive Sort.string_le.
Proof. intros a b c. apply leb_trans. Qed.

Global Instance string_le_antisymm : AntiSymm (=) Sort.string_le.
Proof. intros a b. apply String.leb_antisym. Qed.

Lemma string_le_not_less a b : Sort.string_le a b <-> Sort.less b a = false.
Proof.
  unfold Sort.string_le, Sort.less, String.leb, String.ltb.
  rewrite (String.compare_antisym b a).
  destruct (String.compare a b); simpl; split; congruence.
Qed.

Lemma Slice_Sorted keys : Sorted Sort.string_le (Sort.Slice keys).
Proof. apply (Sorted_merge_sort Sort.string_le). Qed.

Lemma Slice_Permutation keys : Sort.Slice keys ≡ₚ keys.
Proof. apply (merge_sort_Permutation Sort.string_le). Qed.

(** Whatever order the keys arrive in, and whatever sorting algorithm
    runs, the sorted slice is the same. *)
Lemma sorted_keys_unique (l1 l2 : list string) :
  Sorted Sort.string_le l1 -> Sorted Sort.string_le l2 -> l1 ≡ₚ l2 -> l1 = l2.
Proof. apply (Sorted_unique Sort.string_le). Qed.

Lemma Slice_order_irrelevant (l1 l2 : list string) :
  l1 ≡ₚ l2 -> Sort.Slice l1 = Sort.Slice l2.
Proof.
  intros Hp. apply sorted_keys_unique; try apply Slice_Sorted.
  rewrite !Slice_Permutation. exact Hp.
Qed.

Lemma elem_of_Slice k keys : k ∈ Sort.Slice keys <-> k ∈ keys.
Proof. now rewrite Slice_Permutation. Qed.

Lemma elem_of_range_keys k (v : gmap string (list string)) :
  k ∈ Url.range_keys v <-> k ∈ dom v.
Proof. unfold Url.range_keys. apply elem_of_elements. Qed.

End SortFacts.

(** ** The parameter loops *)

Section Loops.
Local Open Scope string_scope.

Lemma append_cons x (a b : string) : String x a ++ b = String x (a ++ b).
Proof. reflexivity. Qed.

Lemma append_assoc3 (a b c : string) : (a ++ b) ++ c = a ++ b ++ c.
Proof.
  induction a as [|x a IH]; [reflexivity |].
  now rewrite !append_cons, IH.
Qed.

Lemma append_empty_right (a : string) : a ++ "" = a.
Proof.
  induction a as [|x a IH]; [reflexivity |].
  now rewrite append_cons, IH.
Qed.

Lemma loop_until_last (data : gmap string (list string)) (N : nat) keys :
  forall (start : nat) (buf : string),
  (start + length keys = N)%nat ->
  fold_left
    (fun buf '(idx, key) =>
       buf ++ key ++ "=" ++ Url.Get data key
           ++ (if (idx <? Z.of_nat N - 1)%Z then "&" else ""))
    (combine (map Z.of_nat (seq start (length keys))) keys) buf
  = buf ++ Strings.Join (map (Spec.plain_pair data) keys) "&".
Proof.
  induction keys as [|k keys IH]; intros start buf HN; simpl.
  - now rewrite append_empty_right.
  - rewrite (IH (S start)) by (simpl in HN; lia).
    unfold Strings.Join. simpl.
    destruct keys as [|k' keys]; simpl in *.
    + replace (Z.of_nat start <? Z.of_nat N - 1)%Z with false
        by (symmetry; apply Z.ltb_ge; lia).
      unfold Spec.plain_pair. rewrite !append_empty_right. reflexivity.
    + replace (Z.of_nat start <? Z.of_nat N - 1)%Z with true
        by (symmetry; apply Z.ltb_lt; lia).
      unfold Spec.plain_pair. rewrite !append_assoc3. reflexivity.
Qed.

Lemma loop_every_key (data : gmap string (list string)) (N : nat) keys :
  forall (start : nat) (buf : string),
  (start + length keys = N)%nat ->
  fold_left
    (fun buf '(idx, key) =>
       buf ++ Url.QueryEscape key ++ "=" ++ Url.QueryEscape (Url.Get data key)
           ++ (if (idx <? Z.of_nat N)%Z then "&" else ""))
    (combine (map Z.of_nat (seq start (length keys))) keys) buf
  = buf ++ Strings.Join (map (Spec.escaped_pair data) keys) "&"
        ++ (match keys with [] => "" | _ => "&" end).
Proof.
  induction keys as [|k keys IH]; intros start buf HN; simpl.
  - change (buf = buf ++ ""). now rewrite append_empty_right.
  - rewrite (IH (S start)) by (simpl in HN; lia).
    replace (Z.of_nat start <? Z.of_nat N)%Z with true
      by (symmetry; apply Z.ltb_lt; simpl in HN; lia).
    unfold Strings.Join. simpl.
    destruct keys as [|k' keys]; simpl.
    + unfold Spec.escaped_pair. rewrite !append_assoc3. reflexivity.
    + unfold Spec.escaped_pair. rewrite !append_assoc3. reflexivity.
Qed.

(** client.go:248-256 joins the pairs with one "&" between neighbours. *)
Lemma RevB_write_params_join data keys :
  RevB.write_params data keys = Strings.Join (map (Spec.plain_pair data) keys) "&".
Proof.
  unfold RevB.write_params, range_idx.
  now rewrite (loop_until_last data (length keys) keys 0 "").
Qed.

(** client.go:69-77 writes "&" after every pair, the last one too. *)
Lemma RevA_write_params_join data keys :
  RevA.write_params data keys
  = Strings.Join (map (Spec.escaped_pair data) keys) "&"
      ++ (match keys with [] => "" | _ => "&" end).
Proof.
  unfold RevA.write_params, range_idx.
  now rewrite (loop_every_key data (length keys) keys 0 "").
Qed.

End Loops.

(** ** The golden values of the repository's tests *)

(* client_test.go:70-89 *)
Example golden_SignRequest_RevC :
  let req := fst (RevC.SignRequest Inputs.test_client Inputs.golden_get_request) in
  Url.Get (Url.Query (URL req)) "api_key" = "test-key"%string /\
  Url.Get (Url.Query (URL req)) "id" = "1"%string /\
  Url.Get (Url.Query (URL req)) "label" = "new label"%string /\
  Url.Get (Url.Query (URL req)) "api_sig" =
  "474554262f736572766963652f76312f696e666f6772617068696373266170695f6b6579253344746573742d6b65792532366964253344312532366c6162656c2533446e65772532426c6162656c253236a6b812acfa12a677bb2fe6b266bac6a7294d9d06"%string.
Proof. vm_compute. repeat split; reflexivity. Qed.

(* types.go:214-233 *)
Example golden_SignRequest_RevB :
  let req := fst (RevB.SignRequest Inputs.docs_client Inputs.golden_post_request) in
  Url.Get (default ∅ (Form req)) "api_key" = "nMECGhmHe9"%string /\
  Url.Get (default ∅ (Form req)) "api_sig" = "bqwCqAk1TWDYNy3eqV0BiNuIERQ="%string.
Proof. vm_compute. split; reflexivity. Qed.

(** ** SignRequest *)

Section Signing.
Local Open Scope string_scope.

Lemma dom_Set_ (v : gmap string (list string)) key value :
  dom (Url.Set_ v key value) = {[key]} ∪ dom v.
Proof. unfold Url.Set_. apply dom_insert_L. Qed.

Lemma dom_Add (v : gmap string (list string)) key value :
  dom (Url.Add v key value) = {[key]} ∪ dom v.
Proof. unfold Url.Add. apply dom_insert_L. Qed.

(** The visiting order of the [range] loop does not reach the result. *)
Lemma RevB_run_order_irrelevant visit c req :
  (forall m, visit m ≡ₚ Url.range_keys m) ->
  RevB.SignRequest_run visit c req = RevB.SignRequest_run Url.range_keys c req.
Proof.
  intros Hv. unfold RevB.SignRequest_run.
  now rewrite (Slice_order_irrelevant _ _ (Hv _)).
Qed.

Lemma RevA_run_order_irrelevant visit c req :
  (forall m, visit m ≡ₚ Url.range_keys m) ->
  RevA.SignRequest_run visit c req = RevA.SignRequest_run Url.range_keys c req.
Proof.
  intros Hv. unfold RevA.SignRequest_run.
  now rewrite (Slice_order_irrelevant _ _ (Hv _)).
Qed.

Lemma RevC_run_order_irrelevant visit c req :
  (forall m, visit m ≡ₚ Url.range_keys m) ->
  RevC.SignRequest_run visit c req = RevC.SignRequest_run Url.range_keys c req.
Proof.
  intros Hv. unfold RevC.SignRequest_run.
  now rewrite (Slice_order_irrelevant _ _ (Hv _)).
Qed.

(** C10: for every request and every visiting order of the key loop,
    SignRequest returns a nil error, in each revision of the client
    (client.go:54-88, client.go:223-274, client_test.go:353-388,
    client_test.go:518-552). *)
Theorem SignRequest_error_is_nil visit c req :
  snd (RevA.SignRequest_visiting visit c req) = None /\
  snd (RevB.SignRequest_visiting visit c req) = None /\
  snd (RevC.SignRequest_visiting visit c req) = None /\
  snd (RevD.SignRequest_visiting visit c req) = None.
Proof. repeat split. Qed.

(** client.go:260-264 does compute the MAC of the signing input and adds
    its base64 text to the values of api_sig. *)
Lemma RevB_signature_is_mac visit c req :
  let s := RevB.SignRequest_run visit c req in
  signature s = HMAC.mac (Bytes.of_string (APISecret c)) (Bytes.of_string (sig s)) /\
  data_written s
  = Url.Add (data_signed s) "api_sig" (Enc.EncodeToString (signature s)).
Proof. split; reflexivity. Qed.

(** client.go:81-84 never writes the signing input to the hash: what it
    encodes is the signing input itself followed by the MAC of the empty
    message, and that is never the MAC of the signing input. *)
Lemma RevA_signature_is_not_mac visit c req :
  let s := RevA.SignRequest_run visit c req in
  signature s
  = (Bytes.of_string (sig s) ++ HMAC.mac (Bytes.of_string (APISecret c)) [])%list /\
  signature s <> HMAC.mac (Bytes.of_string (APISecret c)) (Bytes.of_string (sig s)).
Proof.
  split; [reflexivity |].
  intros Heq. apply (f_equal length) in Heq.
  cbn [signature RevA.SignRequest_run] in Heq.
  unfold HMAC.Sum in Heq. cbn [HMAC.key HMAC.written HMAC.New] in Heq.
  rewrite length_app, !mac_length, of_string_length in Heq.
  cbn [sig] in Heq.
  assert (Hlen : forall a b : string,
             String.length (a ++ b) = (String.length a + String.length b)%nat).
  { intros a b. induction a as [|x a IH]; [reflexivity |].
    rewrite append_cons. simpl. now rewrite IH. }
  rewrite !Hlen in Heq. simpl in Heq. lia.
Qed.

(** C1: on the request of the repository's own signing test (GET
    /service/v1/infographics?api_key=test-key&id=1&label=new+label, secret
    "shh") client.go:54-88 attaches under api_sig the hex text of the
    signing input followed by the MAC of the empty message, not the hex
    text of the MAC of the signing input. *)
Theorem RevA_SignRequest_golden_is_not_hmac :
  let s := RevA.SignRequest_run Url.range_keys Inputs.test_client Inputs.keyed_get_request in
  let after := fst (RevA.SignRequest Inputs.test_client Inputs.keyed_get_request) in
  sig s = "GET&/service/v1/infographics&api_key%3Dtest-key%26id%3D1%26label%3Dnew%2Blabel%26" /\
  Url.Get (Url.Query (URL after)) "api_sig" =
  "474554262f736572766963652f76312f696e666f6772617068696373266170695f6b6579253344746573742d6b65792532366964253344312532366c6162656c2533446e65772532426c6162656c253236a6b812acfa12a677bb2fe6b266bac6a7294d9d06" /\
  Enc.hex (HMAC.mac (Bytes.of_string "shh") []) = "a6b812acfa12a677bb2fe6b266bac6a7294d9d06" /\
  Enc.hex (HMAC.mac (Bytes.of_string "shh") (Bytes.of_string (sig s)))
  = "b2723a9f57edafb0805a8d809e1001ae0e602d3a".
Proof. vm_compute. repeat split; reflexivity. Qed.

(** C5, as stated, fails on client.go:242-258: for GET
    /service/v1/infographics?a+b=c%26d the loop writes the key "a b" and
    the value "c&d" as they are, where the specification's string has them
    percent-encoded. *)
Lemma RevB_params_not_escaped :
  let s := RevB.SignRequest_run Url.range_keys Inputs.test_client
             Inputs.spaced_get_request in
  params s = "a b=c&d&api_key=test-key" /\
  Spec.params_string (data_signed s) = "a+b=c%26d&api_key=test-key" /\
  params s <> Spec.params_string (data_signed s).
Proof. vm_compute. repeat split; discriminate. Qed.

Lemma NoDup_range_keys (v : gmap string (list string)) : NoDup (Url.range_keys v).
Proof. unfold Url.range_keys. apply NoDup_elements. Qed.

Lemma NoDup_Slice keys : NoDup keys -> NoDup (Sort.Slice keys).
Proof. intros H. now rewrite Slice_Permutation. Qed.

(** C5, amended: in every revision the serialized parameters are the
    key=value pairs of the parameter set, every key once, in byte-wise
    sorted key order, with one "&" between neighbours. client.go:242-258
    writes keys and values as stored, with nothing before the first pair
    or after the last, and percent-encodes the whole string once when it
    goes into the signing input; client.go:63-79 percent-encodes every key
    and value, writes nothing before the first pair and nothing after the
    last one but, at most, a single "&". *)
Theorem params_are_sorted_joined_pairs c req :
  let b := RevB.SignRequest_run Url.range_keys c req in
  let a := RevA.SignRequest_run Url.range_keys c req in
  (Sorted Sort.string_le (dataKeys b) /\ NoDup (dataKeys b) /\
   (forall k, k ∈ dataKeys b <-> k ∈ dom (data_signed b)) /\
   params b = Strings.Join (map (Spec.plain_pair (data_signed b)) (dataKeys b)) "&" /\
   sig b = (Method req ++ "&" ++ Url.QueryEscape (Url.URL_String (URL req)) ++ "&")
             ++ Url.QueryEscape (params b)) /\
  (Sorted Sort.string_le (dataKeys a) /\ NoDup (dataKeys a) /\
   (forall k, k ∈ dataKeys a <-> k ∈ dom (data_signed a)) /\
   (exists tail,
      params a
      = Strings.Join (map (Spec.escaped_pair (data_signed a)) (dataKeys a)) "&"
          ++ tail
      /\ (tail = "" \/ tail = "&")) /\
   sig a = (Method req ++ "&" ++ Url.EscapedPath (URL req) ++ "&")
             ++ Url.QueryEscape (params a)).
Proof.
  cbn zeta. split.
  - repeat split.
    + apply Slice_Sorted.
    + apply NoDup_Slice, NoDup_range_keys.
    + intros Hk. apply elem_of_Slice, elem_of_range_keys in Hk. exact Hk.
    + intros Hk. apply elem_of_Slice, elem_of_range_keys. exact Hk.
    + apply RevB_write_params_join.
  - repeat split.
    + apply Slice_Sorted.
    + apply NoDup_Slice, NoDup_range_keys.
    + intros Hk. apply elem_of_Slice, elem_of_range_keys in Hk. exact Hk.
    + intros Hk. apply elem_of_Slice, elem_of_range_keys. exact Hk.
    + eexists. split; [apply RevA_write_params_join |].
      destruct (dataKeys _); [left | right]; reflexivity.
Qed.

Lemma api_sig_is_not_api_key : "api_sig" <> "api_key".
Proof. discriminate. Qed.

Lemma RevB_api_sig_key_iff c req :
  let b := RevB.SignRequest_run Url.range_keys c req in
  "api_sig" ∈ dataKeys b <-> "api_sig" ∈ dom (data_read b).
Proof.
  cbn zeta. cbn [dataKeys data_read RevB.SignRequest_run].
  rewrite elem_of_Slice, elem_of_range_keys, dom_Set_, elem_of_union,
    elem_of_singleton.
  split; [intros [Hk | Hk] | intros Hk].
  - now apply api_sig_is_not_api_key in Hk.
  - exact Hk.
  - now right.
Qed.

Lemma RevA_api_sig_key_iff c req :
  let a := RevA.SignRequest_run Url.range_keys c req in
  "api_sig" ∈ dataKeys a <-> "api_sig" ∈ dom (data_read a).
Proof.
  cbn zeta. cbn [dataKeys data_read RevA.SignRequest_run].
  now rewrite elem_of_Slice, elem_of_range_keys.
Qed.

(** C7, as stated, fails on a request that comes in with an api_sig
    parameter of its own (GET /service/v1/infographics?api_sig=OLD&id=1):
    both signers serialize it like any other parameter, so api_sig is part
    of the signing input. *)
Lemma carried_api_sig_is_signed :
  let b := RevB.SignRequest_run Url.range_keys Inputs.test_client
             Inputs.carrying_api_sig in
  let a := RevA.SignRequest_run Url.range_keys Inputs.test_client
             Inputs.carrying_api_sig in
  dataKeys b = ["api_key"; "api_sig"; "id"] /\
  params b = "api_key=test-key&api_sig=OLD&id=1" /\
  sig b = "GET&https%3A%2F%2Finfogr.am%2Fservice%2Fv1%2Finfographics%3Fapi_sig%3DOLD%26id%3D1&api_key%3Dtest-key%26api_sig%3DOLD%26id%3D1" /\
  dataKeys a = ["api_sig"; "id"] /\
  params a = "api_sig=OLD&id=1&" /\
  sig a = "GET&/service/v1/infographics&api_sig%3DOLD%26id%3D1%26".
Proof. vm_compute. repeat split; reflexivity. Qed.

(** C7, amended: for every request the signing input is built from the
    parameter set as it stands before the new signature is added, so the
    signature a call computes is never part of its own input. In
    client.go:234-264 the serialized parameters are the pairs of the set
    that was read with api_key set, the signing input is method, URL and
    these parameters, the MAC is that of this input, and the request
    comes back carrying that set with the signature added under api_sig;
    in client.go:54-88 the same holds of the parsed query and Set. The key
    api_sig is among the serialized keys exactly when the request came in
    with an api_sig parameter of its own, and then with the value it came
    with. *)
Theorem signing_input_precedes_signature c req :
  let b := RevB.SignRequest_run Url.range_keys c req in
  let a := RevA.SignRequest_run Url.range_keys c req in
  let before := Url.Set_ (data_read b) "api_key" (APIKey c) in
  let after_b := fst (RevB.SignRequest c req) in
  let after_a := fst (RevA.SignRequest c req) in
  (params b
   = Strings.Join
       (map (Spec.plain_pair before) (Sort.Slice (Url.range_keys before))) "&" /\
   sig b = (Method req ++ "&" ++ Url.QueryEscape (Url.URL_String (URL req)) ++ "&")
             ++ Url.QueryEscape (params b) /\
   signature b
   = HMAC.mac (Bytes.of_string (APISecret c)) (Bytes.of_string (sig b)) /\
   data_written b = Url.Add before "api_sig" (Enc.EncodeToString (signature b)) /\
   (if RevB.reads_query (Method req)
    then Url.RawQuery (URL after_b) = Url.Encode (data_written b)
    else Form after_b = Some (data_written b)) /\
   ("api_sig" ∈ Sort.Slice (Url.range_keys before)
    <-> "api_sig" ∈ dom (data_read b)) /\
   Url.Get before "api_sig" = Url.Get (data_read b) "api_sig") /\
  ((exists tail,
      params a
      = Strings.Join
          (map (Spec.escaped_pair (data_read a))
             (Sort.Slice (Url.range_keys (data_read a)))) "&" ++ tail
      /\ (tail = "" \/ tail = "&")) /\
   sig a = (Method req ++ "&" ++ Url.EscapedPath (URL req) ++ "&")
             ++ Url.QueryEscape (params a) /\
   data_written a = Url.Set_ (data_read a) "api_sig" (Enc.hex (signature a)) /\
   Url.RawQuery (URL after_a) = Url.Encode (data_written a) /\
   ("api_sig" ∈ Sort.Slice (Url.range_keys (data_read a))
    <-> "api_sig" ∈ dom (data_read a))).
Proof.
  cbn zeta. split.
  - split; [apply RevB_write_params_join |].
    split; [reflexivity |]. split; [reflexivity |]. split; [reflexivity |].
    split.
    { unfold RevB.SignRequest, RevB.SignRequest_visiting. cbn [fst].
      destruct (RevB.reads_query (Method req)); reflexivity. }
    split; [apply (RevB_api_sig_key_iff c req) |].
    unfold Url.Get, Url.Set_.
    now rewrite lookup_insert_ne by (symmetry; apply api_sig_is_not_api_key).
  - split.
    { eexists. split; [apply RevA_write_params_join |].
      destruct (Sort.Slice _); [left | right]; reflexivity. }
    split; [reflexivity |]. split; [reflexivity |]. split; [reflexivity |].
    apply (RevA_api_sig_key_iff c req).
Qed.

(** A request that comes in without api_sig is signed over a string
    without it. *)
Lemma fresh_request_signs_without_api_sig c req :
  "api_sig" ∉ dom (snd (RevB.read_data req)) ->
  "api_sig" ∉ dataKeys (RevB.SignRequest_run Url.range_keys c req).
Proof.
  intros Hfresh Hk. apply Hfresh.
  now apply (RevB_api_sig_key_iff c req).
Qed.

(** *** Insertion order *)

Lemma fold_Add_fresh (l : list (string * string)) :
  forall m : gmap string (list string),
  NoDup l.*1 -> (forall k, k ∈ l.*1 -> m !! k = None) ->
  fold_left (fun m kv => Url.Add m (fst kv) (snd kv)) l m
  = list_to_map (Spec.single <$> l) ∪ m.
Proof.
  induction l as [|[k v] l IH]; intros m Hnd Hfresh.
  - cbn. now rewrite (left_id_L ∅ (∪)).
  - rewrite fmap_cons in Hnd. apply NoDup_cons in Hnd as [Hk Hnd].
    cbn [fst] in Hk.
    assert (Hadd : Url.Add m k v = <[k := [v]]> m).
    { unfold Url.Add. rewrite (Hfresh k) by (rewrite fmap_cons; left).
      reflexivity. }
    cbn [fold_left fst snd]. rewrite Hadd, IH; [| exact Hnd |].
    + rewrite fmap_cons. cbn [list_to_map foldr Spec.single fst snd uncurry].
      change (foldr (fun '(k, v) => <[k:=v]>) ∅ (Spec.single <$> l))
        with (list_to_map (M := gmap string (list string)) (Spec.single <$> l)).
      rewrite <- insert_union_l. symmetry. apply insert_union_r.
      apply not_elem_of_list_to_map.
      rewrite <- list_fmap_compose. exact Hk.
    + intros k' Hk'. rewrite lookup_insert_ne.
      * apply Hfresh. rewrite fmap_cons. now right.
      * intros ->. now apply Hk.
Qed.

Lemma values_of_pairs_list_to_map l :
  NoDup l.*1 -> Spec.values_of_pairs l = list_to_map (Spec.single <$> l).
Proof.
  intros Hnd. unfold Spec.values_of_pairs.
  rewrite fold_Add_fresh; [| exact Hnd | intros; apply lookup_empty].
  now rewrite (right_id_L ∅ (∪)).
Qed.

(** Inserting the same pairs, keys unique, in another order builds the
    same parameter set. *)
Lemma values_of_pairs_perm l1 l2 :
  NoDup l1.*1 -> l1 ≡ₚ l2 -> Spec.values_of_pairs l1 = Spec.values_of_pairs l2.
Proof.
  intros Hnd Hp.
  assert (Hnd2 : NoDup l2.*1) by now rewrite <- Hp.
  rewrite !values_of_pairs_list_to_map by assumption.
  apply list_to_map_proper.
  - now rewrite <- list_fmap_compose.
  - now rewrite Hp.
Qed.

(** C8: two requests with the same method and URL, signed under the same
    secret and API key, whose parameter sets were built by inserting the
    same key/value pairs (keys unique) in any two orders, get the same
    signing input and the same api_sig from client.go:223-274, whatever
    order the key loop visits the map in; in particular signing a request
    twice gives the same signature. *)
Theorem signature_independent_of_insertion_order
    visit1 visit2 c1 c2 r1 r2 (l1 l2 : list (string * string)) :
  (forall m, visit1 m ≡ₚ Url.range_keys m) ->
  (forall m, visit2 m ≡ₚ Url.range_keys m) ->
  APISecret c1 = APISecret c2 -> APIKey c1 = APIKey c2 ->
  NoDup l1.*1 -> l1 ≡ₚ l2 ->
  Method r1 = Method r2 -> URL r1 = URL r2 ->
  snd (RevB.read_data r1) = Spec.values_of_pairs l1 ->
  snd (RevB.read_data r2) = Spec.values_of_pairs l2 ->
  let s1 := RevB.SignRequest_run visit1 c1 r1 in
  let s2 := RevB.SignRequest_run visit2 c2 r2 in
  sig s1 = sig s2 /\ signature s1 = signature s2 /\
  Url.Get (data_written s1) "api_sig" = Url.Get (data_written s2) "api_sig".
Proof.
  intros Hv1 Hv2 Hs Hk Hnd Hp Hm Hu Hr1 Hr2. cbn zeta.
  rewrite (RevB_run_order_irrelevant visit1) by exact Hv1.
  rewrite (RevB_run_order_irrelevant visit2) by exact Hv2.
  unfold RevB.SignRequest_run.
  rewrite Hr1, Hr2, Hm, Hu, Hs, Hk, (values_of_pairs_perm l1 l2 Hnd Hp).
  repeat split.
Qed.

Lemma signature_independent_of_insertion_order_witness :
  let s1 := RevB.SignRequest_run Url.range_keys Inputs.test_client Inputs.post_ab in
  let s2 := RevB.SignRequest_run Inputs.backwards Inputs.test_client Inputs.post_ba in
  sig s1 = sig s2 /\ signature s1 = signature s2 /\
  Url.Get (data_written s1) "api_sig" = Url.Get (data_written s2) "api_sig".
Proof.
  apply (signature_independent_of_insertion_order
           Url.range_keys Inputs.backwards Inputs.test_client Inputs.test_client
           Inputs.post_ab Inputs.post_ba
           [("a", "1"); ("b", "2")] [("b", "2"); ("a", "1")]).
  - intros m. reflexivity.
  - intros m. apply reverse_Permutation.
  - reflexivity.
  - reflexivity.
  - apply (bool_decide_unpack _). vm_compute. exact I.
  - apply perm_swap.
  - reflexivity.
  - reflexivity.
  - vm_compute. reflexivity.
  - vm_compute. reflexivity.
Defined.

(** The path signers are as indifferent to the order of the query. *)
Lemma RevA_signature_independent_of_insertion_order
    visit1 visit2 c r1 r2 (l1 l2 : list (string * string)) :
  (forall m, visit1 m ≡ₚ Url.range_keys m) ->
  (forall m, visit2 m ≡ₚ Url.range_keys m) ->
  NoDup l1.*1 -> l1 ≡ₚ l2 ->
  Method r1 = Method r2 ->
  Url.EscapedPath (URL r1) = Url.EscapedPath (URL r2) ->
  Url.Query (URL r1) = Spec.values_of_pairs l1 ->
  Url.Query (URL r2) = Spec.values_of_pairs l2 ->
  RevA.SignRequest_run visit1 c r1 = RevA.SignRequest_run visit2 c r2.
Proof.
  intros Hv1 Hv2 Hnd Hp Hm Hu Hr1 Hr2.
  rewrite (RevA_run_order_irrelevant visit1) by exact Hv1.
  rewrite (RevA_run_order_irrelevant visit2) by exact Hv2.
  unfold RevA.SignRequest_run.
  now rewrite Hr1, Hr2, Hm, Hu, (values_of_pairs_perm l1 l2 Hnd Hp).
Qed.

(** *** Where the parameters are read and written *)

(** C6, as stated, fails on client.go:226-271: for POST
    /service/v1/infographics?q=1 with the form body a=1 the parameter set
    holds q from the URL query next to a from the body, and the updated
    set ends up in req.Form while the body, read to its end, and the URL
    stay without api_key and api_sig. *)
Lemma RevB_post_reads_query_and_writes_Form :
  let s := RevB.SignRequest_run Url.range_keys Inputs.test_client
             Inputs.post_with_query in
  let after := fst (RevB.SignRequest Inputs.test_client Inputs.post_with_query) in
  data_read s !! "q" = Some ["1"] /\
  data_read s !! "a" = Some ["1"] /\
  Spec.read_place Inputs.post_with_query !! "q" = None /\
  Body after = Some "" /\
  URL after = URL Inputs.post_with_query /\
  Form after = Some (data_written s) /\
  ~ Spec.reads_and_writes_in_place (RevB.SignRequest_run Url.range_keys)
      RevB.SignRequest Inputs.test_client Inputs.post_with_query.
Proof.
  cbn zeta. repeat split; try (vm_compute; reflexivity).
  intros [Hread _].
  apply (f_equal (fun m : gmap string (list string) => m !! "q")) in Hread.
  vm_compute in Hread. discriminate.
Qed.

(** client_test.go:518-552 has no switch on the method: a POST is signed
    over its URL query, its body is neither read nor written, and no
    api_key is added. *)
Lemma RevD_post_reads_query_only :
  let s := RevD.SignRequest_run Url.range_keys Inputs.test_client Inputs.post_ab in
  let after := fst (RevD.SignRequest Inputs.test_client Inputs.post_ab) in
  data_read s = ∅ /\
  Body after = Some "a=1&b=2" /\
  ("api_key" ∉ dom (data_written s)) /\
  (~ Spec.reads_and_writes_in_place (RevD.SignRequest_run Url.range_keys)
       RevD.SignRequest Inputs.test_client Inputs.post_ab).
Proof.
  cbn zeta. split; [vm_compute; reflexivity |]. split; [reflexivity |].
  assert (Hkey : "api_key" ∉ dom (data_written
            (RevD.SignRequest_run Url.range_keys Inputs.test_client Inputs.post_ab))).
  { apply not_elem_of_dom. vm_compute. reflexivity. }
  split; [exact Hkey |].
  intros (_ & _ & Hin & _). now apply Hkey.
Qed.

Lemma Get_Set_ (v : gmap string (list string)) key value :
  Url.Get (Url.Set_ v key value) key = value.
Proof. unfold Url.Get, Url.Set_. now rewrite lookup_insert_eq. Qed.

Lemma Get_Add_ne (v : gmap string (list string)) key key' value :
  key <> key' -> Url.Get (Url.Add v key value) key' = Url.Get v key'.
Proof. intros Hne. unfold Url.Get, Url.Add. now rewrite lookup_insert_ne. Qed.

(** C6, amended: client.go:226-271 reads the parameter set from the URL
    query for GET and DELETE and, for any other method, from the form
    that req.ParseForm leaves in req.Form; after signing it writes the
    updated set, api_key and api_sig included, to the URL query for GET
    and DELETE, leaving body and form alone, and to req.Form otherwise,
    leaving the URL alone and the body as ParseForm left it.
    client_test.go:518-552 reads the URL query and writes it back for
    every method, leaves body and form alone, and adds api_sig only. *)
Theorem SignRequest_reads_and_writes c req :
  let b := RevB.SignRequest_run Url.range_keys c req in
  let after_b := fst (RevB.SignRequest c req) in
  let d := RevD.SignRequest_run Url.range_keys c req in
  let after_d := fst (RevD.SignRequest c req) in
  (if RevB.reads_query (Method req)
   then data_read b = Url.Query (URL req) /\
        Url.RawQuery (URL after_b) = Url.Encode (data_written b) /\
        Body after_b = Body req /\ Form after_b = Form req
   else data_read b = default ∅ (Form (Http.ParseForm req)) /\
        Form after_b = Some (data_written b) /\
        URL after_b = URL req /\ Body after_b = Body (Http.ParseForm req)) /\
  Url.Get (data_written b) "api_key" = APIKey c /\
  data_written b !! "api_sig"
  = Some (default [] (data_read b !! "api_sig")
            ++ [Enc.EncodeToString (signature b)])%list /\
  data_read d = Url.Query (URL req) /\
  Url.RawQuery (URL after_d) = Url.Encode (data_written d) /\
  Body after_d = Body req /\ Form after_d = Form req /\
  data_written d !! "api_sig" = Some [Enc.hex (signature d)] /\
  (forall k, k <> "api_sig" -> data_written d !! k = data_read d !! k).
Proof.
  cbn zeta. split.
  { unfold RevB.SignRequest, RevB.SignRequest_visiting, RevB.SignRequest_run,
      RevB.read_data.
    destruct (RevB.reads_query (Method req)); repeat split. }
  split.
  { cbn [data_written RevB.SignRequest_run].
    rewrite Get_Add_ne by apply api_sig_is_not_api_key.
    apply Get_Set_. }
  split.
  { cbn [data_written data_read RevB.SignRequest_run]. unfold Url.Add.
    rewrite lookup_insert_eq. unfold Url.Set_ at 1.
    rewrite lookup_insert_ne by (symmetry; apply api_sig_is_not_api_key).
    reflexivity. }
  repeat split.
  - cbn [data_written RevD.SignRequest_run]. unfold RevD.SignRequest_run.
    cbn [data_written RevA.SignRequest_run]. unfold Url.Set_.
    apply lookup_insert_eq.
  - intros k Hk. unfold RevD.SignRequest_run.
    cbn [data_written data_read RevA.SignRequest_run]. unfold Url.Set_.
    rewrite lookup_insert_ne; [reflexivity | congruence].
Qed.

(** *** What ParseForm leaves in req.Form *)

Lemma fold_copy_lookup (src : gmap string (list string)) ks :
  NoDup ks ->
  forall (dst : gmap string (list string)) k,
  fold_left
    (fun d k => <[k := (default [] (d !! k) ++ default [] (src !! k))%list]> d)
    ks dst !! k
  = if decide (k ∈ ks)
    then Some (default [] (dst !! k) ++ default [] (src !! k))%list
    else dst !! k.
Proof.
  induction ks as [|a ks IH]; intros Hnd dst k.
  - cbn. destruct (decide (k ∈ [])) as [Hin|_]; [| reflexivity].
    now apply elem_of_nil in Hin.
  - apply NoDup_cons in Hnd as [Ha Hnd]. cbn [fold_left].
    rewrite IH by exact Hnd.
    destruct (decide (k = a)) as [->|Hne].
    + destruct (decide (a ∈ ks)) as [Hin|_]; [contradiction |].
      rewrite lookup_insert_eq.
      destruct (decide (a ∈ a :: ks)) as [_|Hout]; [reflexivity |].
      exfalso. apply Hout. now left.
    + rewrite lookup_insert_ne by congruence.
      destruct (decide (k ∈ ks)) as [Hin|Hout];
        destruct (decide (k ∈ a :: ks)) as [Hin'|Hout']; try reflexivity.
      * exfalso. apply Hout'. now right.
      * apply elem_of_cons in Hin' as [->|Hin']; contradiction.
Qed.

Lemma copyValues_lookup (dst src : gmap string (list string)) k :
  Url.copyValues dst src !! k
  = match src !! k with
    | Some vs => Some (default [] (dst !! k) ++ vs)%list
    | None => dst !! k
    end.
Proof.
  unfold Url.copyValues.
  rewrite fold_copy_lookup by apply NoDup_Slice, NoDup_range_keys.
  destruct (decide (k ∈ Sort.Slice (Url.range_keys src))) as [Hin|Hout].
  - apply elem_of_Slice, elem_of_range_keys, elem_of_dom in Hin as [vs Hvs].
    now rewrite Hvs.
  - destruct (src !! k) as [vs|] eqn:Hvs; [| reflexivity].
    exfalso. apply Hout. apply elem_of_Slice, elem_of_range_keys, elem_of_dom.
    now exists vs.
Qed.

(** For a request whose forms are not parsed yet, sent with POST, PUT or
    PATCH and a URL-encoded body within the size limit, ParseForm reads
    the body to its end and leaves in req.Form, key by key, the values of
    the body followed by those of the URL query. *)
Lemma ParseForm_fresh_form req b k :
  PostForm req = None -> Form req = None ->
  Http.is_post_put_patch (Method req) = true ->
  ContentType req = "application/x-www-form-urlencoded" ->
  Body req = Some b -> (Z.of_nat (String.length b) <= Http.maxFormSize)%Z ->
  Body (Http.ParseForm req) = Some "" /\
  default ∅ (Form (Http.ParseForm req)) !! k
  = union_with (fun vb vq => Some (vb ++ vq)%list)
      (Url.ParseQuery b !! k) (Url.ParseQuery (Url.RawQuery (URL req)) !! k).
Proof.
  intros Hpf Hf Hm Hct Hb Hlen.
  unfold Http.ParseForm, Http.parsePostForm.
  rewrite Hpf, Hf, Hm, Hb, Hct.
  change ("application/x-www-form-urlencoded" =? "application/x-www-form-urlencoded")
    with true.
  replace (Http.maxFormSize <? Z.of_nat (String.length b))%Z with false
    by (symmetry; apply Z.ltb_ge; exact Hlen).
  cbn [fst snd Body Form default].
  split; [reflexivity |]. unfold id.
  destruct (0 <? size (Url.ParseQuery b))%nat eqn:Hsize.
  - rewrite !copyValues_lookup, lookup_empty.
    destruct (Url.ParseQuery b !! k) as [vb|];
      destruct (Url.ParseQuery (Url.RawQuery (URL req)) !! k) as [vq|];
      reflexivity.
  - apply Nat.ltb_ge in Hsize.
    assert (Hempty : Url.ParseQuery b = ∅)
      by (apply map_size_empty_iff; lia).
    rewrite Hempty, lookup_empty.
    now destruct (Url.ParseQuery (Url.RawQuery (URL req)) !! k).
Qed.

End Signing.

(** ** Do *)

Section Dispatch.
Local Open Scope string_scope.

Ltac not_among_events :=
  let Hin := fresh "Hin" in
  intros Hin;
  repeat (apply elem_of_cons in Hin as [Hin | Hin]; [discriminate Hin |]);
  now apply elem_of_nil in Hin.

Example new_request_ex :
  Inputs.new_request MethodGet "http://127.0.0.1:8080/infographics/1?x=y"
  = inl (mkRequest MethodGet
           (Url.mkURL "http" "127.0.0.1:8080" "/infographics/1" "x=y")
           "" None None None "").
Proof. reflexivity. Qed.

(** C2, as stated, fails on client.go:196-203 and client_test.go:326-333
    alike: a response with status 101 is outside [200,299], and Do returns
    it with a nil error. *)
Lemma Do_status_below_200_is_no_failure :
  let b := RevB.Do (Inputs.serve Inputs.switching) Inputs.decode_nothing None
             Inputs.golden_get_request (@NilTarget unit) in
  let c := RevC.Do (Inputs.serve Inputs.switching) Inputs.decode_nothing None
             Inputs.golden_get_request (@NilTarget unit) in
  returned b = Returns (Some Inputs.switching, None) /\
  returned c = Returns (Some Inputs.switching, None) /\
  (~ Spec.status_decides Inputs.switching b) /\
  (~ Spec.status_decides Inputs.switching c).
Proof.
  cbn zeta. repeat split.
  - intros (err & Hret & _). discriminate Hret.
  - intros (err & Hret & _). discriminate Hret.
Qed.

(** The specification's example on client_test.go:305-350: status 404
    with body "not found" fails with the text "not found". *)
Example RevC_Do_not_found :
  returned (RevC.Do (Inputs.serve Inputs.not_found) Inputs.decode_nothing None
              Inputs.golden_get_request (@NilTarget unit))
  = Returns (None, Some (errorString "not found")).
Proof. reflexivity. Qed.

(** client.go:196-203 reads the body and drops it: the text is built from
    the status code alone, where its own test (types.go:237-248) expects
    the body. *)
Example RevB_Do_not_found :
  returned (RevB.Do (Inputs.serve Inputs.not_found_page) Inputs.decode_nothing None
              Inputs.golden_get_request (@NilTarget unit))
  = Returns (None, Some (errorString "code: 404, message: ")).
Proof. vm_compute. reflexivity. Qed.

(** C2, amended: for every response delivered without a transport error
    whose status is above 299, Do returns a nil response and a non-nil
    error, in client_test.go:305-350 the error of the read if reading the
    body fails and otherwise an error whose text is the body as read; for
    every response whose status is at most 299, statuses below 200
    included, Do does not take the failure path. *)
Theorem Do_failure_path {T} (Decode : ReadCloser -> T -> T * option error)
    ctx_err req (v : target T) (res : Response) :
  let c := RevC.Do (Inputs.serve res) Decode ctx_err req v in
  let b := RevB.Do (Inputs.serve res) Decode ctx_err req v in
  if (StatusCode res >? 299)%Z
  then returned c
       = Returns (None,
           Some (match read_error (ResBody res) with
                 | Some err => err
                 | None => errorString (unread (ResBody res))
                 end)) /\
       (read_error (ResBody res) = None ->
        exists err, returned c = Returns (None, Some err)
                    /\ Error err = unread (ResBody res)) /\
       (exists err, returned b = Returns (None, Some err)) /\
       events c = [EvReadAll; EvClose] /\ events b = [EvReadAll; EvClose]
  else (EvReadAll ∉ events c) /\ (EvReadAll ∉ events b) /\
       returned (RevC.Do (Inputs.serve res) Decode ctx_err req NilTarget)
       = Returns (Some res, None) /\
       returned (RevB.Do (Inputs.serve res) Decode ctx_err req NilTarget)
       = Returns (Some res, None).
Proof.
  cbn zeta. unfold RevC.Do, RevB.Do, Inputs.serve, ReadAll.
  destruct ctx_err as [cerr|]; cbn [fst snd];
    destruct (StatusCode res >? 299)%Z eqn:Hs.
  all: try (destruct (read_error (ResBody res)) as [rerr|] eqn:Hr;
            repeat split; eauto; try discriminate;
            intros _; eexists; split; reflexivity).
  all: destruct v as [|w|x]; cbn;
       try (destruct (Decode (ResBody res) x) as [x1 [[]|]]; cbn);
       repeat split; try not_among_events.
Qed.

Lemma Do_failure_path_witness :
  exists err,
    returned (RevC.Do (Inputs.serve Inputs.not_found) Inputs.decode_nothing None
                Inputs.golden_get_request (@NilTarget unit))
    = Returns (None, Some err)
    /\ Error err = "not found".
Proof.
  pose proof (Do_failure_path (T := unit) Inputs.decode_nothing None
                Inputs.golden_get_request NilTarget Inputs.not_found) as H.
  cbn zeta in H. change (StatusCode Inputs.not_found >? 299)%Z with true in H.
  destruct H as (_ & H & _). apply H. reflexivity.
Defined.

(** C9: when the transport returns no response and an error while the
    context is not done (a refused connection under context.Background),
    Do goes on to [defer res.Body.Close()] and panics on the nil
    response, in client.go:186-194 and client_test.go:316-324 alike. *)
Theorem Do_transport_error_panics {T} (Decode : ReadCloser -> T -> T * option error)
    req (v : target T) :
  returned (RevB.Do Inputs.refuse Decode None req v) = Panics nil_dereference /\
  returned (RevC.Do Inputs.refuse Decode None req v) = Panics nil_dereference.
Proof. split; reflexivity. Qed.

(** With the context done, the same transport error is reported as the
    context's error. *)
Lemma Do_transport_error_context_done {T}
    (Decode : ReadCloser -> T -> T * option error) req (v : target T) :
  returned (RevB.Do Inputs.refuse Decode (Some Canceled) req v)
  = Returns (None, Some Canceled).
Proof. reflexivity. Qed.

(** Once a response is in hand the deferred Close runs last on every
    path, failure or success. *)
Lemma Do_closes_body {T} (Decode : ReadCloser -> T -> T * option error)
    req (v : target T) (res : Response) :
  last (events (RevB.Do (Inputs.serve res) Decode None req v)) = Some EvClose /\
  last (events (RevC.Do (Inputs.serve res) Decode None req v)) = Some EvClose.
Proof.
  unfold RevB.Do, RevC.Do, Inputs.serve, ReadAll. cbn [fst snd].
  destruct (StatusCode res >? 299)%Z.
  - destruct (read_error (ResBody res)); split; reflexivity.
  - destruct v as [|w|x]; cbn;
      try (destruct (Decode (ResBody res) x) as [x1 [[]|]]; cbn);
      split; reflexivity.
Qed.

End Dispatch.

(** ** The resource operations *)

Section Operations.
Local Open Scope string_scope.
Context {I Th : Type}.
Variable http_NewRequest : string -> string -> Request + error.
Variable RoundTrip : Request -> option Response * option error.
Variable DecodeInfographics : ReadCloser -> list I -> list I * option error.
Variable DecodeInfographic : ReadCloser -> I -> I * option error.
Variable DecodeThemes : ReadCloser -> list Th -> list Th * option error.
Variable zero : I.

(** client.go:309-313: whatever error Do returns, Infographic returns
    nil, nil. *)
Lemma RevB_Infographic_drops_Do_error c id req res err :
  http_NewRequest MethodGet (Endpoint c ++ "/" ++ "infographics" ++ "/" ++ id)
  = inl req ->
  returned (RevB.Do RoundTrip DecodeInfographic None (fst (RevB.SignRequest c req))
              (ValueTarget zero)) = Returns (res, Some err) ->
  RevB.Infographic http_NewRequest RoundTrip DecodeInfographic zero c id
  = Returns (None, None).
Proof.
  intros Hreq Hdo. unfold RevB.Infographic. rewrite Hreq.
  destruct (RevB.SignRequest c req) as [req1 [e|]] eqn:Hsign; [discriminate |].
  cbn [fst] in Hdo. now rewrite Hdo.
Qed.

(** client.go:330-334: the same in UserInfographics. *)
Lemma RevB_UserInfographics_drops_Do_error c id req res err :
  http_NewRequest MethodGet
    (Endpoint c ++ "/" ++ "users" ++ "/" ++ id ++ "/" ++ "infographics")
  = inl req ->
  returned (RevB.Do RoundTrip DecodeInfographics None (fst (RevB.SignRequest c req))
              (ValueTarget [])) = Returns (res, Some err) ->
  RevB.UserInfographics http_NewRequest RoundTrip DecodeInfographics c id
  = Returns ([], None).
Proof.
  intros Hreq Hdo. unfold RevB.UserInfographics. rewrite Hreq.
  destruct (RevB.SignRequest c req) as [req1 [e|]] eqn:Hsign; [discriminate |].
  cbn [fst] in Hdo. now rewrite Hdo.
Qed.

(** client.go:289-292 and 352-355: the sibling operations hand the error
    of Do to their caller. *)
Lemma RevB_Infographics_returns_Do_error c req res err :
  http_NewRequest MethodGet (Endpoint c ++ "/" ++ "infographics") = inl req ->
  returned (RevB.Do RoundTrip DecodeInfographics None (fst (RevB.SignRequest c req))
              (ValueTarget [])) = Returns (res, Some err) ->
  RevB.Infographics http_NewRequest RoundTrip DecodeInfographics c
  = Returns ([], Some err).
Proof.
  intros Hreq Hdo. unfold RevB.Infographics. rewrite Hreq.
  destruct (RevB.SignRequest c req) as [req1 [e|]] eqn:Hsign; [discriminate |].
  cbn [fst] in Hdo. now rewrite Hdo.
Qed.

Lemma RevB_Themes_returns_Do_error c req res err :
  http_NewRequest MethodGet (Endpoint c ++ "/" ++ "themes") = inl req ->
  returned (RevB.Do RoundTrip DecodeThemes None (fst (RevB.SignRequest c req))
              (ValueTarget [])) = Returns (res, Some err) ->
  RevB.Themes http_NewRequest RoundTrip DecodeThemes c = Returns ([], Some err).
Proof.
  intros Hreq Hdo. unfold RevB.Themes. rewrite Hreq.
  destruct (RevB.SignRequest c req) as [req1 [e|]] eqn:Hsign; [discriminate |].
  cbn [fst] in Hdo. now rewrite Hdo.
Qed.

(** A failure to build the request does reach the caller, wrapped. *)
Lemma RevB_Infographic_returns_request_error c id err :
  http_NewRequest MethodGet (Endpoint c ++ "/" ++ "infographics" ++ "/" ++ id)
  = inr err ->
  RevB.Infographic http_NewRequest RoundTrip DecodeInfographic zero c id
  = Returns (None, Some (wrapError "new infographic request: " err)).
Proof. intros Hreq. unfold RevB.Infographic. now rewrite Hreq. Qed.

(** client.go:109-112: a transport error in signAndDo makes Infographics
    return nil, nil. *)
Lemma RevA_Infographics_drops_transport_error c req res err :
  http_NewRequest MethodGet
    (Endpoint c ++ "/" ++ "infographics" ++ "?api_key=" ++ APIKey c) = inl req ->
  RoundTrip (fst (RevA.SignRequest c req)) = (res, Some err) ->
  RevA.Infographics http_NewRequest RoundTrip DecodeInfographics c
  = Returns ([], None).
Proof.
  intros Hreq Hrt. unfold RevA.Infographics, RevA.signAndDo. rewrite Hreq.
  destruct (RevA.SignRequest c req) as [req1 [e|]] eqn:Hsign; [discriminate |].
  cbn [fst] in Hrt. now rewrite Hrt.
Qed.

End Operations.

(** C4: with a server that answers 404, Do returns an error and
    Infographic (client.go:298-316, client_test.go:412-425) and
    UserInfographics (client.go:319-337) return nil with a nil error; with
    a transport whose connection is refused, Infographics and Infographic
    of client.go:103-139 return nil with a nil error. *)
Theorem operations_drop_errors :
  returned (RevB.Do (Inputs.serve Inputs.not_found_page) Inputs.decode_nothing None
              (fst (RevB.SignRequest Inputs.local_client
                      (mkRequest MethodGet
                         (Url.mkURL "http" "127.0.0.1:8080" "/infographics/1" "")
                         "" None None None "")))
              (ValueTarget tt))
  = Returns (None, Some (errorString "code: 404, message: ")) /\
  RevB.Infographic Inputs.new_request (Inputs.serve Inputs.not_found_page)
    Inputs.decode_nothing tt Inputs.local_client "1"
  = Returns (None, None) /\
  RevB.UserInfographics (I := unit) Inputs.new_request
    (Inputs.serve Inputs.not_found_page) Inputs.decode_nothing
    Inputs.local_client "12345"
  = Returns ([], None) /\
  RevC.Infographic Inputs.new_request (Inputs.serve Inputs.not_found_page)
    Inputs.decode_nothing tt Inputs.local_client 1
  = Returns (None, None) /\
  RevA.Infographics (I := unit) Inputs.new_request Inputs.refuse
    Inputs.decode_nothing Inputs.local_client
  = Returns ([], None) /\
  RevA.Infographic Inputs.new_request Inputs.refuse Inputs.decode_nothing tt
    Inputs.local_client 1
  = Returns (None, None).
Proof. vm_compute. repeat split; reflexivity. Qed.

(** ** The codecs of types.go *)

Section Codecs.
Local Open Scope string_scope.
Context {Time : Type}.
Variable time_Parse : string -> option Time.
Variable url_Parse : string -> option Url.URL.

(** types.go:39-109 asserts [int] on values that json.Unmarshal stores as
    [float64]: decoding what MarshalJSON wrote fails at the first field,
    for every record with both URLs set. *)
Lemma UnmarshalJSON_rejects_MarshalJSON
    id title thumbnail theme published (modified : Time) url
    (into : Types.Infoghaphic Time) :
  exists bytes,
    Types.MarshalJSON
      (Types.mkInfoghaphic id title (Some thumbnail) theme published modified
         (Some url))
    = Returns (bytes, None) /\
    Types.UnmarshalJSON time_Parse url_Parse into bytes
    = (into, Some (errorString "id needs to be an int")).
Proof. eexists. split; [reflexivity |]. vm_compute. reflexivity. Qed.

(** A record without a thumbnail or URL cannot be encoded at all. *)
Lemma MarshalJSON_nil_URL_panics id title theme published (modified : Time) url :
  Types.MarshalJSON
    (Types.mkInfoghaphic id title None theme published modified url)
  = Panics nil_dereference.
Proof. reflexivity. Qed.

(** types.go:127-157 never looks at its input: the target is returned as
    it was, with a nil error. *)
Lemma Theme_UnmarshalJSON_ignores_bytes (t : Types.Theme) bytes :
  Types.Theme_UnmarshalJSON url_Parse t bytes = (t, None).
Proof. reflexivity. Qed.

End Codecs.

(** C3: on the records of the repository's own round-trip tests
    (types_test.go:13-67) the codecs of types.go:1-157 do not give the
    record back: decoding the encoded infographic fails with "id needs to
    be an int" and leaves the target as it was, and decoding the encoded
    theme into a zero theme succeeds and leaves it zero. *)
Theorem round_trip_of_test_records_fails {Time}
    (time_Parse : string -> option Time) (url_Parse : string -> option Url.URL)
    (zero_Time : Time) :
  let zero := Types.mkInfoghaphic 0 "" None 0 false zero_Time None in
  (exists bytes,
     Types.MarshalJSON (Inputs.one_hundred zero_Time) = Returns (bytes, None) /\
     bytes = Json.Object
               [("id", Json.Number 100); ("published", Json.Bool false);
                ("theme_id", Json.Number 200);
                ("thumbnail_url", Json.Str "https://example.com/thumbnail.png");
                ("title", Json.Str "One Hundred");
                ("url", Json.Str "https://example.com/100")]%string /\
     Types.UnmarshalJSON time_Parse url_Parse zero bytes
     = (zero, Some (errorString "id needs to be an int"))) /\
  (exists bytes,
     Types.Theme_MarshalJSON Inputs.theme_one_hundred = Returns (bytes, None) /\
     Types.Theme_UnmarshalJSON url_Parse Inputs.zero_Theme bytes
     = (Inputs.zero_Theme, None) /\
     Inputs.zero_Theme <> Inputs.theme_one_hundred).
Proof.
  cbn zeta. split.
  - eexists. split; [vm_compute; reflexivity |]. split; [reflexivity |].
    vm_compute. reflexivity.
  - eexists. split; [vm_compute; reflexivity |]. split; [reflexivity |].
    discriminate.
Qed.

(** * Further properties *)

(** ** Escaping and the query string round trip *)

Section QueryRoundTrip.
Local Open Scope string_scope.

Lemma QueryEscape_cons c s :
  Url.QueryEscape (String c s) = Values.escape_byte c ++ Url.QueryEscape s.
Proof.
  unfold Values.escape_byte. cbn [Url.QueryEscape].
  destruct (Url.shouldEscape c); [destruct (Ascii.eqb c " ") |]; reflexivity.
Qed.

Lemma hex_digits_decode c :
  let n := Bytes.byte_of_ascii c in
  Url.unhex (Enc.hexdigit Enc.upperhex (Z.shiftr n 4)) = Some (Z.shiftr n 4) /\
  Url.unhex (Enc.hexdigit Enc.upperhex (Z.land n 15)) = Some (Z.land n 15) /\
  Bytes.ascii_of_byte (Z.lor (Z.shiftl (Z.shiftr n 4) 4) (Z.land n 15)) = c.
Proof.
  destruct c as [[] [] [] [] [] [] [] []]; vm_compute; repeat split.
Qed.

Lemma QueryUnescape_plain c t :
  Url.shouldEscape c = false ->
  Url.QueryUnescape (String c t) = String c <$> Url.QueryUnescape t.
Proof.
  intros Hc.
  destruct c as [[] [] [] [] [] [] [] []];
    first [ reflexivity | vm_compute in Hc; discriminate Hc ].
Qed.

Lemma QueryUnescape_escape_byte c t :
  Url.QueryUnescape (Values.escape_byte c ++ t) = String c <$> Url.QueryUnescape t.
Proof.
  unfold Values.escape_byte. cbn [Url.QueryEscape].
  destruct (Url.shouldEscape c) eqn:Hs.
  - destruct (Ascii.eqb c " ") eqn:Hsp.
    + apply Ascii.eqb_eq in Hsp. subst c. reflexivity.
    + destruct (hex_digits_decode c) as (Hhi & Hlo & Hc).
      change (Url.QueryUnescape
                (String "%"
                   (String (Enc.hexdigit Enc.upperhex (Z.shiftr (Bytes.byte_of_ascii c) 4))
                      (String (Enc.hexdigit Enc.upperhex (Z.land (Bytes.byte_of_ascii c) 15))
                         t)))
              = String c <$> Url.QueryUnescape t).
      cbn [Url.QueryUnescape]. rewrite Hhi, Hlo.
      destruct (Url.QueryUnescape t); cbn; [now rewrite Hc | reflexivity].
  - change (Url.QueryUnescape (String c t) = String c <$> Url.QueryUnescape t).
    now apply QueryUnescape_plain.
Qed.

Lemma QueryUnescape_QueryEscape s : Url.QueryUnescape (Url.QueryEscape s) = Some s.
Proof.
  induction s as [|c s IH]; [reflexivity |].
  now rewrite QueryEscape_cons, QueryUnescape_escape_byte, IH.
Qed.

End QueryRoundTrip.

Section QueryRoundTrip2.
Local Open Scope string_scope.

Lemma Contains_append ch a b :
  Strings.Contains ch (a ++ b) = Strings.Contains ch a || Strings.Contains ch b.
Proof.
  induction a as [|x a IH]; [reflexivity |].
  rewrite append_cons. cbn [Strings.Contains]. rewrite IH.
  now rewrite orb_assoc.
Qed.

Lemma escape_byte_no_separator c :
  Strings.Contains "&" (Values.escape_byte c) = false /\
  Strings.Contains "=" (Values.escape_byte c) = false /\
  Strings.Contains ";" (Values.escape_byte c) = false.
Proof.
  destruct c as [[] [] [] [] [] [] [] []]; vm_compute; repeat split.
Qed.

Lemma QueryEscape_no_separator s :
  Strings.Contains "&" (Url.QueryEscape s) = false /\
  Strings.Contains "=" (Url.QueryEscape s) = false /\
  Strings.Contains ";" (Url.QueryEscape s) = false.
Proof.
  induction s as [|c s (IH1 & IH2 & IH3)]; [repeat split |].
  rewrite QueryEscape_cons, !Contains_append, IH1, IH2, IH3.
  destruct (escape_byte_no_separator c) as (-> & -> & ->). repeat split.
Qed.

Lemma Split_no_separator sep s :
  Strings.Contains sep s = false -> Strings.Split sep s = [s].
Proof.
  induction s as [|c s IH]; [reflexivity |].
  cbn [Strings.Contains Strings.Split]. intros H.
  apply orb_false_iff in H as [Hc Hs]. rewrite Hc, (IH Hs). reflexivity.
Qed.

Lemma Split_append sep a b :
  Strings.Contains sep a = false ->
  Strings.Split sep (a ++ String sep b) = a :: Strings.Split sep b.
Proof.
  induction a as [|c a IH]; intros H.
  - change (Strings.Split sep (String sep b) = "" :: Strings.Split sep b).
    cbn [Strings.Split]. now rewrite Ascii.eqb_refl.
  - cbn [Strings.Contains] in H. apply orb_false_iff in H as [Hc Ha].
    rewrite append_cons. cbn [Strings.Split]. rewrite Hc, (IH Ha). reflexivity.
Qed.

Lemma Cut_append sep a b :
  Strings.Contains sep a = false ->
  Strings.Cut sep (a ++ String sep b) = (a, b, true).
Proof.
  induction a as [|c a IH]; intros H.
  - change (Strings.Cut sep (String sep b) = ("", b, true)).
    cbn [Strings.Cut]. now rewrite Ascii.eqb_refl.
  - cbn [Strings.Contains] in H. apply orb_false_iff in H as [Hc Ha].
    rewrite append_cons. cbn [Strings.Cut]. rewrite Hc, (IH Ha). reflexivity.
Qed.

(** The segment Encode writes for one pair. *)
Lemma parse_segment_escaped m k x :
  Url.parse_segment m (Url.QueryEscape k ++ "=" ++ Url.QueryEscape x) = Url.Add m k x.
Proof.
  destruct (QueryEscape_no_separator k) as (_ & Hk2 & Hk3).
  destruct (QueryEscape_no_separator x) as (_ & _ & Hx3).
  unfold Url.parse_segment.
  rewrite !Contains_append, Hk3, Hx3. cbn [Strings.Contains Ascii.eqb orb].
  change (Ascii.eqb "=" ";") with false. cbn [orb].
  assert (Hne : String.eqb (Url.QueryEscape k ++ "=" ++ Url.QueryEscape x) "" = false).
  { destruct (Url.QueryEscape k); reflexivity. }
  rewrite Hne.
  change (Url.QueryEscape k ++ "=" ++ Url.QueryEscape x)
    with (Url.QueryEscape k ++ String "=" (Url.QueryEscape x)).
  rewrite (Cut_append "=" _ _ Hk2), !QueryUnescape_QueryEscape. reflexivity.
Qed.

End QueryRoundTrip2.

Section QueryRoundTrip3.
Local Open Scope string_scope.

Lemma segment_no_ampersand kv : Strings.Contains "&" (Values.segment kv) = false.
Proof.
  unfold Values.segment. rewrite !Contains_append.
  destruct (QueryEscape_no_separator (fst kv)) as (-> & _).
  destruct (QueryEscape_no_separator (snd kv)) as (-> & _). reflexivity.
Qed.

Lemma Split_concat segs :
  segs <> [] ->
  Forall (fun s => Strings.Contains "&" s = false) segs ->
  Strings.Split "&" (String.concat "&" segs) = segs.
Proof.
  induction segs as [|x segs IH]; intros Hne Hall; [contradiction |].
  apply Forall_cons in Hall as [Hx Hall].
  destruct segs as [|y segs].
  - cbn [String.concat]. now apply Split_no_separator.
  - change (String.concat "&" (x :: y :: segs))
      with (x ++ String "&" (String.concat "&" (y :: segs))).
    rewrite (Split_append "&" _ _ Hx), IH; [reflexivity | discriminate | exact Hall].
Qed.

Lemma parse_Join segs m :
  Forall (fun s => Strings.Contains "&" s = false) segs ->
  fold_left Url.parse_segment (Strings.Split "&" (Strings.Join segs "&")) m
  = fold_left Url.parse_segment segs m.
Proof.
  intros Hall. unfold Strings.Join. destruct segs as [|x segs].
  - reflexivity.
  - rewrite Split_concat; [reflexivity | discriminate | exact Hall].
Qed.

Lemma parse_segments l : forall m,
  fold_left Url.parse_segment (map Values.segment l) m
  = fold_left (fun m kv => Url.Add m (fst kv) (snd kv)) l m.
Proof.
  induction l as [|[k x] l IH]; intros m; [reflexivity |].
  cbn [map fold_left fst snd].
  change (Values.segment (k, x)) with (Url.QueryEscape k ++ "=" ++ Url.QueryEscape x).
  now rewrite parse_segment_escaped, IH.
Qed.

Lemma Encode_pairs v :
  Url.Encode v = Strings.Join (map Values.segment (Values.pairs v)) "&".
Proof.
  unfold Url.Encode, Values.pairs. f_equal.
  induction (Sort.Slice (Url.range_keys v)) as [|k ks IH]; [reflexivity |].
  cbn [flat_map]. rewrite map_app, IH. f_equal.
  now rewrite map_map.
Qed.

Lemma ParseQuery_Encode_pairs v :
  Url.ParseQuery (Url.Encode v) = Spec.values_of_pairs (Values.pairs v).
Proof.
  unfold Url.ParseQuery, Spec.values_of_pairs.
  rewrite Encode_pairs, parse_Join, parse_segments; [reflexivity |].
  apply Forall_forall. intros s Hs. apply list_elem_of_In, in_map_iff in Hs as (kv & <- & _).
  apply segment_no_ampersand.
Qed.

(** What a run of Adds leaves under one key. *)
Lemma fold_Add_lookup (l : list (string * string)) k :
  forall m : gmap string (list string),
  fold_left (fun m kv => Url.Add m (fst kv) (snd kv)) l m !! k
  = match (filter (fun kv => fst kv = k) l).*2 with
    | [] => m !! k
    | vs => Some (default [] (m !! k) ++ vs)%list
    end.
Proof.
  induction l as [|[k' x] l IH]; intros m; [reflexivity |].
  cbn [fold_left fst snd]. rewrite IH. rewrite filter_cons. cbn [fst].
  destruct (decide (k' = k)) as [->|Hne].
  - rewrite fmap_cons. cbn [snd]. unfold Url.Add. rewrite lookup_insert_eq.
    cbn [default]. destruct ((filter (fun kv => fst kv = k) l).*2) as [|y ys].
    + reflexivity.
    + unfold id. now rewrite <- app_assoc.
  - unfold Url.Add. now rewrite lookup_insert_ne.
Qed.

Lemma filter_same_key k (xs : list string) :
  (filter (fun kv : string * string => fst kv = k) (map (fun x => (k, x)) xs)).*2
  = xs.
Proof.
  induction xs as [|x xs IH]; [reflexivity |].
  cbn [map]. rewrite filter_cons.
  destruct (decide (fst (k, x) = k)) as [_|Hn]; [| now exfalso; apply Hn].
  rewrite fmap_cons. cbn [snd]. now rewrite IH.
Qed.

Lemma filter_other_key a k (xs : list string) :
  a <> k ->
  filter (fun kv : string * string => fst kv = k) (map (fun x => (a, x)) xs) = [].
Proof.
  intros Hne. induction xs as [|x xs IH]; [reflexivity |].
  cbn [map]. rewrite filter_cons.
  destruct (decide (fst (a, x) = k)) as [He|_]; [now cbn in He | exact IH].
Qed.

Lemma pairs_filter (f : string -> list string) k (keys : list string) :
  NoDup keys ->
  (filter (fun kv : string * string => fst kv = k)
     (flat_map (fun k' => map (fun x => (k', x)) (f k')) keys)).*2
  = if decide (k ∈ keys) then f k else [].
Proof.
  induction keys as [|a keys IH]; intros Hnd.
  - cbn. destruct (decide (k ∈ [])) as [Hin|_]; [| reflexivity].
    now apply elem_of_nil in Hin.
  - apply NoDup_cons in Hnd as [Ha Hnd]. cbn [flat_map].
    rewrite filter_app, fmap_app, (IH Hnd).
    destruct (decide (a = k)) as [->|Hne].
    + rewrite filter_same_key.
      destruct (decide (k ∈ keys)) as [Hin|_]; [contradiction |].
      destruct (decide (k ∈ k :: keys)) as [_|Hout].
      * apply app_nil_r.
      * exfalso. apply Hout. now left.
    + rewrite (filter_other_key a k _ Hne). cbn [fmap list_fmap app].
      destruct (decide (k ∈ keys)) as [Hin|Hout];
        destruct (decide (k ∈ a :: keys)) as [Hin'|Hout']; try reflexivity.
      * exfalso. apply Hout'. now right.
      * apply elem_of_cons in Hin' as [->|Hin']; contradiction.
Qed.

(** Encode followed by ParseQuery gives back every key that has values,
    with its values in order; keys bound to an empty list are not
    written. *)
Lemma ParseQuery_Encode_lookup (v : gmap string (list string)) k :
  Url.ParseQuery (Url.Encode v) !! k
  = match v !! k with
    | Some (x :: vs) => Some (x :: vs)
    | _ => None
    end.
Proof.
  rewrite ParseQuery_Encode_pairs. unfold Spec.values_of_pairs, Values.pairs.
  rewrite fold_Add_lookup, lookup_empty.
  rewrite (pairs_filter (fun k' => default [] (v !! k')))
    by apply NoDup_Slice, NoDup_range_keys.
  destruct (decide (k ∈ Sort.Slice (Url.range_keys v))) as [Hin|Hout].
  - apply elem_of_Slice, elem_of_range_keys, elem_of_dom in Hin as [vs Hvs].
    rewrite Hvs. cbn [default]. now destruct vs.
  - destruct (v !! k) as [vs|] eqn:Hvs; [| reflexivity].
    exfalso. apply Hout. apply elem_of_Slice, elem_of_range_keys, elem_of_dom.
    now exists vs.
Qed.

Lemma ParseQuery_Encode (v : gmap string (list string)) :
  Values.no_empty_values v -> Url.ParseQuery (Url.Encode v) = v.
Proof.
  intros Hv. apply map_eq. intros k. rewrite ParseQuery_Encode_lookup.
  destruct (v !! k) as [[|x vs]|] eqn:Hk; try reflexivity.
  now apply Hv in Hk.
Qed.

End QueryRoundTrip3.

(** ** Parameter sets that reach the wire read back the same *)

Section WireRoundTrip.
Local Open Scope string_scope.

Lemma no_empty_Add v key value :
  Values.no_empty_values v -> Values.no_empty_values (Url.Add v key value).
Proof.
  intros Hv k vs. unfold Url.Add.
  destruct (decide (key = k)) as [->|Hne].
  - rewrite lookup_insert_eq. intros [= <-].
    destruct (default [] (v !! k)); discriminate.
  - rewrite lookup_insert_ne by exact Hne. apply Hv.
Qed.

Lemma no_empty_Set_ v key value :
  Values.no_empty_values v -> Values.no_empty_values (Url.Set_ v key value).
Proof.
  intros Hv k vs. unfold Url.Set_.
  destruct (decide (key = k)) as [->|Hne].
  - rewrite lookup_insert_eq. intros [= <-]. discriminate.
  - rewrite lookup_insert_ne by exact Hne. apply Hv.
Qed.

Lemma no_empty_parse_segment m seg :
  Values.no_empty_values m -> Values.no_empty_values (Url.parse_segment m seg).
Proof.
  intros Hm. unfold Url.parse_segment.
  destruct (Strings.Contains ";" seg); [exact Hm |].
  destruct (String.eqb seg ""); [exact Hm |].
  destruct (Strings.Cut "=" seg) as [[key value] found].
  destruct (Url.QueryUnescape key); [| exact Hm].
  destruct (Url.QueryUnescape value); [| exact Hm].
  now apply no_empty_Add.
Qed.

Lemma no_empty_ParseQuery query : Values.no_empty_values (Url.ParseQuery query).
Proof.
  unfold Url.ParseQuery.
  assert (H : forall segs m, Values.no_empty_values m ->
                Values.no_empty_values (fold_left Url.parse_segment segs m)).
  { induction segs as [|s segs IH]; intros m Hm; [exact Hm |].
    cbn [fold_left]. apply IH. now apply no_empty_parse_segment. }
  apply H. intros k vs Hk. now rewrite lookup_empty in Hk.
Qed.

End WireRoundTrip.

Section SignedRequestsReadBack.
Local Open Scope string_scope.

Lemma Get_lookup_ext (v1 v2 : gmap string (list string)) k :
  v1 !! k = v2 !! k -> Url.Get v1 k = Url.Get v2 k.
Proof. intros H. unfold Url.Get. now rewrite H. Qed.

Lemma Get_ParseQuery_Encode v k : Url.Get (Url.ParseQuery (Url.Encode v)) k = Url.Get v k.
Proof.
  unfold Url.Get. rewrite ParseQuery_Encode_lookup.
  now destruct (v !! k) as [[|x vs]|].
Qed.

(** X1 (client_test.go:276-302): a request that NewRequest returns has
    Encode(params) as its raw query, whatever query the path carried; its
    parsed query gives every key the first value params gives it, and is
    params itself when no key of params is bound to an empty list. *)
Theorem NewRequest_query_reads_back {B}
    (http_NewRequest : string -> string -> option string -> Request + error)
    (json_Encode : B -> string + error)
    c method path params (body : option B) req :
  RevCOps.NewRequest http_NewRequest json_Encode c method path params body = inl req ->
  Url.RawQuery (URL req) = Url.Encode params /\
  (forall k, Url.Get (Url.Query (URL req)) k = Url.Get params k) /\
  (Values.no_empty_values params -> Url.Query (URL req) = params) /\
  (body <> None -> ContentType req = "application/json").
Proof.
  unfold RevCOps.NewRequest. intros Hreq.
  assert (Hraw : Url.RawQuery (URL req) = Url.Encode params).
  { destruct body as [b|].
    - destruct (json_Encode b) as [s|err]; [| discriminate].
      destruct (http_NewRequest method (Endpoint c ++ path) (Some s)) as [r|err];
        [| discriminate].
      injection Hreq as <-. reflexivity.
    - destruct (http_NewRequest method (Endpoint c ++ path) None) as [r|err];
        [| discriminate].
      injection Hreq as <-. reflexivity. }
  split; [exact Hraw |]. unfold Url.Query. rewrite Hraw.
  split; [intros k; apply Get_ParseQuery_Encode |].
  split; [apply ParseQuery_Encode |].
  intros Hbody. destruct body as [b|]; [| contradiction].
  destruct (json_Encode b) as [s|err]; [| discriminate].
  destruct (http_NewRequest method (Endpoint c ++ path) (Some s)) as [r|err];
    [| discriminate].
  injection Hreq as <-. reflexivity.
Qed.

Lemma NewRequest_query_reads_back_witness :
  exists req,
    RevCOps.NewRequest More.new_request_with_body More.encode_text
      Inputs.test_client MethodGet "/infographics?stale=1" More.id_and_label None
    = inl req /\
    Url.RawQuery (URL req) = "id=1&label=new+label" /\
    Url.Query (URL req) = More.id_and_label.
Proof.
  eexists. split; [reflexivity |].
  destruct (NewRequest_query_reads_back More.new_request_with_body
              More.encode_text Inputs.test_client MethodGet
              "/infographics?stale=1" More.id_and_label None _ eq_refl)
    as (Hraw & _ & Hquery & _).
  split.
  - rewrite Hraw. vm_compute. reflexivity.
  - apply Hquery. unfold More.id_and_label.
    apply no_empty_Add, no_empty_Add. intros k vs Hk.
    now rewrite lookup_empty in Hk.
Defined.

(** X2 (client.go:54-88, client_test.go:518-552): the URL query of a
    signed request parses back to the set that was written: every
    parameter the request came with is still there with all its values,
    except api_sig, which now holds exactly the new hex signature. *)
Theorem RevA_signed_query_reads_back c req :
  let s := RevA.SignRequest_run Url.range_keys c req in
  let after := fst (RevA.SignRequest c req) in
  Url.Query (URL after) = data_written s /\
  Url.Query (URL after) !! "api_sig" = Some [Enc.hex (signature s)] /\
  (forall k, k <> "api_sig" ->
             Url.Query (URL after) !! k = Url.Query (URL req) !! k).
Proof.
  cbn zeta.
  assert (Hq : Url.Query (URL (fst (RevA.SignRequest c req)))
               = data_written (RevA.SignRequest_run Url.range_keys c req)).
  { change (Url.ParseQuery (Url.Encode (data_written
              (RevA.SignRequest_run Url.range_keys c req)))
            = data_written (RevA.SignRequest_run Url.range_keys c req)).
    apply ParseQuery_Encode. cbn [data_written RevA.SignRequest_run].
    apply no_empty_Set_, no_empty_ParseQuery. }
  rewrite Hq. cbn [data_written RevA.SignRequest_run]. unfold Url.Set_.
  split; [reflexivity |]. split.
  - apply lookup_insert_eq.
  - intros k Hk. now rewrite lookup_insert_ne by congruence.
Qed.

(** X3 (client_test.go:353-388): the same for the signer that sets the
    key first; api_key reads back as the client's key alone. *)
Theorem RevC_signed_query_reads_back c req :
  let s := RevC.SignRequest_run Url.range_keys c req in
  let after := fst (RevC.SignRequest c req) in
  Url.Query (URL after) = data_written s /\
  Url.Query (URL after) !! "api_key" = Some [APIKey c] /\
  Url.Query (URL after) !! "api_sig" = Some [Enc.hex (signature s)] /\
  (forall k, k <> "api_key" -> k <> "api_sig" ->
             Url.Query (URL after) !! k = Url.Query (URL req) !! k).
Proof.
  cbn zeta.
  assert (Hq : Url.Query (URL (fst (RevC.SignRequest c req)))
               = data_written (RevC.SignRequest_run Url.range_keys c req)).
  { change (Url.ParseQuery (Url.Encode (data_written
              (RevC.SignRequest_run Url.range_keys c req)))
            = data_written (RevC.SignRequest_run Url.range_keys c req)).
    apply ParseQuery_Encode. cbn [data_written RevC.SignRequest_run].
    apply no_empty_Set_, no_empty_Set_, no_empty_ParseQuery. }
  rewrite Hq. cbn [data_written RevC.SignRequest_run]. unfold Url.Set_.
  split; [reflexivity |]. split; [| split].
  - rewrite lookup_insert_ne by discriminate. apply lookup_insert_eq.
  - apply lookup_insert_eq.
  - intros k Hk1 Hk2. now rewrite !lookup_insert_ne by congruence.
Qed.

Lemma RevB_Method_after c req :
  Method (fst (RevB.SignRequest c req)) = Method req.
Proof.
  unfold RevB.SignRequest, RevB.SignRequest_visiting, RevB.read_data.
  destruct (RevB.reads_query (Method req)); reflexivity.
Qed.

Lemma RevB_written_no_empty c req :
  RevB.reads_query (Method req) = true ->
  Values.no_empty_values
    (data_written (RevB.SignRequest_run Url.range_keys c req)).
Proof.
  intros Hm. unfold RevB.SignRequest_run, RevB.read_data. rewrite Hm.
  cbn [snd data_written]. apply no_empty_Add, no_empty_Set_, no_empty_ParseQuery.
Qed.

(** What a second SignRequest reads from a signed request is what the
    first one wrote. *)
Lemma RevB_reread c req :
  snd (RevB.read_data (fst (RevB.SignRequest c req)))
  = data_written (RevB.SignRequest_run Url.range_keys c req).
Proof.
  unfold RevB.read_data at 1. rewrite RevB_Method_after.
  destruct (RevB.reads_query (Method req)) eqn:Hm; cbn [snd].
  - pose proof (RevB_written_no_empty c req Hm) as Hne.
    unfold RevB.SignRequest, RevB.SignRequest_visiting, RevB.read_data.
    rewrite Hm. cbn [fst].
    change (Url.ParseQuery (Url.Encode (data_written
              (RevB.SignRequest_run Url.range_keys c req)))
            = data_written (RevB.SignRequest_run Url.range_keys c req)).
    now apply ParseQuery_Encode.
  - unfold RevB.SignRequest, RevB.SignRequest_visiting, RevB.read_data.
    rewrite Hm. reflexivity.
Qed.

Lemma RevB_carried_after c req :
  More.carried (fst (RevB.SignRequest c req))
  = data_written (RevB.SignRequest_run Url.range_keys c req).
Proof.
  unfold More.carried. rewrite RevB_Method_after.
  destruct (RevB.reads_query (Method req)) eqn:Hm.
  - pose proof (RevB_written_no_empty c req Hm) as Hne.
    unfold RevB.SignRequest, RevB.SignRequest_visiting, RevB.read_data.
    rewrite Hm. cbn [fst].
    change (Url.ParseQuery (Url.Encode (data_written
              (RevB.SignRequest_run Url.range_keys c req)))
            = data_written (RevB.SignRequest_run Url.range_keys c req)).
    now apply ParseQuery_Encode.
  - unfold RevB.SignRequest, RevB.SignRequest_visiting, RevB.read_data.
    rewrite Hm. reflexivity.
Qed.

(** X4 (client.go:223-274): the parameter set a signed request carries
    (its parsed URL query for GET and DELETE, its form otherwise) is the
    set that was signed plus the signature: api_key is the client's key
    alone, whatever the request said, api_sig has the new base64
    signature after any values it came with, and every other parameter
    has the values that were read. *)
Theorem RevB_signed_request_reads_back c req :
  let s := RevB.SignRequest_run Url.range_keys c req in
  let after := fst (RevB.SignRequest c req) in
  More.carried after = data_written s /\
  More.carried after !! "api_key" = Some [APIKey c] /\
  More.carried after !! "api_sig"
  = Some (default [] (data_read s !! "api_sig")
            ++ [Enc.EncodeToString (signature s)])%list /\
  (forall k, k <> "api_key" -> k <> "api_sig" ->
             More.carried after !! k = data_read s !! k).
Proof.
  cbn zeta. rewrite RevB_carried_after.
  cbn [data_written data_read RevB.SignRequest_run]. unfold Url.Add, Url.Set_.
  split; [reflexivity |]. split; [| split].
  - rewrite lookup_insert_ne by discriminate. apply lookup_insert_eq.
  - rewrite lookup_insert_eq. now rewrite lookup_insert_ne by discriminate.
  - intros k Hk1 Hk2. now rewrite !lookup_insert_ne by congruence.
Qed.

Lemma RevA_reread c req :
  Url.Query (URL (fst (RevA.SignRequest c req)))
  = data_written (RevA.SignRequest_run Url.range_keys c req).
Proof.
  change (Url.ParseQuery (Url.Encode (data_written
            (RevA.SignRequest_run Url.range_keys c req)))
          = data_written (RevA.SignRequest_run Url.range_keys c req)).
  apply ParseQuery_Encode. cbn [data_written RevA.SignRequest_run].
  apply no_empty_Set_, no_empty_ParseQuery.
Qed.

(** X5 (client.go:54-88): signing a signed request again signs over the
    first signature: the second run reads the set the first one wrote,
    api_sig is among the keys it serializes, with the first hex signature
    as its value, and the new signature replaces the first. *)
Theorem RevA_resigning_signs_the_signature c req :
  let s1 := RevA.SignRequest_run Url.range_keys c req in
  let s2 := RevA.SignRequest_run Url.range_keys c (fst (RevA.SignRequest c req)) in
  data_read s2 = data_written s1 /\
  "api_sig" ∈ dataKeys s2 /\
  Url.Get (data_signed s2) "api_sig" = Enc.hex (signature s1) /\
  data_written s2 !! "api_sig" = Some [Enc.hex (signature s2)].
Proof.
  cbn zeta.
  assert (Hr : data_read (RevA.SignRequest_run Url.range_keys c
                            (fst (RevA.SignRequest c req)))
               = data_written (RevA.SignRequest_run Url.range_keys c req))
    by apply RevA_reread.
  split; [exact Hr |].
  assert (Hs : data_signed (RevA.SignRequest_run Url.range_keys c
                              (fst (RevA.SignRequest c req)))
               = data_written (RevA.SignRequest_run Url.range_keys c req))
    by exact Hr.
  split; [| split].
  - change (dataKeys (RevA.SignRequest_run Url.range_keys c
                        (fst (RevA.SignRequest c req))))
      with (Sort.Slice (Url.range_keys (data_signed
              (RevA.SignRequest_run Url.range_keys c
                 (fst (RevA.SignRequest c req)))))).
    rewrite Hs. apply elem_of_Slice, elem_of_range_keys.
    cbn [data_written RevA.SignRequest_run]. unfold Url.Set_.
    rewrite dom_insert_L. apply elem_of_union. left. now apply elem_of_singleton.
  - rewrite Hs. cbn [data_written RevA.SignRequest_run].
    unfold Url.Get, Url.Set_. now rewrite lookup_insert_eq.
  - cbn [data_written RevA.SignRequest_run]. unfold Url.Set_ at 1.
    apply lookup_insert_eq.
Qed.

Lemma Add_lookup_eq (v : gmap string (list string)) key value :
  Url.Add v key value !! key = Some (default [] (v !! key) ++ [value])%list.
Proof. unfold Url.Add. apply lookup_insert_eq. Qed.

Lemma Get_Add_twice (v w : gmap string (list string)) key x1 x2 :
  w !! key = Some (default [] (Url.Add v key x1 !! key) ++ [x2])%list ->
  Url.Get w key = Url.Get (Url.Add v key x1) key.
Proof.
  intros Hw. unfold Url.Get. rewrite Hw, Add_lookup_eq.
  generalize (default [] (v !! key)). intros [|y ys]; reflexivity.
Qed.

Lemma RevB_written_is_Add visit c req :
  data_written (RevB.SignRequest_run visit c req)
  = Url.Add (data_signed (RevB.SignRequest_run visit c req)) "api_sig"
      (Enc.EncodeToString (signature (RevB.SignRequest_run visit c req))).
Proof. reflexivity. Qed.

Lemma RevB_signed_is_Set visit c req :
  data_signed (RevB.SignRequest_run visit c req)
  = Url.Set_ (data_read (RevB.SignRequest_run visit c req)) "api_key" (APIKey c).
Proof. reflexivity. Qed.

(** X6 (client.go:223-274): signing a signed request again leaves the
    first signature in front: the second run reads the set the first one
    wrote, appends its signature to the values of api_sig, and Get
    still answers with the value it answered with before. *)
Theorem RevB_resigning_keeps_the_first_signature c req :
  let s1 := RevB.SignRequest_run Url.range_keys c req in
  let s2 := RevB.SignRequest_run Url.range_keys c (fst (RevB.SignRequest c req)) in
  data_read s2 = data_written s1 /\
  data_written s2 !! "api_sig"
  = Some (default [] (data_written s1 !! "api_sig")
            ++ [Enc.EncodeToString (signature s2)])%list /\
  Url.Get (data_written s2) "api_sig" = Url.Get (data_written s1) "api_sig".
Proof.
  cbn zeta.
  set (s1 := RevB.SignRequest_run Url.range_keys c req).
  set (s2 := RevB.SignRequest_run Url.range_keys c (fst (RevB.SignRequest c req))).
  assert (Hr : data_read s2 = data_written s1) by apply RevB_reread.
  split; [exact Hr |].
  assert (H2 : data_written s2 !! "api_sig"
               = Some (default [] (data_written s1 !! "api_sig")
                         ++ [Enc.EncodeToString (signature s2)])%list).
  { unfold s2 at 1. rewrite RevB_written_is_Add, Add_lookup_eq.
    rewrite RevB_signed_is_Set. fold s2. rewrite Hr.
    unfold Url.Set_. now rewrite lookup_insert_ne by discriminate. }
  split; [exact H2 |].
  unfold s1 in H2 |- *. rewrite RevB_written_is_Add in H2 |- *. fold s1 in H2 |- *.
  exact (Get_Add_twice _ _ _ _ _ H2).
Qed.

End SignedRequestsReadBack.

(** ** What the signatures cover *)

Section SignatureCoverage.
Local Open Scope string_scope.

Lemma RevA_signature_shape visit c req :
  signature (RevA.SignRequest_run visit c req)
  = (Bytes.of_string (sig (RevA.SignRequest_run visit c req))
       ++ HMAC.mac (Bytes.of_string (APISecret c)) [])%list.
Proof. reflexivity. Qed.

Lemma RevA_sig_needs_no_client visit c c' req :
  sig (RevA.SignRequest_run visit c req) = sig (RevA.SignRequest_run visit c' req).
Proof. reflexivity. Qed.

(** X7 (client.go:54-88): the hex signer's signature can be made without
    the secret. The signing input of a request is the same under every
    client, and the bytes signed for a request are its signing input
    followed by the tail of the bytes signed for any other request under
    the same secret. *)
Theorem RevA_signature_forgeable c c' req1 req2 :
  let s1 := RevA.SignRequest_run Url.range_keys c req1 in
  let s2 := RevA.SignRequest_run Url.range_keys c req2 in
  let forged := RevA.SignRequest_run Url.range_keys c' req2 in
  signature s2
  = (Bytes.of_string (sig forged)
       ++ drop (length (Bytes.of_string (sig s1))) (signature s1))%list.
Proof.
  cbn zeta.
  rewrite (RevA_signature_shape _ c req1), (RevA_signature_shape _ c req2).
  rewrite drop_app_length. now rewrite (RevA_sig_needs_no_client _ c' c).
Qed.

Lemma RevA_write_params_Get_ext (d1 d2 : gmap string (list string)) keys :
  (forall k, Url.Get d1 k = Url.Get d2 k) ->
  RevA.write_params d1 keys = RevA.write_params d2 keys.
Proof.
  intros Hget. rewrite !RevA_write_params_join. f_equal. f_equal.
  apply map_ext. intros k. unfold Spec.escaped_pair. now rewrite Hget.
Qed.

Lemma RevB_write_params_Get_ext (d1 d2 : gmap string (list string)) keys :
  (forall k, Url.Get d1 k = Url.Get d2 k) ->
  RevB.write_params d1 keys = RevB.write_params d2 keys.
Proof.
  intros Hget. rewrite !RevB_write_params_join. f_equal.
  apply map_ext. intros k. unfold Spec.plain_pair. now rewrite Hget.
Qed.

Lemma range_keys_dom (d1 d2 : gmap string (list string)) :
  dom d1 = dom d2 -> Url.range_keys d1 = Url.range_keys d2.
Proof. intros H. unfold Url.range_keys. now rewrite H. Qed.

(** X8 (client.go:54-88): the hex signer signs the first value of every
    parameter and no other: two requests with the same method and path
    whose queries have the same keys and the same first values get the
    same signing input and the same signature, whatever further values
    they carry. *)
Theorem RevA_signs_first_values_only c r1 r2 :
  Method r1 = Method r2 ->
  Url.EscapedPath (URL r1) = Url.EscapedPath (URL r2) ->
  dom (Url.Query (URL r1)) = dom (Url.Query (URL r2)) ->
  (forall k, Url.Get (Url.Query (URL r1)) k = Url.Get (Url.Query (URL r2)) k) ->
  let s1 := RevA.SignRequest_run Url.range_keys c r1 in
  let s2 := RevA.SignRequest_run Url.range_keys c r2 in
  sig s1 = sig s2 /\ signature s1 = signature s2.
Proof.
  intros Hm Hp Hd Hg. cbn zeta.
  assert (Hsig : sig (RevA.SignRequest_run Url.range_keys c r1)
                 = sig (RevA.SignRequest_run Url.range_keys c r2)).
  { cbn [sig RevA.SignRequest_run].
    rewrite Hm, Hp, (range_keys_dom _ _ Hd).
    now rewrite (RevA_write_params_Get_ext _ _ _ Hg). }
  split; [exact Hsig |].
  now rewrite !RevA_signature_shape, Hsig.
Qed.

Lemma RevA_signs_first_values_only_witness :
  let s1 := RevA.SignRequest_run Url.range_keys Inputs.test_client More.get_a12 in
  let s2 := RevA.SignRequest_run Url.range_keys Inputs.test_client More.get_a13 in
  Url.Query (URL More.get_a12) !! "a" = Some ["1"; "2"] /\
  Url.Query (URL More.get_a13) !! "a" = Some ["1"; "3"] /\
  sig s1 = sig s2 /\ signature s1 = signature s2.
Proof.
  split; [vm_compute; reflexivity |]. split; [vm_compute; reflexivity |].
  apply (RevA_signs_first_values_only Inputs.test_client More.get_a12 More.get_a13).
  - reflexivity.
  - reflexivity.
  - vm_compute. reflexivity.
  - intros k. unfold Url.Get.
    destruct (decide (k = "a")) as [->|Hne].
    + vm_compute. reflexivity.
    + replace (Url.Query (URL More.get_a12) !! k) with (@None (list string)).
      * replace (Url.Query (URL More.get_a13) !! k) with (@None (list string));
          [reflexivity |].
        symmetry. apply not_elem_of_dom.
        replace (dom (Url.Query (URL More.get_a13))) with ({["a"]} : gset string)
          by (vm_compute; reflexivity).
        now intros ?%elem_of_singleton.
      * symmetry. apply not_elem_of_dom.
        replace (dom (Url.Query (URL More.get_a12))) with ({["a"]} : gset string)
          by (vm_compute; reflexivity).
        now intros ?%elem_of_singleton.
Defined.

Lemma RevB_signature_shape visit c req :
  signature (RevB.SignRequest_run visit c req)
  = HMAC.mac (Bytes.of_string (APISecret c))
      (Bytes.of_string (sig (RevB.SignRequest_run visit c req))).
Proof. reflexivity. Qed.

Lemma Get_Set_ext (d1 d2 : gmap string (list string)) key value :
  (forall k, Url.Get d1 k = Url.Get d2 k) ->
  forall k, Url.Get (Url.Set_ d1 key value) k = Url.Get (Url.Set_ d2 key value) k.
Proof.
  intros Hg k. unfold Url.Get, Url.Set_.
  destruct (decide (key = k)) as [->|Hne].
  - now rewrite !lookup_insert_eq.
  - rewrite !lookup_insert_ne by exact Hne. apply Hg.
Qed.

(** X9 (client.go:223-274): the base64 signer, too, signs first values
    only: two requests with the same method and URL whose parameter sets
    have the same keys and the same first values get the same signing
    input and the same signature. *)
Theorem RevB_signs_first_values_only c r1 r2 :
  Method r1 = Method r2 -> URL r1 = URL r2 ->
  dom (snd (RevB.read_data r1)) = dom (snd (RevB.read_data r2)) ->
  (forall k, Url.Get (snd (RevB.read_data r1)) k
             = Url.Get (snd (RevB.read_data r2)) k) ->
  let s1 := RevB.SignRequest_run Url.range_keys c r1 in
  let s2 := RevB.SignRequest_run Url.range_keys c r2 in
  sig s1 = sig s2 /\ signature s1 = signature s2.
Proof.
  intros Hm Hu Hd Hg. cbn zeta.
  assert (Hsig : sig (RevB.SignRequest_run Url.range_keys c r1)
                 = sig (RevB.SignRequest_run Url.range_keys c r2)).
  { cbn [sig RevB.SignRequest_run].
    rewrite Hm, Hu.
    rewrite (range_keys_dom (Url.Set_ (snd (RevB.read_data r1)) "api_key" (APIKey c))
               (Url.Set_ (snd (RevB.read_data r2)) "api_key" (APIKey c)))
      by (unfold Url.Set_; rewrite !dom_insert_L; now rewrite Hd).
    now rewrite (RevB_write_params_Get_ext _ _ _ (Get_Set_ext _ _ _ _ Hg)). }
  split; [exact Hsig |].
  now rewrite !RevB_signature_shape, Hsig.
Qed.

Lemma lookup_outside_singleton_dom (v : gmap string (list string)) (a k : string) :
  dom v = {[a]} -> k <> a -> v !! k = None.
Proof.
  intros Hd Hne. apply not_elem_of_dom. rewrite Hd.
  now intros ?%elem_of_singleton.
Qed.

Lemma RevB_signs_first_values_only_witness :
  let s1 := RevB.SignRequest_run Url.range_keys Inputs.test_client More.post_a12 in
  let s2 := RevB.SignRequest_run Url.range_keys Inputs.test_client More.post_a13 in
  snd (RevB.read_data More.post_a12) !! "a" = Some ["1"; "2"] /\
  snd (RevB.read_data More.post_a13) !! "a" = Some ["1"; "3"] /\
  sig s1 = sig s2 /\ signature s1 = signature s2.
Proof.
  split; [vm_compute; reflexivity |]. split; [vm_compute; reflexivity |].
  apply (RevB_signs_first_values_only Inputs.test_client More.post_a12 More.post_a13).
  - reflexivity.
  - reflexivity.
  - vm_compute. reflexivity.
  - intros k. unfold Url.Get.
    destruct (decide (k = "a")) as [->|Hne].
    + vm_compute. reflexivity.
    + rewrite (lookup_outside_singleton_dom _ "a" k) by
        first [vm_compute; reflexivity | exact Hne].
      rewrite (lookup_outside_singleton_dom _ "a" k) by
        first [vm_compute; reflexivity | exact Hne].
      reflexivity.
Defined.

End SignatureCoverage.

(** ** What Do returns, writes and closes *)

Section DoOutcomes.
Local Open Scope string_scope.

Ltac close_not_among :=
  let Hin := fresh "Hin" in
  intros Hin;
  repeat (apply elem_of_cons in Hin as [Hin | Hin]; [discriminate Hin |]);
  now apply elem_of_nil in Hin.

Context {T : Type}.
Variable RoundTrip : Request -> option Response * option error.
Variable Decode : ReadCloser -> T -> T * option error.

(** X10 (client.go:173-220, client_test.go:305-350): whenever Do returns,
    it returns a response or an error, never both and never neither; this
    holds for every transport, decoder, context and target. *)
Theorem Do_returns_response_or_error ctx_err req (v : target T) :
  match returned (RevB.Do RoundTrip Decode ctx_err req v) with
  | Returns r => More.exactly_one r
  | Panics _ => True
  end /\
  match returned (RevC.Do RoundTrip Decode ctx_err req v) with
  | Returns r => More.exactly_one r
  | Panics _ => True
  end.
Proof.
  unfold RevB.Do, RevC.Do, ReadAll.
  split.
  - destruct (RoundTrip (Http.with_RequestURI req "")) as [[res|] [err|]];
      destruct ctx_err as [cerr|]; cbn; try exact I;
      (destruct (StatusCode res >? 299)%Z;
       [destruct (read_error (ResBody res)); exact I
       | destruct v as [|w|x]; cbn; try exact I;
         destruct (Decode (ResBody res) x) as [x1 [[]|]]; exact I]).
  - destruct (RoundTrip req) as [[res|] [err|]];
      destruct ctx_err as [cerr|]; cbn; try exact I;
      (destruct (StatusCode res >? 299)%Z;
       [destruct (read_error (ResBody res)); exact I
       | destruct v as [|w|x]; cbn; try exact I;
         destruct (Decode (ResBody res) x) as [x1 [[]|]]; exact I]).
Qed.

(** X11 (client.go:173-220, client_test.go:305-350): Do dereferences a nil
    response exactly when the transport returned no response and either
    returned no error or the context is not done. *)
Theorem Do_panics_iff ctx_err req (v : target T) :
  (returned (RevB.Do RoundTrip Decode ctx_err req v) = Panics nil_dereference
   <-> fst (RoundTrip (Http.with_RequestURI req "")) = None
       /\ (snd (RoundTrip (Http.with_RequestURI req "")) = None \/ ctx_err = None))
  /\
  (returned (RevC.Do RoundTrip Decode ctx_err req v) = Panics nil_dereference
   <-> fst (RoundTrip req) = None
       /\ (snd (RoundTrip req) = None \/ ctx_err = None)).
Proof.
  unfold RevB.Do, RevC.Do, ReadAll.
  split.
  - destruct (RoundTrip (Http.with_RequestURI req "")) as [[res|] [err|]];
      destruct ctx_err as [cerr|]; cbn [fst snd returned];
      try (split; [discriminate | intros [? [?|?]]; discriminate]);
      try (split; [reflexivity || (intros _; split; [reflexivity | auto]) | reflexivity || auto]);
      (destruct (StatusCode res >? 299)%Z;
       [destruct (read_error (ResBody res));
        (split; [discriminate | intros [? _]; discriminate])
       | destruct v as [|w|x]; cbn;
         try (destruct (Decode (ResBody res) x) as [x1 [[]|]]; cbn);
         (split; [discriminate | intros [? _]; discriminate])]).
  - destruct (RoundTrip req) as [[res|] [err|]];
      destruct ctx_err as [cerr|]; cbn [fst snd returned];
      try (split; [discriminate | intros [? [?|?]]; discriminate]);
      try (split; [reflexivity || (intros _; split; [reflexivity | auto]) | reflexivity || auto]);
      (destruct (StatusCode res >? 299)%Z;
       [destruct (read_error (ResBody res));
        (split; [discriminate | intros [? _]; discriminate])
       | destruct v as [|w|x]; cbn;
         try (destruct (Decode (ResBody res) x) as [x1 [[]|]]; cbn);
         (split; [discriminate | intros [? _]; discriminate])]).
Qed.

Lemma Do_past_transport ctx_err req (v : target T) res terr :
  (terr = None \/ ctx_err = None) ->
  (RoundTrip (Http.with_RequestURI req "") = (Some res, terr) ->
   (StatusCode res >? 299)%Z = false ->
   RevB.Do RoundTrip Decode ctx_err req v
   = RevB.Do (Inputs.serve res) Decode None req v) /\
  (RoundTrip req = (Some res, terr) ->
   (StatusCode res >? 299)%Z = false ->
   RevC.Do RoundTrip Decode ctx_err req v
   = RevC.Do (Inputs.serve res) Decode None req v).
Proof.
  intros Hctx. unfold RevB.Do, RevC.Do, Inputs.serve.
  split; intros -> ->; destruct Hctx as [-> | ->]; try reflexivity;
    destruct terr; reflexivity.
Qed.

(** X12 (client.go:205-216, client_test.go:335-346): with a response of
    status at most 299 and a value to decode into, Do ignores io.EOF from
    the decoder and returns the response; every other decoding error,
    io.EOF wrapped in another error included, is returned with a nil
    response. In both cases the value holds what the decoder left in
    it. *)
Theorem Do_decode_outcome ctx_err req x res terr x1 derr :
  RoundTrip (Http.with_RequestURI req "") = (Some res, terr) ->
  RoundTrip req = (Some res, terr) ->
  (terr = None \/ ctx_err = None) ->
  (StatusCode res <= 299)%Z ->
  Decode (ResBody res) x = (x1, derr) ->
  let b := RevB.Do RoundTrip Decode ctx_err req (ValueTarget x) in
  let c := RevC.Do RoundTrip Decode ctx_err req (ValueTarget x) in
  let result :=
    match derr with
    | None | Some EOF => (Some res, None)
    | Some err => (None, Some err)
    end in
  returned b = Returns result /\ target_after b = ValueTarget x1 /\
  returned c = Returns result /\ target_after c = ValueTarget x1.
Proof.
  intros HB HC Hctx Hst Hdec. cbn zeta.
  assert (Hle : (StatusCode res >? 299)%Z = false) by lia.
  destruct (Do_past_transport ctx_err req (ValueTarget x) res terr Hctx)
    as [EB EC].
  rewrite (EB HB Hle), (EC HC Hle).
  unfold RevB.Do, RevC.Do, Inputs.serve. rewrite Hle, Hdec.
  destruct derr as [[]|]; repeat split.
Qed.

(** X13 (client.go:205-207, client_test.go:335-337): with a response of
    status at most 299 and a writer as target, Do appends the body to the
    writer and returns the response; an error met while reading the body
    is not reported. *)
Theorem Do_copies_body_to_writer ctx_err req w res terr :
  RoundTrip (Http.with_RequestURI req "") = (Some res, terr) ->
  RoundTrip req = (Some res, terr) ->
  (terr = None \/ ctx_err = None) ->
  (StatusCode res <= 299)%Z ->
  let b := RevB.Do RoundTrip Decode ctx_err req (WriterTarget w) in
  let c := RevC.Do RoundTrip Decode ctx_err req (WriterTarget w) in
  returned b = Returns (Some res, None) /\
  target_after b = WriterTarget (w ++ unread (ResBody res)) /\
  returned c = Returns (Some res, None) /\
  target_after c = WriterTarget (w ++ unread (ResBody res)).
Proof.
  intros HB HC Hctx Hst. cbn zeta.
  assert (Hle : (StatusCode res >? 299)%Z = false) by lia.
  destruct (Do_past_transport ctx_err req (WriterTarget w) res terr Hctx)
    as [EB EC].
  rewrite (EB HB Hle), (EC HC Hle).
  unfold RevB.Do, RevC.Do, Inputs.serve. rewrite Hle.
  repeat split.
Qed.

(** X14 (client.go:173-220, client_test.go:305-350): Do changes its target
    only after a response of status at most 299 has arrived; on every
    other path the target is what the caller passed in. *)
Theorem Do_changes_target_only_on_success ctx_err req (v : target T) :
  (target_after (RevB.Do RoundTrip Decode ctx_err req v) = v \/
   exists res, fst (RoundTrip (Http.with_RequestURI req "")) = Some res
               /\ (StatusCode res <= 299)%Z) /\
  (target_after (RevC.Do RoundTrip Decode ctx_err req v) = v \/
   exists res, fst (RoundTrip req) = Some res /\ (StatusCode res <= 299)%Z).
Proof.
  unfold RevB.Do, RevC.Do, ReadAll.
  split.
  - destruct (RoundTrip (Http.with_RequestURI req "")) as [[res|] [err|]];
      destruct ctx_err as [cerr|]; cbn [fst snd target_after];
      try (left; reflexivity);
      (destruct (StatusCode res >? 299)%Z eqn:Hst;
       [destruct (read_error (ResBody res)); left; reflexivity
       | right; exists res; split; [reflexivity | lia]]).
  - destruct (RoundTrip req) as [[res|] [err|]];
      destruct ctx_err as [cerr|]; cbn [fst snd target_after];
      try (left; reflexivity);
      (destruct (StatusCode res >? 299)%Z eqn:Hst;
       [destruct (read_error (ResBody res)); left; reflexivity
       | right; exists res; split; [reflexivity | lia]]).
Qed.

(** X15 (client.go:185-194, client_test.go:317-326): the deferred Close of
    the response body runs exactly once and after every other use of the
    body, on all paths that get past the transport; nothing touches the
    body when the transport gave no response, and a response that comes
    with an error while the context is done is returned from before the
    defer, its body left open. *)
Theorem Do_closes_once_and_last ctx_err req (v : target T) :
  More.closes_once_and_last (RevB.Do RoundTrip Decode ctx_err req v)
    (RoundTrip (Http.with_RequestURI req "")) ctx_err /\
  More.closes_once_and_last (RevC.Do RoundTrip Decode ctx_err req v)
    (RoundTrip req) ctx_err.
Proof.
  unfold More.closes_once_and_last, RevB.Do, RevC.Do, ReadAll.
  split.
  - destruct (RoundTrip (Http.with_RequestURI req "")) as [[res|] [err|]];
      destruct ctx_err as [cerr|]; cbn [fst snd events];
      try (left; split; [reflexivity | first [left; reflexivity
                                              | right; split; discriminate]]);
      right;
      (destruct (StatusCode res >? 299)%Z;
       [destruct (read_error (ResBody res));
        exists [EvReadAll];
        (split; [reflexivity | split; [close_not_among | discriminate]])
       | destruct v as [|w|x]; cbn;
         [exists [];
          (split; [reflexivity | split; [close_not_among | discriminate]])
         |exists [EvCopy];
          (split; [reflexivity | split; [close_not_among | discriminate]])
         |destruct (Decode (ResBody res) x) as [x1 [[]|]]; cbn;
          exists [EvDecode];
          (split; [reflexivity | split; [close_not_among | discriminate]])]]).
  - destruct (RoundTrip req) as [[res|] [err|]];
      destruct ctx_err as [cerr|]; cbn [fst snd events];
      try (left; split; [reflexivity | first [left; reflexivity
                                              | right; split; discriminate]]);
      right;
      (destruct (StatusCode res >? 299)%Z;
       [destruct (read_error (ResBody res));
        exists [EvReadAll];
        (split; [reflexivity | split; [close_not_among | discriminate]])
       | destruct v as [|w|x]; cbn;
         [exists [];
          (split; [reflexivity | split; [close_not_among | discriminate]])
         |exists [EvCopy];
          (split; [reflexivity | split; [close_not_among | discriminate]])
         |destruct (Decode (ResBody res) x) as [x1 [[]|]]; cbn;
          exists [EvDecode];
          (split; [reflexivity | split; [close_not_among | discriminate]])]]).
Qed.

End DoOutcomes.

Lemma Do_decode_outcome_witness :
  let b := RevB.Do (Inputs.serve More.ok_empty) More.decode_eof None
             Inputs.golden_get_request (ValueTarget [7%nat]) in
  let c := RevC.Do (Inputs.serve More.ok_empty) More.decode_eof None
             Inputs.golden_get_request (ValueTarget [7%nat]) in
  returned b = Returns (Some More.ok_empty, None) /\
  target_after b = ValueTarget [7%nat] /\
  returned c = Returns (Some More.ok_empty, None) /\
  target_after c = ValueTarget [7%nat].
Proof.
  apply (Do_decode_outcome (Inputs.serve More.ok_empty) More.decode_eof None
           Inputs.golden_get_request [7%nat] More.ok_empty None [7%nat]
           (Some EOF)).
  - reflexivity.
  - reflexivity.
  - left. reflexivity.
  - vm_compute. discriminate.
  - reflexivity.
Defined.

Lemma Do_copies_body_to_writer_witness :
  let b := RevB.Do (Inputs.serve More.ok_text) (@Inputs.decode_nothing unit) None
             Inputs.golden_get_request (WriterTarget "") in
  let c := RevC.Do (Inputs.serve More.ok_text) (@Inputs.decode_nothing unit) None
             Inputs.golden_get_request (WriterTarget "") in
  returned b = Returns (Some More.ok_text, None) /\
  target_after b = WriterTarget "non-json string" /\
  returned c = Returns (Some More.ok_text, None) /\
  target_after c = WriterTarget "non-json string".
Proof.
  apply (Do_copies_body_to_writer (Inputs.serve More.ok_text)
           (@Inputs.decode_nothing unit) None Inputs.golden_get_request ""
           More.ok_text None).
  - reflexivity.
  - reflexivity.
  - left. reflexivity.
  - vm_compute. discriminate.
Defined.

(** ** The operations built on signAndDo *)

Section SignAndDoOperations.
Local Open Scope string_scope.

Context {I Th : Type}.
Variable http_NewRequest : string -> string -> Request + error.
Variable DecodeList : ReadCloser -> list I -> list I * option error.
Variable DecodeOne : ReadCloser -> I -> I * option error.
Variable DecodeThemes : ReadCloser -> list Th -> list Th * option error.
Variable zero : I.

Lemma RevA_signAndDo_same_bodies RT1 RT2 c req :
  More.same_bodies RT1 RT2 ->
  match RevA.signAndDo RT1 c req, RevA.signAndDo RT2 c req with
  | Returns (r1, e1), Returns (r2, e2) => e1 = e2 /\ ResBody <$> r1 = ResBody <$> r2
  | _, _ => False
  end.
Proof.
  intros Hsame. unfold RevA.signAndDo.
  change (RevA.SignRequest c req) with
    (fst (RevA.SignRequest c req), @None error).
  cbv iota beta.
  destruct (Hsame (fst (RevA.SignRequest c req))) as [He Hb].
  destruct (RT1 (fst (RevA.SignRequest c req))) as [r1 e1].
  destruct (RT2 (fst (RevA.SignRequest c req))) as [r2 e2].
  cbn [fst snd] in He, Hb. subst e2.
  destruct e1; [split; reflexivity | split; [reflexivity | exact Hb]].
Qed.

Ltac same_after_signAndDo Hsame c req :=
  let H := fresh "H" in
  pose proof (RevA_signAndDo_same_bodies _ _ c req Hsame) as H;
  change (@RevDOps.signAndDo) with (@RevA.signAndDo);
  destruct (RevA.signAndDo _ c req) as [[[res1|] [e1|]]|];
  destruct (RevA.signAndDo _ c req) as [[[res2|] [e2|]]|];
  try contradiction; destruct H as [He Hb]; try discriminate;
  cbn in Hb; try (injection He as ->);
  try (injection Hb as Hb; rewrite Hb); try reflexivity.

(** X16 (client.go:90-139, client_test.go:554-645): the operations built
    on signAndDo never look at the status code: against two transports
    that give the same errors and the same bodies with whatever status
    codes, each operation returns the same result. *)
Theorem signAndDo_operations_ignore_status RT1 RT2 c id uid :
  More.same_bodies RT1 RT2 ->
  RevA.Infographics http_NewRequest RT1 DecodeList c
  = RevA.Infographics http_NewRequest RT2 DecodeList c /\
  RevA.Infographic http_NewRequest RT1 DecodeOne zero c id
  = RevA.Infographic http_NewRequest RT2 DecodeOne zero c id /\
  RevDOps.Infographics http_NewRequest RT1 DecodeList c
  = RevDOps.Infographics http_NewRequest RT2 DecodeList c /\
  RevDOps.Infographic http_NewRequest RT1 DecodeOne zero c id
  = RevDOps.Infographic http_NewRequest RT2 DecodeOne zero c id /\
  RevDOps.UserInfographics http_NewRequest RT1 DecodeList c uid
  = RevDOps.UserInfographics http_NewRequest RT2 DecodeList c uid /\
  RevDOps.Themes http_NewRequest RT1 DecodeThemes c
  = RevDOps.Themes http_NewRequest RT2 DecodeThemes c.
Proof.
  intros Hsame.
  unfold RevA.Infographics, RevA.Infographic, RevDOps.Infographics,
    RevDOps.Infographic, RevDOps.UserInfographics, RevDOps.Themes.
  repeat split.
  all: match goal with
       | |- context [http_NewRequest ?m ?u] =>
           destruct (http_NewRequest m u) as [req|err]; [| reflexivity]
       end.
  all: same_after_signAndDo Hsame c req.
Qed.

End SignAndDoOperations.

Lemma signAndDo_operations_ignore_status_witness :
  let RT1 := Inputs.serve (mkResponse 200 (mkBody "[]" None)) in
  let RT2 := Inputs.serve More.server_error in
  RevA.Infographics Inputs.new_request RT1 More.decode_length Inputs.test_client
  = RevA.Infographics Inputs.new_request RT2 More.decode_length Inputs.test_client /\
  RevA.Infographic Inputs.new_request RT1 Inputs.decode_nothing 0%nat Inputs.test_client 1
  = RevA.Infographic Inputs.new_request RT2 Inputs.decode_nothing 0%nat Inputs.test_client 1 /\
  RevDOps.Infographics Inputs.new_request RT1 More.decode_length Inputs.test_client
  = RevDOps.Infographics Inputs.new_request RT2 More.decode_length Inputs.test_client /\
  RevDOps.Infographic Inputs.new_request RT1 Inputs.decode_nothing 0%nat Inputs.test_client 1
  = RevDOps.Infographic Inputs.new_request RT2 Inputs.decode_nothing 0%nat Inputs.test_client 1 /\
  RevDOps.UserInfographics Inputs.new_request RT1 More.decode_length
    Inputs.test_client "7"
  = RevDOps.UserInfographics Inputs.new_request RT2 More.decode_length
      Inputs.test_client "7" /\
  RevDOps.Themes Inputs.new_request RT1 More.decode_length Inputs.test_client
  = RevDOps.Themes Inputs.new_request RT2 More.decode_length Inputs.test_client.
Proof.
  apply (signAndDo_operations_ignore_status Inputs.new_request More.decode_length
           Inputs.decode_nothing More.decode_length 0%nat
           (Inputs.serve (mkResponse 200 (mkBody "[]" None)))
           (Inputs.serve More.server_error) Inputs.test_client 1 "7").
  intros r. split; reflexivity.
Defined.

Section SignAndDoResults.
Local Open Scope string_scope.

Context {I Th : Type}.
Variable http_NewRequest : string -> string -> Request + error.
Variable RoundTrip : Request -> option Response * option error.
Variable DecodeList : ReadCloser -> list I -> list I * option error.
Variable DecodeOne : ReadCloser -> I -> I * option error.
Variable DecodeThemes : ReadCloser -> list Th -> list Th * option error.
Variable zero : I.

Lemma list_result_nil_error_iff {A} (hn : Request + error) c
    (Dec : ReadCloser -> list A -> list A * option error) msg (l : list A) :
  match hn with
  | inr err => Returns ([], Some (wrapError msg err))
  | inl req =>
      match RevDOps.signAndDo RoundTrip c req with
      | Panics msg => Panics msg
      | Returns (_, Some err) => Returns ([], Some err)
      | Returns (None, None) => Panics nil_dereference
      | Returns (Some res, None) =>
          match Dec (ResBody res) [] with
          | (_, Some err) => Returns ([], Some err)
          | (decoded, None) => Returns (decoded, None)
          end
      end
  end = Returns (l, None)
  <-> exists req res,
        hn = inl req
        /\ RoundTrip (fst (RevD.SignRequest c req)) = (Some res, None)
        /\ Dec (ResBody res) [] = (l, None).
Proof.
  destruct hn as [req|err].
  - unfold RevDOps.signAndDo.
    change (RevD.SignRequest c req) with
      (fst (RevD.SignRequest c req), @None error).
    cbv iota beta.
    destruct (RoundTrip (fst (RevD.SignRequest c req))) as [[res|] [e|]] eqn:HRT.
    + split; [discriminate |].
      intros (req' & res' & [= <-] & Hrt & _). rewrite HRT in Hrt. discriminate Hrt.
    + destruct (Dec (ResBody res) []) as [decoded [derr|]] eqn:Hdec.
      * split; [discriminate |].
        intros (req' & res' & [= <-] & Hrt & Hd). rewrite HRT in Hrt.
        injection Hrt as <-. rewrite Hdec in Hd. discriminate Hd.
      * split.
        -- intros [= ->]. exists req, res. repeat split; assumption.
        -- intros (req' & res' & [= <-] & Hrt & Hd). rewrite HRT in Hrt.
           injection Hrt as <-. rewrite Hdec in Hd. now injection Hd as ->.
    + split; [discriminate |].
      intros (req' & res' & [= <-] & Hrt & _). rewrite HRT in Hrt. discriminate Hrt.
    + split; [discriminate |].
      intros (req' & res' & [= <-] & Hrt & _). rewrite HRT in Hrt. discriminate Hrt.
  - split; [discriminate | intros (req' & res' & Hn & _); discriminate Hn].
Qed.

(** X17 (client_test.go:554-585, 608-645): the list operations built on
    signAndDo return a list with a nil error exactly when the request
    could be built, the transport answered the signed request with a
    response and no error, and the decoder read the list from the body
    without error. *)
Theorem RevD_list_operations_succeed_iff c uid (l : list I) (ts : list Th) :
  (RevDOps.Infographics http_NewRequest RoundTrip DecodeList c = Returns (l, None)
   <-> exists req res,
         http_NewRequest MethodGet
           (Endpoint c ++ "/" ++ "infographics" ++ "?api_key=" ++ APIKey c)
         = inl req
         /\ RoundTrip (fst (RevD.SignRequest c req)) = (Some res, None)
         /\ DecodeList (ResBody res) [] = (l, None)) /\
  (RevDOps.UserInfographics http_NewRequest RoundTrip DecodeList c uid
   = Returns (l, None)
   <-> exists req res,
         http_NewRequest MethodGet
           (Endpoint c ++ "/" ++ "users" ++ "/" ++ uid ++ "/" ++ "infographics"
              ++ "?api_key=" ++ APIKey c)
         = inl req
         /\ RoundTrip (fst (RevD.SignRequest c req)) = (Some res, None)
         /\ DecodeList (ResBody res) [] = (l, None)) /\
  (RevDOps.Themes http_NewRequest RoundTrip DecodeThemes c = Returns (ts, None)
   <-> exists req res,
         http_NewRequest MethodGet
           (Endpoint c ++ "/" ++ "themes" ++ "?api_key=" ++ APIKey c)
         = inl req
         /\ RoundTrip (fst (RevD.SignRequest c req)) = (Some res, None)
         /\ DecodeThemes (ResBody res) [] = (ts, None)).
Proof.
  split; [| split].
  - apply (list_result_nil_error_iff _ c DecodeList "new infographics request: ").
  - apply (list_result_nil_error_iff _ c DecodeList "new infographics request: ").
  - apply (list_result_nil_error_iff _ c DecodeThemes "new themes request: ").
Qed.

End SignAndDoResults.

(** ** The list operations built on Do *)

Section DoOperations.
Local Open Scope string_scope.

Context {I Th : Type}.
Variable http_NewRequest : string -> string -> Request + error.
Variable RoundTrip : Request -> option Response * option error.
Variable DecodeInfographics : ReadCloser -> list I -> list I * option error.
Variable DecodeThemes : ReadCloser -> list Th -> list Th * option error.

Lemma Do_list_value_iff {A} (req1 : Request)
    (Dec : ReadCloser -> list A -> list A * option error) (l : list A) :
  match returned (RevB.Do RoundTrip Dec None req1 (ValueTarget [])) with
  | Panics msg => Panics msg
  | Returns (_, Some err) => Returns ([], Some err)
  | Returns (_, None) =>
      Returns (RevB.value_of []
                 (target_after (RevB.Do RoundTrip Dec None req1 (ValueTarget []))),
               None)
  end = Returns (l, None)
  <-> exists res derr,
        fst (RoundTrip (Http.with_RequestURI req1 "")) = Some res
        /\ (StatusCode res <= 299)%Z
        /\ Dec (ResBody res) [] = (l, derr)
        /\ (derr = None \/ derr = Some EOF).
Proof.
  unfold RevB.Do, ReadAll.
  destruct (RoundTrip (Http.with_RequestURI req1 "")) as [[res|] terr].
  - cbn [fst].
    assert (Hnoctx : forall (X : Type) (a b : X),
              match terr with Some _ | _ => a end = a) by (now destruct terr).
    destruct (StatusCode res >? 299)%Z eqn:Hst.
    + split.
      * destruct terr; destruct (read_error (ResBody res)); discriminate.
      * intros (res' & derr & [= <-] & Hle & _). lia.
    + destruct (Dec (ResBody res) []) as [x1 derr] eqn:Hdec.
      split.
      * destruct terr; destruct derr as [[]|]; cbn; try discriminate;
          intros [= <-]; exists res;
          first [ exists (Some EOF);
                  split; [reflexivity |]; split; [lia |];
                  split; [exact Hdec | right; reflexivity]
                | exists None;
                  split; [reflexivity |]; split; [lia |];
                  split; [exact Hdec | left; reflexivity] ].
      * intros (res' & derr' & [= <-] & _ & Hd & Hor).
        rewrite Hdec in Hd. injection Hd as <- <-.
        destruct terr; destruct Hor as [-> | ->]; reflexivity.
  - split.
    + destruct terr; discriminate.
    + intros (res' & derr & Hrt & _). discriminate Hrt.
Qed.

Lemma Do_list_result_nil_error_iff {A} (hn : Request + error)
    (sign : Request -> Request * option error)
    (Dec : ReadCloser -> list A -> list A * option error) msg (l : list A) :
  (forall req, snd (sign req) = None) ->
  match hn with
  | inr err => Returns ([], Some (wrapError msg err))
  | inl req =>
      match sign req with
      | (_, Some err) => Returns ([], Some err)
      | (req, None) =>
          let d := RevB.Do RoundTrip Dec None req (ValueTarget []) in
          match returned d with
          | Panics msg => Panics msg
          | Returns (_, Some err) => Returns ([], Some err)
          | Returns (_, None) => Returns (RevB.value_of [] (target_after d), None)
          end
      end
  end = Returns (l, None)
  <-> exists req res derr,
        hn = inl req
        /\ fst (RoundTrip (Http.with_RequestURI (fst (sign req)) "")) = Some res
        /\ (StatusCode res <= 299)%Z
        /\ Dec (ResBody res) [] = (l, derr)
        /\ (derr = None \/ derr = Some EOF).
Proof.
  intros Hsign. destruct hn as [req|err].
  - specialize (Hsign req).
    destruct (sign req) as [req1 e] eqn:Hs. cbn [snd] in Hsign. subst e.
    cbv zeta. rewrite Do_list_value_iff. split.
    + intros (res & derr & H). exists req, res, derr. rewrite Hs. now split.
    + intros (req' & res & derr & [= <-] & H). rewrite Hs in H.
      now exists res, derr.
  - split; [discriminate |].
    intros (req' & res' & derr & Hn & _). discriminate Hn.
Qed.

(** X18 (client.go:173-220, 277-295, 340-358): Infographics and Themes
    return a list with a nil error exactly when the request could be
    built, the transport gave a response of status at most 299 to the
    signed request, and the decoder read the list from the body with no
    error or with io.EOF. The transport's error is not consulted: the
    context of these calls is never done. *)
Theorem RevB_list_operations_succeed_iff c (l : list I) (ts : list Th) :
  (RevB.Infographics http_NewRequest RoundTrip DecodeInfographics c
   = Returns (l, None)
   <-> exists req res derr,
         http_NewRequest MethodGet (Endpoint c ++ "/" ++ "infographics") = inl req
         /\ fst (RoundTrip (Http.with_RequestURI (fst (RevB.SignRequest c req)) ""))
            = Some res
         /\ (StatusCode res <= 299)%Z
         /\ DecodeInfographics (ResBody res) [] = (l, derr)
         /\ (derr = None \/ derr = Some EOF)) /\
  (RevB.Themes http_NewRequest RoundTrip DecodeThemes c = Returns (ts, None)
   <-> exists req res derr,
         http_NewRequest MethodGet (Endpoint c ++ "/" ++ "themes") = inl req
         /\ fst (RoundTrip (Http.with_RequestURI (fst (RevB.SignRequest c req)) ""))
            = Some res
         /\ (StatusCode res <= 299)%Z
         /\ DecodeThemes (ResBody res) [] = (ts, derr)
         /\ (derr = None \/ derr = Some EOF)).
Proof.
  split.
  - apply (Do_list_result_nil_error_iff _ (RevB.SignRequest c) DecodeInfographics
             "new infographics request: " l).
    intros req. reflexivity.
  - apply (Do_list_result_nil_error_iff _ (RevB.SignRequest c) DecodeThemes
             "new themes request: " ts).
    intros req. reflexivity.
Qed.

End DoOperations.

(** ** The readers of README.md:68-100 *)

Section ReaderBodies.
Local Open Scope string_scope.

Context {Time : Type}.
Variable http_NewRequest : string -> string -> Request + error.
Variable RoundTrip : Request -> option Response * option error.

(** X19 (README.md:68-100 with client_test.go:305-350): whenever reader,
    and so PDFReader, PNGReader and HTMLReader, returns a body, it is the
    body of a response of status at most 299 to the signed request, and
    Do has already closed it: Close is the one thing that happened to
    it. *)
Theorem reader_returns_a_closed_body (i : TypesLater.Infographic Time)
    client format body :
  fst (TypesLater.reader http_NewRequest RoundTrip i client format)
  = Returns (Some body, None) ->
  snd (TypesLater.reader http_NewRequest RoundTrip i client format) = [EvClose]
  /\ exists req res,
       http_NewRequest MethodGet
         (Endpoint client ++ "/" ++ "infographics" ++ "/"
            ++ pretty (TypesLater.Id i) ++ "?api_key=" ++ APIKey client
            ++ "&format=" ++ format) = inl req
       /\ fst (RoundTrip (fst (RevC.SignRequest client req))) = Some res
       /\ (StatusCode res <= 299)%Z
       /\ body = ResBody res.
Proof.
  unfold TypesLater.reader.
  destruct (http_NewRequest _ _) as [req|err]; [| discriminate].
  change (RevC.SignRequest client req) with
    (fst (RevC.SignRequest client req), @None error).
  cbv iota beta.
  unfold RevC.Do, ReadAll.
  destruct (RoundTrip (fst (RevC.SignRequest client req))) as [[res|] [e|]] eqn:HRT;
    cbn [returned events fst snd]; try discriminate.
  all: destruct (StatusCode res >? 299)%Z eqn:Hst; cbn [returned events fst snd];
    [destruct (read_error (ResBody res)); discriminate |].
  all: intros [= <-]; split; [reflexivity |];
    exists req, res; split; [reflexivity |];
    split; [rewrite HRT; reflexivity |];
    split; [lia | reflexivity].
Qed.

End ReaderBodies.

Lemma reader_returns_a_closed_body_witness :
  let i := TypesLater.mkInfographic 1 "one" None 2 true tt None in
  snd (TypesLater.PDFReader Inputs.new_request (Inputs.serve More.ok_text) i
         Inputs.local_client) = [EvClose]
  /\ exists req res,
       Inputs.new_request MethodGet
         "http://127.0.0.1:8080/infographics/1?api_key=key&format=pdf" = inl req
       /\ fst (Inputs.serve More.ok_text (fst (RevC.SignRequest Inputs.local_client req)))
          = Some res
       /\ (StatusCode res <= 299)%Z
       /\ ResBody More.ok_text = ResBody res.
Proof.
  apply (reader_returns_a_closed_body Inputs.new_request
           (Inputs.serve More.ok_text)
           (TypesLater.mkInfographic 1 "one" None 2 true tt None)
           Inputs.local_client "pdf" (ResBody More.ok_text)).
  vm_compute. reflexivity.
Defined.

(** ** The functional options of client.go:27-52 *)

Section ClientOptions.
Local Open Scope string_scope.

Context {H : Type}.
Variable DefaultClient : H.

Lemma NewClient_snoc apiKey apiSecret (options : list (Options.ClientOpts (H := H)))
    opts :
  Options.NewClient DefaultClient apiKey apiSecret (options ++ [opts])
  = opts (Options.NewClient DefaultClient apiKey apiSecret options).
Proof. unfold Options.NewClient. now rewrite fold_left_app. Qed.

Lemma clients_given_snoc (os : list (H + string)) o :
  Options.clients_given (os ++ [o])
  = (Options.clients_given os
       ++ match o with inl h => [h] | inr _ => [] end)%list.
Proof.
  unfold Options.clients_given. rewrite omap_app. now destruct o.
Qed.

Lemma endpoints_given_snoc (os : list (H + string)) o :
  Options.endpoints_given (os ++ [o])
  = (Options.endpoints_given os
       ++ match o with inl _ => [] | inr e => [e] end)%list.
Proof.
  unfold Options.endpoints_given. rewrite omap_app. now destruct o.
Qed.

(** X20 (client.go:27-52, client_test.go:488-515): NewClient applies its
    options from left to right over the defaults. No option changes the
    key or the secret; the endpoint is the one of the last
    ClientOptEndpoint, DefaultEndpoint when there is none; the HTTP client
    is the one of the last ClientOptHTTPClient, http.DefaultClient when
    there is none. *)
Theorem NewClient_last_option_wins apiKey apiSecret (os : list (H + string)) :
  let c := Options.NewClient DefaultClient apiKey apiSecret
             (map Options.option_of os) in
  Options.apiKey c = apiKey /\
  Options.apiSecret c = apiSecret /\
  Options.endpoint c = default DefaultEndpoint (last (Options.endpoints_given os)) /\
  Options.httpClient c = default DefaultClient (last (Options.clients_given os)).
Proof.
  cbn zeta. induction os as [|o os IH] using rev_ind.
  - repeat split.
  - rewrite map_app. cbn [map]. rewrite NewClient_snoc.
    rewrite clients_given_snoc, endpoints_given_snoc.
    destruct IH as (Hk & Hs & He & Hc).
    destruct o as [h|e]; cbn [Options.option_of Options.ClientOptHTTPClient
      Options.ClientOptEndpoint Options.apiKey Options.apiSecret
      Options.endpoint Options.httpClient].
    + rewrite app_nil_r, last_snoc. repeat split; assumption.
    + rewrite app_nil_r, last_snoc. repeat split; assumption.
Qed.

End ClientOptions.

(** ** Integers through float64 *)

Section ThroughFloat64.
Local Open Scope Z_scope.

Lemma nearest_small n : Z.abs n < 2 ^ 53 -> Float64.nearest n = n.
Proof.
  intros H. unfold Float64.nearest.
  now replace (Z.abs n <? 2 ^ 53) with true by (symmetry; apply Z.ltb_lt; exact H).
Qed.

Lemma nearest_large_shape n :
  2 ^ 53 <= Z.abs n < 2 ^ 62 ->
  exists q1 e, 1 <= e <= 9 /\ 0 <= q1 <= 2 ^ 53
               /\ Float64.nearest n = Z.sgn n * (q1 * 2 ^ e).
Proof.
  intros [Hlo Hhi]. unfold Float64.nearest.
  replace (Z.abs n <? 2 ^ 53) with false by (symmetry; apply Z.ltb_ge; exact Hlo).
  set (a := Z.abs n) in *.
  assert (Ha : 0 < a) by (assert (0 < 2 ^ 53) by (apply Z.pow_pos_nonneg; lia); lia).
  destruct (Z.log2_spec a Ha) as [Hl1 Hl2].
  set (l := Z.log2 a) in *.
  assert (Hl0 : 0 <= l) by apply Z.log2_nonneg.
  assert (Hl53 : 53 <= l).
  { assert (53 < Z.succ l); [| lia].
    apply (Z.pow_lt_mono_r_iff 2); lia. }
  assert (Hl61 : l < 62) by (apply (Z.pow_lt_mono_r_iff 2); lia).
  set (e := l - 52).
  assert (He : 1 <= e <= 9) by (subst e; lia).
  assert (H2e : 0 < 2 ^ e) by (apply Z.pow_pos_nonneg; lia).
  rewrite Z.shiftr_div_pow2 by lia.
  set (q := a / 2 ^ e).
  assert (Hq0 : 0 <= q) by (apply Z.div_pos; lia).
  assert (Hq : q < 2 ^ 53).
  { apply Z.div_lt_upper_bound; [exact H2e |].
    rewrite <- Z.pow_add_r by lia.
    replace (e + 53) with (Z.succ l) by (subst e; lia). exact Hl2. }
  match goal with
  | |- context [if ?b then q + 1 else q] =>
      exists (if b then q + 1 else q), e; destruct b
  end.
  all: split; [exact He |]; split; [lia |].
  all: now rewrite Z.shiftl_mul_pow2 by lia.
Qed.

Lemma nearest_in_int n :
  Z.abs n < 2 ^ 62 -> - 2 ^ 63 < Float64.nearest n < 2 ^ 63.
Proof.
  intros Hhi. destruct (Z_lt_le_dec (Z.abs n) (2 ^ 53)) as [Hs|Hl].
  - rewrite nearest_small by exact Hs. lia.
  - destruct (nearest_large_shape n (conj Hl Hhi)) as (q1 & e & He & Hq & ->).
    assert (0 <= q1 * 2 ^ e <= 2 ^ 62).
    { split; [apply Z.mul_nonneg_nonneg; [lia | apply Z.pow_nonneg; lia] |].
      replace (2 ^ 62) with (2 ^ 53 * 2 ^ 9) by reflexivity.
      apply Z.mul_le_mono_nonneg;
        first [lia | apply Z.pow_nonneg; lia | apply Z.pow_le_mono_r; lia]. }
    destruct (Z.sgn_spec n) as [[_ ->]|[[_ ->]|[_ ->]]]; lia.
Qed.

Lemma nearest_large_even n :
  2 ^ 53 <= Z.abs n < 2 ^ 62 -> Z.even (Float64.nearest n) = true.
Proof.
  intros H. destruct (nearest_large_shape n H) as (q1 & e & He & Hq & ->).
  rewrite !Z.even_mul.
  replace (2 ^ e) with (2 * 2 ^ (e - 1))
    by (rewrite <- Z.pow_succ_r by lia; f_equal; lia).
  rewrite Z.even_mul. cbn. now rewrite !orb_true_r.
Qed.

Lemma below_2_62_representable n :
  Z.abs n < 2 ^ 62 -> Float64.representable n = true.
Proof.
  intros H. pose proof (nearest_in_int n H).
  unfold Float64.representable. apply Z.ltb_lt.
  assert (2 ^ 63 < 2 ^ 1024) by (apply Z.pow_lt_mono_r; lia).
  lia.
Qed.

Lemma below_2_62_to_int overflow n :
  Z.abs n < 2 ^ 62 ->
  Float64.to_int overflow (Float64.nearest n) = Float64.nearest n.
Proof.
  intros H. pose proof (nearest_in_int n H). unfold Float64.to_int.
  replace (- 2 ^ 63 <=? Float64.nearest n) with true
    by (symmetry; apply Z.leb_le; lia).
  replace (Float64.nearest n <? 2 ^ 63) with true
    by (symmetry; apply Z.ltb_lt; lia).
  reflexivity.
Qed.

End ThroughFloat64.

(** ** The codecs of README.md:103-251 *)

Section LaterCodecs.
Local Open Scope string_scope.

Lemma fold_insert_lookup {A B} (g : B -> A) (f : string -> B) ks
    (m0 : gmap string A) k :
  fold_left (fun m kv => <[fst kv := g (snd kv)]> m)
    (map (fun k => (k, f k)) ks) m0 !! k
  = if decide (k ∈ ks) then Some (g (f k)) else m0 !! k.
Proof.
  revert m0. induction ks as [|k0 ks IH]; intros m0; cbn [map fold_left fst snd].
  - destruct (decide (k ∈ [])) as [Hin|]; [| reflexivity].
    now apply elem_of_nil in Hin.
  - rewrite IH. destruct (decide (k ∈ ks)) as [Hin|Hout].
    + rewrite decide_True by (now apply elem_of_cons; right). reflexivity.
    + destruct (decide (k = k0)) as [->|Hne].
      * rewrite decide_True by (apply elem_of_cons; now left).
        now rewrite lookup_insert_eq.
      * rewrite decide_False
          by (intros [?|?]%elem_of_cons; [now apply Hne | now apply Hout]).
        now rewrite lookup_insert_ne by (intros ->; now apply Hne).
Qed.

Lemma first_out_of_range_Object members :
  Forall (fun kv => Json64.first_out_of_range (snd kv) = None) members ->
  Json64.first_out_of_range (Json.Object members) = None.
Proof.
  induction 1 as [|[k x] members Hx _ IH]; [reflexivity |].
  cbn [snd] in Hx. cbn. rewrite Hx. exact IH.
Qed.

Lemma fold_coerce_valid {A B} (g : B -> A) (members : list (string * B))
    (m0 : gmap string A) :
  Forall (fun kv => Utf8.coerce (fst kv) = fst kv) members ->
  fold_left (fun m kv => <[Utf8.coerce (fst kv) := g (snd kv)]> m) members m0
  = fold_left (fun m kv => <[fst kv := g (snd kv)]> m) members m0.
Proof.
  intros H. revert m0. induction H as [|kv members Hkv _ IH]; intros m0;
    [reflexivity |].
  cbn [fold_left]. now rewrite Hkv, IH.
Qed.

Lemma valid_coerce s : Utf8.valid s = true -> Utf8.coerce s = s.
Proof. unfold Utf8.valid. apply String.eqb_eq. Qed.

(** json.Unmarshal reads back what json.Marshal wrote, each value decoded
    from its encoding, as long as the keys are valid UTF-8 and every
    number fits a float64. *)
Lemma Unmarshal_Marshal (data : gmap string Json.any) :
  (forall k x, data !! k = Some x -> Utf8.coerce k = k) ->
  (forall k x, data !! k = Some x ->
               Json64.first_out_of_range (Json.encode x) = None) ->
  Json64.Unmarshal (fst (Json.Marshal data)) ∅
  = ((fun x => Json64.decode (Json.encode x)) <$> data, None).
Proof.
  intros Hkeys Hnum. unfold Json.Marshal, Json64.Unmarshal. cbn [fst].
  rewrite (map_ext_in
             (fun k => (Utf8.coerce k,
                        Json.encode (default Json.ANil (data !! k))))
             (fun k => (k, Json.encode (default Json.ANil (data !! k))))).
  2:{ intros k Hin.
      apply list_elem_of_In, elem_of_Slice, elem_of_elements, elem_of_dom in Hin
        as [x Hx].
      now rewrite (Hkeys k x Hx). }
  rewrite fold_coerce_valid.
  2:{ apply Forall_forall. intros [k d] Hin.
      apply list_elem_of_In, in_map_iff in Hin as (k' & [= <- <-] & Hin).
      apply list_elem_of_In, elem_of_Slice, elem_of_elements, elem_of_dom in Hin
        as [x Hx].
      exact (Hkeys k' x Hx). }
  rewrite first_out_of_range_Object.
  - f_equal. apply map_eq. intros k.
    rewrite (fold_insert_lookup Json64.decode
               (fun k => Json.encode (default Json.ANil (data !! k)))).
    rewrite lookup_fmap, lookup_empty.
    destruct (decide (k ∈ Sort.Slice (elements (dom data)))) as [Hin|Hout].
    + apply elem_of_Slice, elem_of_elements, elem_of_dom in Hin as [x Hx].
      now rewrite Hx.
    + destruct (data !! k) as [x|] eqn:Hx; [| reflexivity].
      exfalso. apply Hout, elem_of_Slice, elem_of_elements, elem_of_dom.
      now exists x.
  - apply Forall_forall. intros [k d] Hin.
    apply list_elem_of_In, in_map_iff in Hin as (k' & [= <- <-] & Hin).
    apply list_elem_of_In, elem_of_Slice, elem_of_elements, elem_of_dom in Hin
      as [x Hx].
    cbn [snd]. rewrite Hx. now apply (Hnum k').
Qed.

Context {Time : Type}.
Variable zero_Time : Time.
Variable time_Parse : string -> option Time.
Variable url_Parse : string -> option Url.URL.
Variable int_overflow : Z -> Z.

Lemma exact_is_representable n :
  Float64.nearest n = n -> (- 2 ^ 63 <= n < 2 ^ 63)%Z ->
  Float64.representable n = true.
Proof.
  intros Hn Hr. unfold Float64.representable. rewrite Hn.
  apply Z.ltb_lt.
  assert (2 ^ 63 < 2 ^ 1024)%Z by (apply Z.pow_lt_mono_r; lia).
  lia.
Qed.

Lemma exact_to_int n :
  Float64.nearest n = n -> (- 2 ^ 63 <= n < 2 ^ 63)%Z ->
  Float64.to_int int_overflow (Float64.nearest n) = n.
Proof.
  intros Hn Hr. rewrite Hn. unfold Float64.to_int.
  replace (- 2 ^ 63 <=? n)%Z with true by (symmetry; apply Z.leb_le; lia).
  replace (n <? 2 ^ 63)%Z with true by (symmetry; apply Z.ltb_lt; lia).
  reflexivity.
Qed.

Ltac each_member tac :=
  repeat match goal with
  | |- <[?key := _]> _ !! ?k = Some _ -> _ =>
      destruct (decide (key = k)) as [<-|?];
      [rewrite lookup_insert_eq; intros [= <-]; tac
      | rewrite lookup_insert_ne by assumption]
  end;
  try (rewrite lookup_empty; discriminate).

Ltac lookup_inserts :=
  repeat first
    [ rewrite lookup_insert_eq
    | rewrite lookup_insert_ne by discriminate
    | rewrite lookup_empty ].

(** X21 (README.md:103-196): UnmarshalJSON applied to what MarshalJSON
    wrote gives back Id, Title, ThemeId and Published, and Thumbnail and
    URL where they were not nil, provided the title is valid UTF-8, the
    two numbers are integers a float64 holds exactly, and the text String
    gives for each URL is valid UTF-8 that url.Parse reads back.
    Modified is never written, so it stays what the target had, and so do
    a nil Thumbnail and a nil URL. *)
Theorem UnmarshalJSON_MarshalJSON (target i : TypesLater.Infographic Time) :
  Utf8.valid (TypesLater.Title i) = true ->
  Float64.nearest (TypesLater.Id i) = TypesLater.Id i ->
  (- 2 ^ 63 <= TypesLater.Id i < 2 ^ 63)%Z ->
  Float64.nearest (TypesLater.ThemeId i) = TypesLater.ThemeId i ->
  (- 2 ^ 63 <= TypesLater.ThemeId i < 2 ^ 63)%Z ->
  (forall u, TypesLater.Thumbnail i = Some u ->
             Utf8.valid (Url.URL_String u) = true
             /\ url_Parse (Url.URL_String u) = Some u) ->
  (forall u, TypesLater.URL i = Some u ->
             Utf8.valid (Url.URL_String u) = true
             /\ url_Parse (Url.URL_String u) = Some u) ->
  TypesLater.UnmarshalJSON zero_Time time_Parse url_Parse int_overflow target
    (fst (TypesLater.MarshalJSON i))
  = (TypesLater.mkInfographic (TypesLater.Id i) (TypesLater.Title i)
       (match TypesLater.Thumbnail i with
        | Some u => Some u
        | None => TypesLater.Thumbnail target
        end)
       (TypesLater.ThemeId i) (TypesLater.Published i)
       (TypesLater.Modified target)
       (match TypesLater.URL i with
        | Some u => Some u
        | None => TypesLater.URL target
        end),
     None).
Proof.
  intros Htitle%valid_coerce Hid Hidr Hth Hthr Hthumb Hurl.
  unfold TypesLater.MarshalJSON.
  match goal with |- context [Json.Marshal ?d] => set (data := d) end.
  match goal with
  | |- TypesLater.UnmarshalJSON _ _ _ _ _ ?b = _ =>
      change b with (fst (Json.Marshal data))
  end.
  assert (Lid : data !! "id" = Some (Json.AInt (TypesLater.Id i)))
    by (subst data; destruct (TypesLater.URL i), (TypesLater.Thumbnail i);
        lookup_inserts; reflexivity).
  assert (Ltitle : data !! "title" = Some (Json.AString (TypesLater.Title i)))
    by (subst data; destruct (TypesLater.URL i), (TypesLater.Thumbnail i);
        lookup_inserts; reflexivity).
  assert (Lthumb : data !! "thumbnail_url"
                   = (fun u => Json.AString (Url.URL_String u))
                       <$> TypesLater.Thumbnail i)
    by (subst data; destruct (TypesLater.URL i), (TypesLater.Thumbnail i);
        lookup_inserts; reflexivity).
  assert (Ltheme : data !! "theme_id" = Some (Json.AInt (TypesLater.ThemeId i)))
    by (subst data; destruct (TypesLater.URL i), (TypesLater.Thumbnail i);
        lookup_inserts; reflexivity).
  assert (Lpub : data !! "published" = Some (Json.ABool (TypesLater.Published i)))
    by (subst data; destruct (TypesLater.URL i), (TypesLater.Thumbnail i);
        lookup_inserts; reflexivity).
  assert (Lmod : data !! "date_modified" = None)
    by (subst data; destruct (TypesLater.URL i), (TypesLater.Thumbnail i);
        lookup_inserts; reflexivity).
  assert (Lurl : data !! "url"
                 = (fun u => Json.AString (Url.URL_String u)) <$> TypesLater.URL i)
    by (subst data; destruct (TypesLater.URL i), (TypesLater.Thumbnail i);
        lookup_inserts; reflexivity).
  assert (Hkeys : forall k x, data !! k = Some x -> Utf8.coerce k = k).
  { intros k x. subst data.
    destruct (TypesLater.URL i), (TypesLater.Thumbnail i);
      each_member ltac:(reflexivity). }
  assert (Hnum : forall k x, data !! k = Some x ->
                   Json64.first_out_of_range (Json.encode x) = None).
  { intros k x. subst data.
    destruct (TypesLater.URL i), (TypesLater.Thumbnail i);
      each_member ltac:(cbn [Json.encode Json64.first_out_of_range];
                        try reflexivity;
                        rewrite exact_is_representable by assumption;
                        reflexivity). }
  unfold TypesLater.UnmarshalJSON.
  rewrite (Unmarshal_Marshal data Hkeys Hnum). clearbody data.
  cbv beta iota. unfold TypesLater.field.
  rewrite !lookup_fmap, Lid, Ltitle, Lthumb, Ltheme, Lpub, Lmod, Lurl.
  unfold fmap, option_fmap, option_map.
  cbn [Json.encode Json64.decode].
  rewrite (exact_is_representable _ Hid Hidr), (exact_is_representable _ Hth Hthr).
  rewrite (exact_to_int _ Hid Hidr), (exact_to_int _ Hth Hthr).
  rewrite !Htitle.
  destruct (TypesLater.Thumbnail i) as [thumb|] eqn:Ethumb;
    destruct (TypesLater.URL i) as [u|] eqn:Eurl;
    cbn [option_map Json.encode Json64.decode];
    try (destruct (Hthumb _ eq_refl) as [Hv1%valid_coerce Hp1];
         rewrite !Hv1, Hp1);
    try (destruct (Hurl _ eq_refl) as [Hv2%valid_coerce Hp2];
         rewrite !Hv2, Hp2);
    reflexivity.
Qed.

(** X22 (README.md:199-251): for a theme with a thumbnail, UnmarshalJSON
    applied to what MarshalJSON wrote gives back the theme, whatever the
    target held, provided the title is valid UTF-8, the id is an integer
    a float64 holds exactly, and the text String gives for the thumbnail
    is valid UTF-8 that url.Parse reads back. *)
Theorem Theme_UnmarshalJSON_MarshalJSON (target t : TypesLater.Theme) u :
  Utf8.valid (TypesLater.ThTitle t) = true ->
  TypesLater.ThThumbnail t = Some u ->
  Utf8.valid (Url.URL_String u) = true ->
  url_Parse (Url.URL_String u) = Some u ->
  Float64.nearest (TypesLater.ThId t) = TypesLater.ThId t ->
  (- 2 ^ 63 <= TypesLater.ThId t < 2 ^ 63)%Z ->
  exists bytes,
    TypesLater.Theme_MarshalJSON t = Returns (bytes, None)
    /\ TypesLater.Theme_UnmarshalJSON url_Parse int_overflow target bytes
       = (t, None).
Proof.
  intros Htitle%valid_coerce Hthumb Hvalid%valid_coerce Hurl Hid Hidr.
  unfold TypesLater.Theme_MarshalJSON. rewrite Hthumb.
  match goal with |- context [Json.Marshal ?d] => set (data := d) end.
  exists (fst (Json.Marshal data)). split; [reflexivity |].
  assert (Lid : data !! "id" = Some (Json.AInt (TypesLater.ThId t)))
    by (subst data; lookup_inserts; reflexivity).
  assert (Ltitle : data !! "title" = Some (Json.AString (TypesLater.ThTitle t)))
    by (subst data; lookup_inserts; reflexivity).
  assert (Lthumb : data !! "thumbnail_url"
                   = Some (Json.AString (Url.URL_String u)))
    by (subst data; lookup_inserts; reflexivity).
  assert (Hkeys : forall k x, data !! k = Some x -> Utf8.coerce k = k).
  { intros k x. subst data. each_member ltac:(reflexivity). }
  assert (Hnum : forall k x, data !! k = Some x ->
                   Json64.first_out_of_range (Json.encode x) = None).
  { intros k x. subst data.
    each_member ltac:(cbn [Json.encode Json64.first_out_of_range];
                      try reflexivity;
                      rewrite exact_is_representable by assumption;
                      reflexivity). }
  unfold TypesLater.Theme_UnmarshalJSON.
  rewrite (Unmarshal_Marshal data Hkeys Hnum). clearbody data.
  cbv beta iota. unfold TypesLater.field.
  rewrite !lookup_fmap, Lid, Ltitle, Lthumb.
  unfold fmap, option_fmap, option_map.
  cbn [Json.encode Json64.decode].
  rewrite (exact_is_representable _ Hid Hidr), (exact_to_int _ Hid Hidr).
  cbn [TypesLater.ThId TypesLater.ThTitle TypesLater.ThThumbnail].
  rewrite !Htitle, !Hvalid, Hurl. destruct t as [id title thumb].
  cbn in Hthumb |- *.
  now rewrite Hthumb.
Qed.

Lemma field_skip {R} (data : gmap string Json.any) key
    (step : Json.any -> R -> R * option error) k r :
  data !! key = None -> TypesLater.field data key step k r = k r.
Proof. intros H. unfold TypesLater.field. now rewrite H. Qed.

Lemma field_keeps {R A} (proj : R -> A) (data : gmap string Json.any) key
    (step : Json.any -> R -> R * option error) k :
  (forall val r, proj (fst (step val r)) = proj r) ->
  (forall r, proj (fst (k r)) = proj r) ->
  forall r, proj (fst (TypesLater.field data key step k r)) = proj r.
Proof.
  intros Hstep Hk r. unfold TypesLater.field.
  destruct (data !! key) as [val|]; [| apply Hk].
  specialize (Hstep val r).
  destruct (step val r) as [r1 [err|]]; cbn [fst] in *; [exact Hstep |].
  now rewrite Hk.
Qed.

Lemma coerce_high c0 r0 :
  (Utf8.byte c0 <? 0x80)%Z = false ->
  exists x rest,
    Utf8.coerce (String c0 r0) = String x rest
    /\ (Utf8.byte x <? 0x80)%Z = false.
Proof.
  intros E.
  destruct r0 as [|c1 [|c2 [|c3 r3]]]; cbn [Utf8.coerce]; rewrite E;
    repeat match goal with
           | |- context [if ?b then _ else _] => destruct b
           end;
    first [ exists c0; eexists; split; [reflexivity | exact E]
          | eexists _, _; split; [reflexivity | reflexivity] ].
Qed.

(** Coercion never turns another name into a name of 7-bit characters. *)
Lemma coerce_ascii_inv k : forall key,
  More.ascii_only key = true -> Utf8.coerce k = key -> k = key.
Proof.
  induction k as [|c0 r0 IH]; intros key Hascii H; [exact H |].
  destruct (Utf8.byte c0 <? 0x80)%Z eqn:E.
  - cbn [Utf8.coerce] in H. rewrite E in H.
    destruct key as [|a key']; [discriminate H |].
    injection H as -> Hr. f_equal. apply IH; [| exact Hr].
    unfold More.ascii_only in Hascii |- *. cbn [list_ascii_of_string forallb] in Hascii.
    now apply andb_prop in Hascii as [_ Hascii].
  - destruct (coerce_high c0 r0 E) as (x & rest & Hx & Ex).
    rewrite Hx in H. subst key.
    unfold More.ascii_only in Hascii. cbn [list_ascii_of_string forallb] in Hascii.
    apply andb_prop in Hascii as [Hascii _]. congruence.
Qed.

Lemma fold_insert_not_mentioned {A B} (g : B -> A) (members : list (string * B))
    (m0 : gmap string A) key :
  More.ascii_only key = true ->
  key ∉ map fst members ->
  fold_left (fun m kv => <[Utf8.coerce (fst kv) := g (snd kv)]> m) members m0
    !! key
  = m0 !! key.
Proof.
  intros Hascii. revert m0.
  induction members as [|[k x] members IH]; intros m0 Hout; [reflexivity |].
  cbn [fold_left fst snd]. cbn [map fst] in Hout.
  rewrite IH by (intros Hin; apply Hout; now right).
  apply lookup_insert_ne. intros Hk.
  apply (coerce_ascii_inv _ _ Hascii) in Hk. subst k. apply Hout. now left.
Qed.

Lemma Unmarshal_not_mentioned bytes key data :
  More.ascii_only key = true ->
  ~ More.mentions bytes key ->
  Json64.Unmarshal bytes ∅ = (data, None) ->
  data !! key = None.
Proof.
  intros Hascii Hout. destruct bytes as [| | | | |members]; cbn; try discriminate.
  - intros [= <-]. apply lookup_empty.
  - intros [= <- _].
    rewrite (fold_insert_not_mentioned Json64.decode) by assumption.
    apply lookup_empty.
Qed.

Ltac keeps_field key :=
  first
    [ rewrite (field_skip _ key) by assumption; keeps_field key
    | apply field_keeps;
      [ let val := fresh "val" in
        let r := fresh "r" in
        intros val r; destruct val; try reflexivity;
        match goal with
        | |- context [url_Parse ?v] => destruct (url_Parse v); reflexivity
        | |- context [time_Parse ?v] => destruct (time_Parse v); reflexivity
        end
      | let r := fresh "r" in intros r; keeps_field key ]
    | reflexivity ].

(** X23 (README.md:126-196): UnmarshalJSON changes no field whose key the
    JSON text does not mention, whether it succeeds or fails: decoding
    merges the members of the text into the target. *)
Theorem UnmarshalJSON_keeps_unmentioned_fields
    (target : TypesLater.Infographic Time) bytes :
  let r := fst (TypesLater.UnmarshalJSON zero_Time time_Parse url_Parse
                  int_overflow target bytes) in
  (~ More.mentions bytes "id" -> TypesLater.Id r = TypesLater.Id target) /\
  (~ More.mentions bytes "title" -> TypesLater.Title r = TypesLater.Title target) /\
  (~ More.mentions bytes "thumbnail_url" ->
   TypesLater.Thumbnail r = TypesLater.Thumbnail target) /\
  (~ More.mentions bytes "theme_id" ->
   TypesLater.ThemeId r = TypesLater.ThemeId target) /\
  (~ More.mentions bytes "published" ->
   TypesLater.Published r = TypesLater.Published target) /\
  (~ More.mentions bytes "date_modified" ->
   TypesLater.Modified r = TypesLater.Modified target) /\
  (~ More.mentions bytes "url" -> TypesLater.URL r = TypesLater.URL target).
Proof.
  cbn zeta. unfold TypesLater.UnmarshalJSON.
  destruct (Json64.Unmarshal bytes ∅) as [data [err|]] eqn:Hdata.
  - repeat split; reflexivity.
  - repeat match goal with |- _ /\ _ => split end;
      intros Hout;
      match type of Hout with
      | ~ More.mentions _ ?key =>
          pose proof (Unmarshal_not_mentioned bytes key data eq_refl Hout Hdata)
      end;
      revert target; intros target.
    + keeps_field "id".
    + keeps_field "title".
    + keeps_field "thumbnail_url".
    + keeps_field "theme_id".
    + keeps_field "published".
    + keeps_field "date_modified".
    + keeps_field "url".
Qed.

(** X24 (README.md:103-196): the Id that UnmarshalJSON reads back from
    what MarshalJSON wrote is the float64 nearest to the Id written, since
    the number passes through a float64 assertion. An odd Id of absolute
    value 2^53 or more therefore never comes back as it was. *)
Theorem MarshalJSON_UnmarshalJSON_rounds_Id (target i : TypesLater.Infographic Time) :
  (Z.abs (TypesLater.Id i) < 2 ^ 62)%Z ->
  (Z.abs (TypesLater.ThemeId i) < 2 ^ 62)%Z ->
  let r := fst (TypesLater.UnmarshalJSON zero_Time time_Parse url_Parse
                  int_overflow target (fst (TypesLater.MarshalJSON i))) in
  TypesLater.Id r = Float64.nearest (TypesLater.Id i) /\
  ((2 ^ 53 <= Z.abs (TypesLater.Id i))%Z -> Z.odd (TypesLater.Id i) = true ->
   TypesLater.Id r <> TypesLater.Id i).
Proof.
  intros Hid Hth. cbn zeta.
  assert (Hr : TypesLater.Id
                 (fst (TypesLater.UnmarshalJSON zero_Time time_Parse url_Parse
                         int_overflow target (fst (TypesLater.MarshalJSON i))))
               = Float64.nearest (TypesLater.Id i)).
  { unfold TypesLater.MarshalJSON.
    match goal with |- context [Json.Marshal ?d] => set (data := d) end.
    match goal with
    | |- context [TypesLater.UnmarshalJSON _ _ _ _ _ ?b] =>
        change b with (fst (Json.Marshal data))
    end.
    assert (Lid : data !! "id" = Some (Json.AInt (TypesLater.Id i)))
      by (subst data; destruct (TypesLater.URL i), (TypesLater.Thumbnail i);
          lookup_inserts; reflexivity).
    assert (Hkeys : forall k x, data !! k = Some x -> Utf8.coerce k = k).
    { intros k x. subst data.
      destruct (TypesLater.URL i), (TypesLater.Thumbnail i);
        each_member ltac:(reflexivity). }
    assert (Hnum : forall k x, data !! k = Some x ->
                     Json64.first_out_of_range (Json.encode x) = None).
    { intros k x. subst data.
      destruct (TypesLater.URL i), (TypesLater.Thumbnail i);
        each_member ltac:(cbn [Json.encode Json64.first_out_of_range];
                          try reflexivity;
                          rewrite below_2_62_representable by assumption;
                          reflexivity). }
    unfold TypesLater.UnmarshalJSON.
    rewrite (Unmarshal_Marshal data Hkeys Hnum). clearbody data.
    cbv beta iota. unfold TypesLater.field at 1.
    rewrite lookup_fmap, Lid. unfold fmap, option_fmap, option_map.
    cbn [Json.encode Json64.decode].
    rewrite (below_2_62_representable _ Hid), (below_2_62_to_int _ _ Hid).
    cbv beta iota.
    remember (TypesLater.set_Id target (Float64.nearest (TypesLater.Id i)))
      as r0 eqn:Er0.
    transitivity (TypesLater.Id r0); [| now subst r0].
    clear Er0. revert r0; intros r0. keeps_field "id". }
  split; [exact Hr |].
  intros Hbig Hodd. rewrite Hr. intros Heq.
  pose proof (nearest_large_even _ (conj Hbig Hid)) as Heven.
  rewrite Heq, <- Z.negb_odd, Hodd in Heven. discriminate Heven.
Qed.

End LaterCodecs.

Lemma UnmarshalJSON_MarshalJSON_witness :
  TypesLater.UnmarshalJSON tt (fun _ => None) More.parse_url (fun v => v)
    More.later_zero (fst (TypesLater.MarshalJSON More.later_one_hundred))
  = (More.later_one_hundred, None).
Proof.
  apply (UnmarshalJSON_MarshalJSON tt (fun _ => None) More.parse_url (fun v => v)
           More.later_zero More.later_one_hundred).
  - vm_compute. reflexivity.
  - reflexivity.
  - vm_compute. split; [discriminate | reflexivity].
  - reflexivity.
  - vm_compute. split; [discriminate | reflexivity].
  - intros u [= <-]. vm_compute. split; reflexivity.
  - intros u [= <-]. vm_compute. split; reflexivity.
Defined.

Lemma Theme_UnmarshalJSON_MarshalJSON_witness :
  exists bytes,
    TypesLater.Theme_MarshalJSON More.later_theme = Returns (bytes, None)
    /\ TypesLater.Theme_UnmarshalJSON More.parse_url (fun v => v)
         (TypesLater.mkTheme 0 "" None) bytes
       = (More.later_theme, None).
Proof.
  apply (Theme_UnmarshalJSON_MarshalJSON More.parse_url (fun v => v)
           (TypesLater.mkTheme 0 "" None) More.later_theme
           (Inputs.example_com "/thumbnail.png")).
  - vm_compute. reflexivity.
  - reflexivity.
  - vm_compute. reflexivity.
  - vm_compute. reflexivity.
  - reflexivity.
  - vm_compute. split; [discriminate | reflexivity].
Defined.


Lemma UnmarshalJSON_keeps_unmentioned_fields_witness :
  let r := fst (TypesLater.UnmarshalJSON tt (fun _ => None) More.parse_url
                  (fun v => v) More.later_one_hundred
                  (Json.Object [("title", Json.Str "Two Hundred")])) in
  TypesLater.Id r = 100%Z /\
  TypesLater.URL r = Some (Inputs.example_com "/100").
Proof.
  destruct (UnmarshalJSON_keeps_unmentioned_fields tt (fun _ => None)
              More.parse_url (fun v => v) More.later_one_hundred
              (Json.Object [("title", Json.Str "Two Hundred")]))
    as (Hid & _ & _ & _ & _ & _ & Hurl).
  split.
  - apply Hid. intros Hin%list_elem_of_singleton. discriminate Hin.
  - apply Hurl. intros Hin%list_elem_of_singleton. discriminate Hin.
Defined.

Lemma MarshalJSON_UnmarshalJSON_rounds_Id_witness :
  let i := TypesLater.mkInfographic (2 ^ 53 + 1) "big" None 1 true tt None in
  let r := fst (TypesLater.UnmarshalJSON tt (fun _ => None) More.parse_url
                  (fun v => v) More.later_zero (fst (TypesLater.MarshalJSON i))) in
  TypesLater.Id r = Float64.nearest (2 ^ 53 + 1) /\
  ((2 ^ 53 <= Z.abs (2 ^ 53 + 1))%Z -> Z.odd (2 ^ 53 + 1) = true ->
   TypesLater.Id r <> (2 ^ 53 + 1)%Z).
Proof.
  apply (MarshalJSON_UnmarshalJSON_rounds_Id tt (fun _ => None) More.parse_url
           (fun v => v) More.later_zero
           (TypesLater.mkInfographic (2 ^ 53 + 1) "big" None 1 true tt None)).
  - vm_compute. reflexivity.
  - vm_compute. reflexivity.
Defined.

(** A title that is not valid UTF-8 does not come back: json.Marshal has
    written U+FFFD in the place of the offending byte. *)
Example invalid_title_is_coerced :
  TypesLater.Title
    (fst (TypesLater.UnmarshalJSON tt (fun _ => None) More.parse_url
            (fun v => v) More.later_zero
            (fst (TypesLater.MarshalJSON More.later_bad_title))))
  = Utf8.RuneError.
Proof. vm_compute. reflexivity. Qed.

(** ** The operations of client_test.go:391-457 *)

Section LaterDoOperations.
Local Open Scope string_scope.

Context {B I Th : Type}.
Variable http_NewRequest : string -> string -> option string -> Request + error.
Variable json_Encode : B -> string + error.
Variable RoundTrip : Request -> option Response * option error.
Variable DecodeInfographics : ReadCloser -> list I -> list I * option error.
Variable DecodeThemes : ReadCloser -> list Th -> list Th * option error.

Lemma RevC_Do_list_value_iff {A} (req1 : Request)
    (Dec : ReadCloser -> list A -> list A * option error) (l : list A) :
  match returned (RevC.Do RoundTrip Dec None req1 (ValueTarget [])) with
  | Panics msg => Panics msg
  | Returns (_, Some err) => Returns ([], Some err)
  | Returns (_, None) =>
      Returns (RevB.value_of []
                 (target_after (RevC.Do RoundTrip Dec None req1 (ValueTarget []))),
               None)
  end = Returns (l, None)
  <-> exists res derr,
        fst (RoundTrip req1) = Some res
        /\ (StatusCode res <= 299)%Z
        /\ Dec (ResBody res) [] = (l, derr)
        /\ (derr = None \/ derr = Some EOF).
Proof.
  unfold RevC.Do, ReadAll.
  destruct (RoundTrip req1) as [[res|] terr].
  - cbn [fst].
    destruct (StatusCode res >? 299)%Z eqn:Hst.
    + split.
      * destruct terr; destruct (read_error (ResBody res)); discriminate.
      * intros (res' & derr & [= <-] & Hle & _). lia.
    + destruct (Dec (ResBody res) []) as [x1 derr] eqn:Hdec.
      split.
      * destruct terr; destruct derr as [[]|]; cbn; try discriminate;
          intros [= <-]; exists res;
          first [ exists (Some EOF);
                  split; [reflexivity |]; split; [lia |];
                  split; [exact Hdec | right; reflexivity]
                | exists None;
                  split; [reflexivity |]; split; [lia |];
                  split; [exact Hdec | left; reflexivity] ].
      * intros (res' & derr' & [= <-] & _ & Hd & Hor).
        rewrite Hdec in Hd. injection Hd as <- <-.
        destruct terr; destruct Hor as [-> | ->]; reflexivity.
  - split.
    + destruct terr; discriminate.
    + intros (res' & derr & Hrt & _). discriminate Hrt.
Qed.

Lemma RevC_signed_list_result_iff {A} (hn : Request + error)
    (sign : Request -> Request * option error)
    (Dec : ReadCloser -> list A -> list A * option error) msg (l : list A) :
  (forall req, snd (sign req) = None) ->
  match hn with
  | inr err => Returns ([], Some (wrapError msg err))
  | inl req =>
      match sign req with
      | (_, Some err) => Returns ([], Some err)
      | (req, None) =>
          let d := RevC.Do RoundTrip Dec None req (ValueTarget []) in
          match returned d with
          | Panics msg => Panics msg
          | Returns (_, Some err) => Returns ([], Some err)
          | Returns (_, None) => Returns (RevB.value_of [] (target_after d), None)
          end
      end
  end = Returns (l, None)
  <-> exists req res derr,
        hn = inl req
        /\ fst (RoundTrip (fst (sign req))) = Some res
        /\ (StatusCode res <= 299)%Z
        /\ Dec (ResBody res) [] = (l, derr)
        /\ (derr = None \/ derr = Some EOF).
Proof.
  intros Hsign. destruct hn as [req|err].
  - specialize (Hsign req).
    destruct (sign req) as [req1 e] eqn:Hs. cbn [snd] in Hsign. subst e.
    cbv zeta. rewrite RevC_Do_list_value_iff. split.
    + intros (res & derr & H). exists req, res, derr. rewrite Hs. now split.
    + intros (req' & res & derr & [= <-] & H). rewrite Hs in H.
      now exists res, derr.
  - split; [discriminate |].
    intros (req' & res' & derr & Hn & _). discriminate Hn.
Qed.

(** X25 (client_test.go:276-302, 305-350, 391-409): Infographics returns
    a list with a nil error exactly when NewRequest built the request, the
    transport gave a response of status at most 299 to the signed request,
    and the decoder read the list from the body with no error or with
    io.EOF. *)
Theorem RevC_Infographics_succeeds_iff c (l : list I) :
  RevCOps.Infographics http_NewRequest json_Encode RoundTrip DecodeInfographics c
  = Returns (l, None)
  <-> exists req res derr,
        RevCOps.NewRequest http_NewRequest json_Encode c MethodGet
          "/infographics" ∅ None = inl req
        /\ fst (RoundTrip (fst (RevC.SignRequest c req))) = Some res
        /\ (StatusCode res <= 299)%Z
        /\ DecodeInfographics (ResBody res) [] = (l, derr)
        /\ (derr = None \/ derr = Some EOF).
Proof.
  apply (RevC_signed_list_result_iff _ (RevC.SignRequest c) DecodeInfographics
           "new infographics request: " l).
  intros req. reflexivity.
Qed.



End LaterDoOperations.
